(** * Gokaraju portal scraper: table extraction and session lifecycle

    A shallow embedding of [app.py].  Python [str] values are sequences of
    Unicode code points; the browser-automation engine is an oracle that
    answers queries and may raise at any call; the scrapers are written in
    a small exception-and-trace monad so that every engine call, every
    session close and every file write of the source is visible. *)

From Stdlib Require Import String Ascii.
From Stdlib Require Import List NArith Bool Arith Lia.
Import ListNotations.

Set Implicit Arguments.
Set Warnings "-register-all".

(** ** Python strings *)

Module PyStr.

(** A [str] is a sequence of code points. *)
Definition pystr := list N.

(** ASCII literal of the source as a [str]. *)
Definition lit (x : string) : pystr := map N_of_ascii (list_ascii_of_string x).

Fixpoint str_eqb (a b : pystr) : bool :=
  match a, b with
  | [], [] => true
  | x :: a', y :: b' => N.eqb x y && str_eqb a' b'
  | _, _ => false
  end.

Definition in_ranges (c : N) (rs : list (N * N)) : bool :=
  existsb (fun r => N.leb (fst r) c && N.leb c (snd r)) rs.

(** Code points for which [str.isspace] holds (these are what [strip()]
    with no argument removes).  U+00A0, the non-breaking space, is one. *)
Definition space_ranges : list (N * N) :=
  [(9, 13); (28, 32); (133, 133); (160, 160); (5760, 5760); (8192, 8202);
   (8232, 8233); (8239, 8239); (8287, 8287); (12288, 12288)]%N.

Definition ch_isspace (c : N) : bool := in_ranges c space_ranges.

(** Code points with Numeric_Type Decimal or Digit (Unicode 14), the
    characters accepted by [str.isdigit]. *)
Definition digit_ranges : list (N * N) :=
  [(48, 57); (178, 179); (185, 185); (1632, 1641); (1776, 1785); (1984, 1993);
   (2406, 2415); (2534, 2543); (2662, 2671); (2790, 2799); (2918, 2927);
   (3046, 3055); (3174, 3183); (3302, 3311); (3430, 3439); (3558, 3567);
   (3664, 3673); (3792, 3801); (3872, 3881); (4160, 4169); (4240, 4249);
   (4969, 4977); (6112, 6121); (6160, 6169); (6470, 6479); (6608, 6618);
   (6784, 6793); (6800, 6809); (6992, 7001); (7088, 7097); (7232, 7241);
   (7248, 7257); (8304, 8304); (8308, 8313); (8320, 8329); (9312, 9320);
   (9332, 9340); (9352, 9360); (9450, 9450); (9461, 9469); (9471, 9471);
   (10102, 10110); (10112, 10120); (10122, 10130); (42528, 42537);
   (43216, 43225); (43264, 43273); (43472, 43481); (43504, 43513);
   (43600, 43609); (44016, 44025); (65296, 65305); (66720, 66729);
   (68160, 68163); (68912, 68921); (69216, 69224); (69714, 69722);
   (69734, 69743); (69872, 69881); (69942, 69951); (70096, 70105);
   (70384, 70393); (70736, 70745); (70864, 70873); (71248, 71257);
   (71360, 71369); (71472, 71481); (71904, 71913); (72016, 72025);
   (72784, 72793); (73040, 73049); (73120, 73129); (92768, 92777);
   (92864, 92873); (93008, 93017); (120782, 120831); (123200, 123209);
   (123632, 123641); (125264, 125273); (127232, 127242); (130032, 130041)]%N.

Definition ch_isdigit (c : N) : bool := in_ranges c digit_ranges.

(** [s.isdigit()]: non-empty and every character is a digit. *)
Definition isdigit (s : pystr) : bool :=
  match s with
  | [] => false
  | _ => forallb ch_isdigit s
  end.

Fixpoint drop_while (p : N -> bool) (s : pystr) : pystr :=
  match s with
  | [] => []
  | c :: s' => if p c then drop_while p s' else s
  end.

Definition lstrip_by (p : N -> bool) (s : pystr) : pystr := drop_while p s.
Definition rstrip_by (p : N -> bool) (s : pystr) : pystr :=
  rev (drop_while p (rev s)).

(** [s.strip()] *)
Definition strip (s : pystr) : pystr := rstrip_by ch_isspace (lstrip_by ch_isspace s).

(** [s.rstrip(":")] *)
Definition colon : N := 58%N.
Definition rstrip_colon (s : pystr) : pystr := rstrip_by (N.eqb colon) s.

(** [s.replace("\xa0", "")] *)
Definition nbsp : N := 160%N.
Definition remove_nbsp (s : pystr) : pystr := filter (fun c => negb (N.eqb c nbsp)) s.

(** [s.startswith(p)] *)
Fixpoint startswith (p s : pystr) : bool :=
  match p, s with
  | [], _ => true
  | x :: p', y :: s' => N.eqb x y && startswith p' s'
  | _ :: _, [] => false
  end.

(** [p in s] *)
Fixpoint contains (p s : pystr) : bool :=
  startswith p s ||
  match s with
  | [] => false
  | _ :: s' => contains p s'
  end.

(** Truthiness of a [str]: non-empty. *)
Definition truthy (s : pystr) : bool :=
  match s with [] => false | _ => true end.

(** The case mapping of [str.lower] on ASCII text; the scrapers take the
    runtime's full Unicode mapping as a parameter. *)
Definition ascii_lower_ch (c : N) : N :=
  if N.leb 65 c && N.leb c 90 then (c + 32)%N else c.
Definition ascii_lower (s : pystr) : pystr := map ascii_lower_ch s.

End PyStr.
Import PyStr.

(** ** Python dicts (insertion-ordered, unique keys) *)

Module PyDict.

Definition dict (V : Type) := list (pystr * V).

Fixpoint dict_get {V} (d : dict V) (k : pystr) : option V :=
  match d with
  | [] => None
  | (k', v) :: d' => if str_eqb k' k then Some v else dict_get d' k
  end.

(** [d[k] = v]: overwrite in place, or append a new key. *)
Fixpoint dict_set {V} (d : dict V) (k : pystr) (v : V) : dict V :=
  match d with
  | [] => [(k, v)]
  | (k', v') :: d' =>
      if str_eqb k' k then (k', v) :: d' else (k', v') :: dict_set d' k v
  end.

(** [dict(zip(keys, vals))] *)
Definition dict_zip {V} (keys : list pystr) (vals : list V) : dict V :=
  fold_left (fun d kv => dict_set d (fst kv) (snd kv)) (combine keys vals) [].

Definition keys {V} (d : dict V) : list pystr := map fst d.

End PyDict.
Import PyDict.

Definition record := dict pystr.

(** ** What is persisted *)

Inductive json : Type :=
| JStr (s : pystr)
| JList (items : list json)
| JDict (fields : list (pystr * json)).

Definition json_of_record (r : record) : json :=
  JDict (map (fun kv => (fst kv, JStr (snd kv))) r).
Definition json_of_records (rs : list record) : json :=
  JList (map json_of_record rs).

(** A written file: [json.dump(v, indent=n, ensure_ascii=False)] or the rows
    handed to a [csv] writer, header row first. *)
Inductive file_content : Type :=
| FJson (indent : nat) (v : json)
| FCsv (rows : list (list pystr)).

(** ** The browser-automation engine *)

(** The DOM as the scrapers see it: the answers of the selectors they use. *)
Record Row := mkRow {
  row_td : list pystr;      (* inner texts of [row.query_selector_all("td")] *)
  row_td_th : list pystr    (* inner texts of [row.query_selector_all("td, th")] *)
}.

Record Table := mkTable {
  first_row_cells : list pystr;   (* "tr:first-child td, tr:first-child th" *)
  table_rows : list Row           (* "tr" *)
}.

Record Page := mkPage {
  report_tables : list Table;            (* "#tblReport table" *)
  calendar_container : option (list Row);
      (* "#ctl00_CapPlaceHolder_divstudent table.reportTable", its "tr" *)
  attendance_rows : list Row;            (* "table.cellBorder tr" *)
  library_rows : list Row;               (* "table#tblbooks tr" *)
  bio_rows0 : list (list pystr);
      (* "#divProfile_BioData > table", nth(0), "tr": the "td" texts of each *)
  bio_rows1 : list (list pystr)
      (* "#divProfile_BioData > table", nth(1), "table", "tr" *)
}.

Definition blank_page : Page := mkPage [] None [] [] [] [].

(** Every awaited engine call and every file write, in order. *)
Inductive event : Type :=
| EvStart                       (* entering [async with async_playwright()] *)
| EvStop                        (* leaving it *)
| EvLaunch                      (* [chromium.launch] *)
| EvNewPage
| EvGoto (url : pystr)
| EvFill (sel value : pystr)
| EvClick (sel : pystr)
| EvCheck (sel : pystr)
| EvWaitTimeout (ms : N)
| EvWaitLoadState (st : pystr)
| EvWaitSelector (sel : pystr)
| EvQuery (sel : pystr)         (* query_selector, query_selector_all, count *)
| EvInnerText
| EvClose                       (* [browser.close] *)
| EvWrite (name : pystr) (c : file_content).

(** The portal and the engine: whether the call that has just been logged
    raises, and the page shown after an interaction, both as functions of
    the history (latest event first). *)
Record World := mkWorld {
  raises : list event -> bool;
  shows : list event -> Page
}.

Record state := mkState {
  trace : list event;   (* latest first *)
  page : Page
}.

Inductive result (A : Type) : Type :=
| Ok (a : A)
| Raised.
Arguments Raised {A}.

Definition M (A : Type) : Type := state -> result A * state.

Definition ret {A} (a : A) : M A := fun st => (Ok a, st).

Definition bind {A B} (m : M A) (f : A -> M B) : M B :=
  fun st =>
    match m st with
    | (Ok a, st') => f a st'
    | (Raised, st') => (Raised, st')
    end.

Notation "x <- m ;; k" := (bind m (fun x => k))
  (at level 61, m at next level, right associativity).
Notation "m ;;; k" := (bind m (fun _ => k))
  (at level 61, right associativity).

(** [try: m except Exception: pass] *)
Definition try_pass (m : M unit) : M unit :=
  fun st =>
    match m st with
    | (Ok _, st') => (Ok tt, st')
    | (Raised, st') => (Ok tt, st')
    end.

(** [for x in xs: acc = body(acc, x)] *)
Fixpoint for_each {A B} (body : B -> A -> M B) (xs : list A) (acc : B) : M B :=
  match xs with
  | [] => ret acc
  | x :: xs' => acc' <- body acc x ;; for_each body xs' acc'
  end.

(** [[f(x) for x in xs]] with an awaited [f] *)
Fixpoint map_m {A B} (f : A -> M B) (xs : list A) : M (list B) :=
  match xs with
  | [] => ret []
  | x :: xs' => y <- f x ;; ys <- map_m f xs' ;; ret (y :: ys)
  end.

Section Engine.

Variable W : World.

(** An engine call: logged, may raise; [reload] says whether the page may
    differ afterwards (navigation, form input, waiting). *)
Definition call (reload : bool) (e : event) : M unit :=
  fun st =>
    let tr := e :: trace st in
    let st' := mkState tr (if reload then shows W tr else page st) in
    if raises W tr then (Raised, st') else (Ok tt, st').

Definition interact (e : event) : M unit := call true e.
Definition observe (e : event) : M unit := call false e.

Definition current_page : M Page := fun st => (Ok (page st), st).

(** [await cell.inner_text()] *)
Definition inner_text (cell : pystr) : M pystr :=
  observe EvInnerText ;;; ret cell.

(** [[ g(await cell.inner_text()) for cell in cells ]] *)
Definition inner_texts (g : pystr -> pystr) (cells : list pystr) : M (list pystr) :=
  map_m (fun c => t <- inner_text c ;; ret (g t)) cells.

(** [await x.query_selector_all(sel)] / [await locator.count()] on a handle
    whose answer is [answer]. *)
Definition query {A} (sel : string) (answer : A) : M A :=
  observe (EvQuery (lit sel)) ;;; ret answer.

(** The same on the page. *)
Definition query_page {A} (sel : string) (field : Page -> A) : M A :=
  observe (EvQuery (lit sel)) ;;; p <- current_page ;; ret (field p).

Definition write_file (name : string) (c : file_content) : M unit :=
  observe (EvWrite (lit name) c).

(** [async with async_playwright() as pw: body]: the context is left on
    every path. *)
Definition with_playwright {A} (body : M A) : M A :=
  fun st =>
    match observe EvStart st with
    | (Raised, st1) => (Raised, st1)
    | (Ok _, st1) =>
        match body st1 with
        | (r, st2) => (r, mkState (EvStop :: trace st2) (page st2))
        end
    end.

End Engine.

(** ** Configuration *)

Definition LOGIN_URL : pystr :=
  lit "https://www.webprosindia.com/Gokaraju/StudentMaster.aspx".
Definition ATTENDANCE_URL : pystr :=
  lit "https://www.webprosindia.com/Gokaraju/Academics/StudentAttendance.aspx?scrid=3&showtype=SA".
Definition LIBRARY_URL : pystr :=
  lit "https://www.webprosindia.com/gokaraju/Library/studentsbooks.aspx?scrid=14".
Definition PROFILE_URL : pystr :=
  lit "https://www.webprosindia.com/Gokaraju/Academics/StudentProfile.aspx?scrid=17".
Definition TIMETABLE_URL : pystr :=
  lit "https://www.webprosindia.com/gokaraju/Academics/TimeTableReport.aspx?scrid=18".
Definition ACADEMIC_CALENDAR_URL : pystr :=
  lit "https://www.webprosindia.com/gokaraju/Academics/AcademicCalenderReport.aspx?scrid=1".

(** Field-name lists of the reports. *)
Definition std_headers : list pystr :=
  map lit ["Day"; "Period 1"; "Period 2"; "Period 3"; "Break";
           "Period 4"; "Period 5"; "Period 6"; "Period 7"]%string.
Definition attendance_headers : list pystr :=
  map lit ["Sl.No."; "Subject"; "Held"; "Attend"; "%"]%string.
Definition library_headers : list pystr :=
  map lit ["Sl.No"; "Acc.No"; "Title"; "Author"; "Issue Date"; "Due Date";
           "Fine Days"; "Fine Amount"]%string.
Definition edu_fields : list pystr :=
  map lit ["Board"; "HallTicketNo"; "YearOfPass"; "Institute"; "MaxMarks";
           "Obtained"; "GradeLetter"; "GradePoints"]%string.
Definition bio_csv_header : list pystr :=
  map lit ["Section"; "Subsection"; "Field"; "Value"]%string.

(** Truthiness of a list. *)
Definition nonempty {A} (l : list A) : bool :=
  match l with [] => false | _ => true end.

(** Rows written by [csv.DictWriter(f, fieldnames)]: [writeheader], then
    [writerows(data)]. *)
Definition csv_dict_rows (fieldnames : list pystr) (data : list record) : list (list pystr) :=
  fieldnames ::
  map (fun d => map (fun h => match dict_get d h with Some v => v | None => [] end)
                    fieldnames) data.

(** ** The scrapers *)

Section Scrapers.

Variable W : World.

(** [h.lower()]: the runtime's Unicode case mapping. *)
Variable str_lower : pystr -> pystr.

Definition login_and_get_page (username password : pystr) : M unit :=
  interact W EvLaunch ;;;
  interact W EvNewPage ;;;
  interact W (EvGoto LOGIN_URL) ;;;
  interact W (EvFill (lit "#txtId2") username) ;;;
  interact W (EvFill (lit "#txtPwd2") password) ;;;
  interact W (EvClick (lit "#imgBtn2")) ;;;
  interact W (EvWaitTimeout 2000).

(** *** Timetable and faculty allocation *)

Definition is_timetable (headers : list pystr) : bool :=
  existsb (fun h => startswith (lit "day") (str_lower h)
                    || contains (lit "period") (str_lower h)) headers.

Definition is_faculty (headers : list pystr) : bool :=
  existsb (fun h => contains (lit "subject code") (str_lower h)
                    || contains (lit "faculty") (str_lower h)) headers.

Definition clean_cell (t : pystr) : pystr := remove_nbsp (strip t).

Definition timetable_row (timetable : list record) (row : Row) : M (list record) :=
  cells <- query W "td" (row_td row) ;;
  values <- inner_texts W clean_cell cells ;;
  if negb (length values =? length std_headers) then ret timetable
  else ret (timetable ++ [dict_zip std_headers values]).

Definition faculty_row (faculty : list record) (row : Row) : M (list record) :=
  cells <- query W "td" (row_td row) ;;
  values <- inner_texts W clean_cell cells ;;
  if 3 <=? length values then
    ret (faculty ++
         [[(lit "Subject Code", nth 0 values []);
           (lit "Subject", if 1 <? length values then nth 1 values [] else []);
           (lit "Faculty Name", if 2 <? length values then nth 2 values [] else []);
           (lit "Initials", if 3 <? length values then nth 3 values [] else [])]])
  else ret faculty.

Definition report_table (acc : list record * list record) (table : Table)
  : M (list record * list record) :=
  header_cells <- query W "tr:first-child td, tr:first-child th" (first_row_cells table) ;;
  headers <- inner_texts W strip header_cells ;;
  timetable <- (if is_timetable headers then
                  rows <- query W "tr" (table_rows table) ;;
                  for_each timetable_row (tl rows) (fst acc)
                else ret (fst acc)) ;;
  faculty <- (if is_faculty headers then
                rows <- query W "tr" (table_rows table) ;;
                for_each faculty_row (tl rows) (snd acc)
              else ret (snd acc)) ;;
  ret (timetable, faculty).

Definition extract_timetable_and_faculty : M (list record * list record) :=
  tables <- query_page W "#tblReport table" report_tables ;;
  acc <- for_each report_table tables ([], []) ;;
  (if nonempty (fst acc)
   then write_file W "output/timetable.json" (FJson 2 (json_of_records (fst acc)))
   else ret tt) ;;;
  (if nonempty (snd acc)
   then write_file W "output/faculty_allocation.json" (FJson 2 (json_of_records (snd acc)))
   else ret tt) ;;;
  ret acc.

(** *** Academic calendar *)

Definition calendar_row (headers : list pystr) (calendar : list record) (row : Row)
  : M (list record) :=
  cells <- query W "td" (row_td row) ;;
  values <- inner_texts W strip cells ;;
  if length values =? length headers
  then ret (calendar ++ [dict_zip headers values])
  else ret calendar.

Definition extract_academic_calendar : M (list record) :=
  container <- query_page W "#ctl00_CapPlaceHolder_divstudent table.reportTable"
                 calendar_container ;;
  match container with
  | None => ret []
  | Some trs =>
      rows <- query W "tr" trs ;;
      match rows with
      | [] => ret []
      | row0 :: rest =>
          header_cells <- query W "td, th" (row_td_th row0) ;;
          headers <- inner_texts W strip header_cells ;;
          calendar <- for_each (calendar_row headers) rest [] ;;
          (if nonempty calendar
           then write_file W "output/academic_calendar.json"
                  (FJson 2 (json_of_records calendar))
           else ret tt) ;;;
          ret calendar
      end
  end.

(** *** Attendance and library books *)

(** The row loop shared by both: [n] cells, a leading [isdigit] cell. *)
Definition numbered_row (headers : list pystr) (n : nat)
    (data : list record) (row : Row) : M (list record) :=
  cols <- query W "td" (row_td row) ;;
  if length cols =? n then
    vals <- inner_texts W strip cols ;;
    if isdigit (nth 0 vals []) then ret (data ++ [dict_zip headers vals])
    else ret data
  else ret data.

Definition attendance_row := numbered_row attendance_headers 5.
Definition library_row := numbered_row library_headers 8.

Definition dquote : pystr := [34%N].

Definition fetch_attendance (username password : pystr) : M (list record) :=
  with_playwright W (
    login_and_get_page username password ;;;
    interact W (EvGoto ATTENDANCE_URL) ;;;
    interact W (EvWaitLoadState (lit "networkidle")) ;;;
    try_pass (
      interact W (EvCheck (lit "input[id=" ++ dquote ++ lit "radTillNow" ++ dquote ++ lit "]")) ;;;
      interact W (EvClick (lit "input[id=" ++ dquote ++ lit "btnShow" ++ dquote ++ lit "]"))) ;;;
    interact W (EvWaitTimeout 1500) ;;;
    rows <- query_page W "table.cellBorder tr" attendance_rows ;;
    data <- for_each attendance_row rows [] ;;
    observe W EvClose ;;;
    write_file W "output/attendance_data.json" (FJson 4 (json_of_records data)) ;;;
    write_file W "output/attendance_data.csv" (FCsv (csv_dict_rows attendance_headers data)) ;;;
    ret data).

Definition fetch_library_books (username password : pystr) : M (list record) :=
  with_playwright W (
    login_and_get_page username password ;;;
    interact W (EvGoto LIBRARY_URL) ;;;
    interact W (EvWaitTimeout 1500) ;;;
    rows <- query_page W "table#tblbooks tr" library_rows ;;
    data <- for_each library_row rows [] ;;
    observe W EvClose ;;;
    write_file W "output/library_books.json" (FJson 4 (json_of_records data)) ;;;
    write_file W "output/library_books.csv" (FCsv (csv_dict_rows library_headers data)) ;;;
    ret data).

(** *** Bio-data and education *)

(** One iteration of the personal-details loop; [cells] are the "td"
    cells of [rows0.nth(i)]. *)
Definition bio_row (bio : dict pystr) (cells : list pystr) : M (dict pystr) :=
  cnt <- query W "td" (length cells) ;;
  if cnt =? 2 then
    k0 <- inner_text W (nth 0 cells []) ;;
    v0 <- inner_text W (nth 1 cells []) ;;
    let k := rstrip_colon (strip k0) in
    let v := strip v0 in
    if truthy k && truthy v then ret (dict_set bio k v) else ret bio
  else if 6 <=? cnt then
    k1 <- inner_text W (nth 0 cells []) ;;
    v1 <- inner_text W (nth 2 cells []) ;;
    k2 <- inner_text W (nth 3 cells []) ;;
    v2 <- inner_text W (nth 5 cells []) ;;
    let bio1 := if truthy (rstrip_colon (strip k1)) && truthy (strip v1)
                then dict_set bio (rstrip_colon (strip k1)) (strip v1) else bio in
    let bio2 := if truthy (rstrip_colon (strip k2)) && truthy (strip v2)
                then dict_set bio1 (rstrip_colon (strip k2)) (strip v2) else bio1 in
    ret bio2
  else ret bio.

Definition blank_edu_record : record := map (fun f => (f, [])) edu_fields.

Definition default_edu : dict record :=
  [(lit "School (SSC)", blank_edu_record);
   (lit "Intermediate", blank_edu_record);
   (lit "Diploma", blank_edu_record)].

(** The [if qual in (...): key = ...] chain. *)
Definition qualification_key (qual : pystr) : option pystr :=
  if str_eqb qual (lit "ssc") || str_eqb qual (lit "s.s.c") then Some (lit "School (SSC)")
  else if str_eqb qual (lit "inter") || str_eqb qual (lit "intermediate")
       then Some (lit "Intermediate")
  else if str_eqb qual (lit "diploma") then Some (lit "Diploma")
  else None.

Definition stripped_text (cell : pystr) : M pystr :=
  t <- inner_text W cell ;; ret (strip t).

(** One iteration of the education loop. *)
Definition edu_row (edu : dict record) (cells : list pystr) : M (dict record) :=
  cnt <- query W "td" (length cells) ;;
  if cnt <? 7 then ret edu else
  q <- inner_text W (nth 0 cells []) ;;
  let qual := str_lower (strip q) in
  if negb (truthy qual) then ret edu else
  match qualification_key qual with
  | None => ret edu
  | Some key =>
      B <- stripped_text (nth 1 cells []) ;;
      H <- stripped_text (nth 2 cells []) ;;
      Y <- stripped_text (nth 3 cells []) ;;
      I <- stripped_text (nth 4 cells []) ;;
      Mx <- stripped_text (nth 5 cells []) ;;
      Ob <- stripped_text (nth 6 cells []) ;;
      cnt7 <- query W "td" (length cells) ;;
      GL <- (if 7 <? cnt7 then stripped_text (nth 7 cells []) else ret []) ;;
      cnt8 <- query W "td" (length cells) ;;
      GP <- (if 8 <? cnt8 then stripped_text (nth 8 cells []) else ret []) ;;
      if existsb truthy [B; H; Y; I; Mx; Ob; GL; GP] then
        ret (dict_set edu key (combine edu_fields [B; H; Y; I; Mx; Ob; GL; GP]))
      else ret edu
  end.

Definition bio_json (bio : dict pystr) (edu : dict record) : json :=
  JDict [(lit "BioData", json_of_record bio);
         (lit "Education", JDict (map (fun kv => (fst kv, json_of_record (snd kv))) edu))].

Definition bio_csv_rows (bio : dict pystr) (edu : dict record) : list (list pystr) :=
  bio_csv_header ::
  map (fun fv => [lit "BioData"; []; fst fv; snd fv]) bio ++
  flat_map (fun sd => map (fun fv => [lit "Education"; fst sd; fst fv; snd fv]) (snd sd)) edu.

Definition fetch_bio_data (username password : pystr) : M (dict pystr * dict record) :=
  with_playwright W (
    login_and_get_page username password ;;;
    interact W (EvGoto PROFILE_URL) ;;;
    interact W (EvWaitTimeout 1000) ;;;
    try_pass (
      interact W (EvClick (lit "text=BIO-DATA")) ;;;
      interact W (EvWaitSelector (lit "#divProfile_BioData"))) ;;;
    rows0 <- query_page W "#divProfile_BioData > table >> nth=0 >> tr" bio_rows0 ;;
    bio <- for_each bio_row rows0 [] ;;
    rows1 <- query_page W "#divProfile_BioData > table >> nth=1 >> table >> tr" bio_rows1 ;;
    edu <- for_each edu_row (tl rows1) default_edu ;;
    observe W EvClose ;;;
    write_file W "output/bio_data.json" (FJson 4 (bio_json bio edu)) ;;;
    write_file W "output/bio_data.csv" (FCsv (bio_csv_rows bio edu)) ;;;
    ret (bio, edu)).

(** *** Timetable and calendar in one session *)

Definition fetch_timetable_and_calendar (username password : pystr)
  : M (list record * list record * list record) :=
  with_playwright W (
    login_and_get_page username password ;;;
    interact W (EvGoto TIMETABLE_URL) ;;;
    interact W (EvWaitSelector (lit "#tblReport")) ;;;
    tf <- extract_timetable_and_faculty ;;
    interact W (EvGoto ACADEMIC_CALENDAR_URL) ;;;
    interact W (EvWaitTimeout 1000) ;;;
    calendar <- extract_academic_calendar ;;
    observe W EvClose ;;;
    ret (fst tf, snd tf, calendar)).

End Scrapers.

(** ** Observations on a run and the vocabulary of the claims *)

(** Number of [browser.close] calls in a history. *)
Fixpoint closes_of (tr : list event) : nat :=
  match tr with
  | [] => 0
  | EvClose :: tr' => S (closes_of tr')
  | _ :: tr' => closes_of tr'
  end.

(** Number of browser launches in a history. *)
Fixpoint launches_of (tr : list event) : nat :=
  match tr with
  | [] => 0
  | EvLaunch :: tr' => S (launches_of tr')
  | _ :: tr' => launches_of tr'
  end.

(** Files written, oldest first. *)
Fixpoint writes_of (tr : list event) : list (pystr * file_content) :=
  match tr with
  | [] => []
  | EvWrite name c :: tr' => writes_of tr' ++ [(name, c)]
  | _ :: tr' => writes_of tr'
  end.

(** An event that is neither a close nor a file write. *)
Definition scraping (e : event) : Prop :=
  match e with
  | EvClose | EvWrite _ _ => False
  | _ => True
  end.

(** The run from [st] to [st'] logged only events satisfying [P]. *)
Definition logged (P : event -> Prop) (st st' : state) : Prop :=
  exists new, trace st' = new ++ trace st /\ Forall P new.

Definition logs_only {A} (P : event -> Prop) (m : M A) : Prop :=
  forall st r st', m st = (r, st') -> logged P st st'.

(** Nothing raises: no engine call and no file write. *)
Definition quiet (W : World) : Prop := forall tr, raises W tr = false.

Definition still_world (p : Page) : World := mkWorld (fun _ => false) (fun _ => p).
Definition start : state := mkState [] blank_page.

(** A world whose engine raises exactly at the navigation to [url]. *)
Definition event_is_goto (url : pystr) (e : event) : bool :=
  match e with
  | EvGoto u => str_eqb u url
  | _ => false
  end.
Definition unreachable (url : pystr) : World :=
  mkWorld (fun tr => match tr with e :: _ => event_is_goto url e | [] => false end)
          (fun _ => blank_page).

(** "A valid non-negative integer string" in the words of the
    specification: one or more decimal digits 0-9. *)
Definition decimal_digit (c : N) : bool := N.leb 48 c && N.leb c 57.
Definition integer_string (s : pystr) : bool := nonempty s && forallb decimal_digit s.

Definition is_ascii (s : pystr) : Prop := Forall (fun c => (c < 128)%N) s.

Definition starts_with (p s : pystr) : Prop := exists r, s = p ++ r.
Definition has_substring (p s : pystr) : Prop := exists a b, s = a ++ p ++ b.

(** No whitespace at either end. *)
Definition trimmed (s : pystr) : Prop :=
  (forall c r, s = c :: r -> ch_isspace c = false) /\
  (forall r c, s = r ++ [c] -> ch_isspace c = false).

(** The records the row loops append for one row. *)
Definition numbered_records (headers : list pystr) (n : nat) (cells : list pystr)
  : list record :=
  if (length cells =? n) && isdigit (strip (nth 0 cells []))
  then [combine headers (map strip cells)] else [].

Definition timetable_records (cells : list pystr) : list record :=
  if length cells =? 9 then [combine std_headers (map clean_cell cells)] else [].

Definition faculty_records (cells : list pystr) : list record :=
  if 3 <=? length cells then
    [[(lit "Subject Code", clean_cell (nth 0 cells []));
      (lit "Subject", clean_cell (nth 1 cells []));
      (lit "Faculty Name", clean_cell (nth 2 cells []));
      (lit "Initials", match nth_error cells 3 with
                       | Some c => clean_cell c
                       | None => []
                       end)]]
  else [].

Definition calendar_records (headers cells : list pystr) : list record :=
  if length cells =? length headers then [dict_zip headers (map strip cells)] else [].

(** ** Derived notions used in the statements *)

(** [m] logs only scraping events, leaves the page as it is, and returns
    [v] unless the engine raises. *)
Definition yields (W : World) {A} (m : M A) (v : A) : Prop :=
  forall st, exists r st',
    m st = (r, st') /\ logged scraping st st' /\ page st' = page st /\
    (r = Ok v \/ r = Raised /\ exists tr, raises W tr = true).

Fixpoint distinct (ks : list pystr) : bool :=
  match ks with
  | [] => true
  | k :: ks' => negb (existsb (str_eqb k) ks') && distinct ks'
  end.

Definition maths_row : list pystr :=
  map lit ["1"; "Maths"; "40"; "38"; "95.0"]%string.

Definition total_row : list pystr :=
  map lit ["Total"; ""; ""; ""; ""]%string.

(** A row whose serial number is the superscript two, U+00B2. *)
Definition superscript_row : list pystr :=
  [178%N] :: map lit ["Maths"; "40"; "38"; "95.0"]%string.

Definition superscript_book : list pystr :=
  [178%N] :: map lit ["A1"; "Algebra"; "Lang"; "01-01"; "15-01"; "0"; "0"]%string.

Definition day_row : list pystr :=
  map lit ["Mon"; "M1"; "P"; "C"; ""; "E"; "M2"; "L"; "S"]%string.

Definition faculty_cells : list pystr :=
  map lit ["CS101"; "Programming"; "Dr. Rao"]%string.

(** The calendar read off a page: the first row of the container gives
    the headers, every later row one record or none. *)
Definition calendar_of (p : Page) : list record :=
  match calendar_container p with
  | Some (row0 :: rest) =>
      flat_map (fun row => calendar_records (map strip (row_td_th row0)) (row_td row)) rest
  | _ => []
  end.

Definition calendar_selector : pystr :=
  lit "#ctl00_CapPlaceHolder_divstudent table.reportTable".

(** The records one table contributes, per kind. *)
Definition timetable_of (lower : pystr -> pystr) (table : Table) : list record :=
  if is_timetable lower (map strip (first_row_cells table))
  then flat_map (fun row => timetable_records (row_td row)) (tl (table_rows table))
  else [].

Definition faculty_of (lower : pystr -> pystr) (table : Table) : list record :=
  if is_faculty lower (map strip (first_row_cells table))
  then flat_map (fun row => faculty_records (row_td row)) (tl (table_rows table))
  else [].

Definition timetable_header : list pystr := map lit ["Day"; "Period 1"]%string.

Definition faculty_header : list pystr :=
  map lit ["Subject Code"; "Subject"; "Faculty"]%string.

Definition plain_header : list pystr := map lit ["Name"; "Room"]%string.

Definition monday : Row := mkRow day_row [].

Definition sample_table : Table :=
  mkTable timetable_header [mkRow timetable_header []; monday].

Definition no_records : list record * list record := ([], []).

(** [(await cell.inner_text()).strip().rstrip(":")] *)
Definition label (t : pystr) : pystr := rstrip_colon (strip t).

(** The label/value pairs a row offers, by its cell count. *)
Definition bio_pairs (cells : list pystr) : list (pystr * pystr) :=
  if length cells =? 2 then
    [(label (nth 0 cells []), strip (nth 1 cells []))]
  else if 6 <=? length cells then
    [(label (nth 0 cells []), strip (nth 2 cells []));
     (label (nth 3 cells []), strip (nth 5 cells []))]
  else [].

(** [if k and v: bio[k] = v] *)
Definition add_pair (bio : dict pystr) (kv : pystr * pystr) : dict pystr :=
  if truthy (fst kv) && truthy (snd kv) then dict_set bio (fst kv) (snd kv) else bio.

Definition name_cells : list pystr := map lit ["Name :"; "Asha"]%string.

(** The eight extracted fields of a qualification row: the trimmed texts
    of cells 1 to 8, empty where the row has no such cell. *)
Definition edu_values (cells : list pystr) : list pystr :=
  map (fun i => strip (nth i cells [])) [1; 2; 3; 4; 5; 6; 7; 8].

(** The education dict after one row. *)
Definition edu_update (lower : pystr -> pystr) (edu : dict record) (cells : list pystr)
  : dict record :=
  if length cells <? 7 then edu else
  let qual := lower (strip (nth 0 cells [])) in
  if negb (truthy qual) then edu else
  match qualification_key qual with
  | None => edu
  | Some key =>
      if existsb truthy (edu_values cells)
      then dict_set edu key (combine edu_fields (edu_values cells))
      else edu
  end.

(** A row labelled SSC whose other cells hold only whitespace. *)
Definition blank_ssc_row : list pystr :=
  lit "SSC" :: map lit [""; " "; ""; ""; ""; ""; ""; ""]%string.

(** The rows the attendance and library loops collect. *)
Definition numbered_of (headers : list pystr) (n : nat) (rows : list Row) : list record :=
  flat_map (fun row => numbered_records headers n (row_td row)) rows.

(** The timetable and faculty lists read off a page. *)
Definition tables_of (lower : pystr -> pystr) (p : Page) : list record * list record :=
  fold_left (fun acc table =>
               (fst acc ++ timetable_of lower table, snd acc ++ faculty_of lower table))
            (report_tables p) ([], []).

Definition json_if_any (name : string) (rs : list record) : list (pystr * file_content) :=
  if nonempty rs then [(lit name, FJson 2 (json_of_records rs))] else [].

(** How a run ended: whether it raised, and how many browsers it launched
    and closed. *)
Definition outcome {A} (run : result A * state) : bool * nat * nat :=
  (match fst run with Raised => true | Ok _ => false end,
   launches_of (trace (snd run)),
   closes_of (trace (snd run))).

(** ** Further notions: schemas, shapes and sessions *)

Definition values {V} (d : dict V) : list V := map snd d.

Definition faculty_keys : list pystr :=
  map lit ["Subject Code"; "Subject"; "Faculty Name"; "Initials"]%string.

Definition edu_sections : list pystr :=
  map lit ["School (SSC)"; "Intermediate"; "Diploma"]%string.

(** The test of the attendance and library loops on a row's cells. *)
Definition accepted (n : nat) (cells : list pystr) : bool :=
  (length cells =? n) && isdigit (strip (nth 0 cells [])).

(** A label as the personal-details loop stores it: non-empty, not ending
    in a colon, not starting with whitespace. *)
Definition stored_label (k : pystr) : Prop :=
  k <> [] /\
  (forall r c, k = r ++ [c] -> c <> colon) /\
  (forall c r, k = c :: r -> ch_isspace c = false).

(** A header list with a repeated name, and a row under it. *)
Definition repeated_headers : list pystr := map lit ["Date"; "Event"; "Date"]%string.
Definition repeated_cells : list pystr := map lit ["01-08"; "Term begins"; "02-08"]%string.

(** A cleaned cell text: trimmed and free of non-breaking spaces. *)
Definition cleaned (v : pystr) : Prop := trimmed v /\ ~ In nbsp v.

(** A portal page with two attendance rows, one of them a footer. *)
Definition attendance_page : Page :=
  mkPage [] None [mkRow maths_row []; mkRow total_row []] [] [] [].

(** A page whose report container holds one timetable table. *)
Definition timetable_page : Page := mkPage [sample_table] None [] [] [] [].

(** A profile page: one personal-details row and a blank SSC row. *)
Definition profile_page : Page :=
  mkPage [] None [] [] [name_cells] [blank_ssc_row; blank_ssc_row].

(** A well-formed entry of the personal details. *)
Definition bio_entry_ok (kv : pystr * pystr) : Prop :=
  stored_label (fst kv) /\ snd kv <> [] /\ trimmed (snd kv).


(** ** Sessions on every path *)

(** Where a scrape stands: no browser launched yet, a browser open, or the
    browser closed again. *)
Inductive phase : Type := Idle | Busy | Done.

(** An event that neither launches nor closes a browser. *)
Definition calm (e : event) : Prop :=
  match e with
  | EvLaunch | EvClose => False
  | _ => True
  end.

(** An event that neither launches, nor closes, nor writes a file. *)
Definition plain (e : event) : Prop :=
  match e with
  | EvLaunch | EvClose | EvWrite _ _ => False
  | _ => True
  end.

(** Nothing written and nothing closed since [(Wr, C)] until the browser
    is closed; exactly one close afterwards. *)
Definition write_after_close (Wr : list (pystr * file_content)) (C : nat)
    (ph : phase) (tr : list event) : Prop :=
  match ph with
  | Done => closes_of tr = S C
  | _ => writes_of tr = Wr /\ closes_of tr = C
  end.

(** A run wrote a file only if it closed the browser. *)
Definition wrote_only_closed {A} (st : state) (run : result A * state) : Prop :=
  writes_of (trace (snd run)) = writes_of (trace st) \/
  closes_of (trace (snd run)) = S (closes_of (trace st)).

(** [m], started in a history satisfying [P], ends in one satisfying [Q]
    when it returns and in one satisfying [E] when it raises. *)
Definition triple {A} (P : list event -> Prop) (m : M A)
    (Q : A -> list event -> Prop) (E : list event -> Prop) : Prop :=
  forall st r st', m st = (r, st') -> P (trace st) ->
    match r with
    | Ok a => Q a (trace st')
    | Raised => E (trace st')
    end.

(** [m] takes a history of phase [p] to one of phase [q] when it returns,
    and to one of some phase when it raises. *)
Definition steps (Ph : phase -> list event -> Prop) {A} (p : phase) (m : M A) (q : phase)
  : Prop :=
  triple (Ph p) m (fun _ => Ph q) (fun tr => exists ph, Ph ph tr).

(** Launches and closes counted from a starting point [(L, C)]. *)
Definition counted (L C : nat) (ph : phase) (tr : list event) : Prop :=
  launches_of tr = L + (match ph with Idle => 0 | _ => 1 end) /\
  closes_of tr = C + (match ph with Done => 1 | _ => 0 end).

(** How a scrape changed the session counts of [st]. *)
Definition session_outcome {A} (st : state) (run : result A * state) : Prop :=
  match fst run with
  | Ok _ => counted (launches_of (trace st)) (closes_of (trace st)) Done (trace (snd run))
  | Raised =>
      exists ph, counted (launches_of (trace st)) (closes_of (trace st)) ph (trace (snd run))
  end.

(** Browsers open after a history. *)
Fixpoint open_sessions (tr : list event) : nat :=
  match tr with
  | [] => 0
  | EvLaunch :: tr' => S (open_sessions tr')
  | EvClose :: tr' => pred (open_sessions tr')
  | _ :: tr' => open_sessions tr'
  end.

(** At no moment of the history were two browsers open. *)
Fixpoint never_overlapping (tr : list event) : Prop :=
  match tr with
  | [] => True
  | e :: tr' => open_sessions (e :: tr') <= 1 /\ never_overlapping tr'
  end.

Definition sessions (ph : phase) (tr : list event) : Prop :=
  never_overlapping tr /\
  open_sessions tr = match ph with Busy => 1 | _ => 0 end.

(** [m] returns from every state. *)
Definition returns {A} (m : M A) : Prop :=
  forall st, exists a st', m st = (Ok a, st').

(** Whether the latest event of a history is a file write. *)
Definition latest_is_write (tr : list event) : bool :=
  match tr with
  | EvWrite _ _ :: _ => true
  | _ => false
  end.

(** No file write raises: every file can be opened and its content
    encoded. *)
Definition writes_succeed (W : World) : Prop :=
  forall tr, latest_is_write tr = true -> raises W tr = false.

(** No call of the browser engine raises. *)
Definition engine_quiet (W : World) : Prop :=
  forall tr, latest_is_write tr = false -> raises W tr = false.

(** A call of the browser engine raises only at events selected by [opt]. *)
Definition engine_raises_only_at (W : World) (opt : event -> bool) : Prop :=
  forall e tr, latest_is_write (e :: tr) = false ->
               raises W (e :: tr) = true -> opt e = true.

(** The best-effort interactions of the attendance and bio-data scrapers. *)
Definition attendance_optional (e : event) : bool :=
  match e with
  | EvCheck s => str_eqb s (lit "input[id=" ++ dquote ++ lit "radTillNow" ++ dquote ++ lit "]")
  | EvClick s => str_eqb s (lit "input[id=" ++ dquote ++ lit "btnShow" ++ dquote ++ lit "]")
  | _ => false
  end.

Definition bio_optional (e : event) : bool :=
  match e with
  | EvClick s => str_eqb s (lit "text=BIO-DATA")
  | EvWaitSelector s => str_eqb s (lit "#divProfile_BioData")
  | _ => false
  end.

(** A world whose engine raises exactly at the events selected by [opt]. *)
Definition failing_at (opt : event -> bool) (p : Page) : World :=
  mkWorld (fun tr => match tr with e :: _ => opt e | [] => false end) (fun _ => p).

(** ** The HTTP endpoints *)

(** The body of a response: [jsonify({"data": a})] with status 200, or
    [jsonify({"error": str(e)}), 500]; the text of the message is not
    modelled. *)
Inductive response (A : Type) : Type :=
| Data (a : A)
| Error500.
Arguments Error500 {A}.

(** [request.get_json()] and the two [creds.get]: [None] stands for a body
    for which these raise (it does not parse to a JSON object); bodies
    that parse but lack a string username or password are not modelled. *)
Definition get_credentials (body : option (pystr * pystr)) : M (pystr * pystr) :=
  fun st =>
    match body with
    | Some creds => (Ok creds, st)
    | None => (Raised, st)
    end.

(** [try: ... return jsonify({"data": data}) except Exception as e: ...] *)
Definition respond {A} (m : M A) (st : state) : response A * state :=
  match m st with
  | (Ok a, st') => (Data a, st')
  | (Raised, st') => (Error500, st')
  end.

(** The combined dict of [/get-all]. *)
Record all_reports : Type := mkAll {
  all_timetable : list record;
  all_faculty_allocation : list record;
  all_academic_calendar : list record;
  all_attendance : list record;
  all_library_books : list record;
  all_bio_data : dict pystr * dict record
}.

Section Endpoints.

Variable W : World.
Variable str_lower : pystr -> pystr.

Definition http_get_timetable_and_calendar (body : option (pystr * pystr)) :=
  respond (creds <- get_credentials body ;;
           fetch_timetable_and_calendar W str_lower (fst creds) (snd creds)).

Definition http_get_attendance (body : option (pystr * pystr)) :=
  respond (creds <- get_credentials body ;;
           fetch_attendance W (fst creds) (snd creds)).

Definition http_get_library_books (body : option (pystr * pystr)) :=
  respond (creds <- get_credentials body ;;
           fetch_library_books W (fst creds) (snd creds)).

Definition http_get_bio_data (body : option (pystr * pystr)) :=
  respond (creds <- get_credentials body ;;
           fetch_bio_data W str_lower (fst creds) (snd creds)).

Definition http_get_all (body : option (pystr * pystr)) :=
  respond (creds <- get_credentials body ;;
           tt_cal <- fetch_timetable_and_calendar W str_lower (fst creds) (snd creds) ;;
           attendance <- fetch_attendance W (fst creds) (snd creds) ;;
           library <- fetch_library_books W (fst creds) (snd creds) ;;
           bio <- fetch_bio_data W str_lower (fst creds) (snd creds) ;;
           ret (mkAll (fst (fst tt_cal)) (snd (fst tt_cal)) (snd tt_cal)
                      attendance library bio)).

End Endpoints.

(** After [k] complete sessions counted from [(L, C)]. *)
Definition sessions_done (L C k : nat) (tr : list event) : Prop :=
  launches_of tr = L + k /\ closes_of tr = C + k.

(** After at most four sessions, the last one possibly left open. *)
Definition sessions_partial (L C : nat) (tr : list event) : Prop :=
  exists l c, launches_of tr = L + l /\ closes_of tr = C + c /\
              c <= l /\ l <= S c /\ l <= 4.

(** How an endpoint changed the session counts of [st]. *)
Definition endpoint_outcome {A} (st : state) (run : response A * state) : Prop :=
  match fst run with
  | Data _ => counted (launches_of (trace st)) (closes_of (trace st)) Done (trace (snd run))
  | Error500 =>
      exists ph, counted (launches_of (trace st)) (closes_of (trace st)) ph (trace (snd run))
  end.

(** [m], run from [st], returns a value and a state satisfying [Q]. *)
Definition runs_to {A} (m : M A) (st : state) (Q : A -> state -> Prop) : Prop :=
  exists a st', m st = (Ok a, st') /\ Q a st'.

(** The personal details and the education records read off a page. *)
Definition bio_of (p : Page) : dict pystr :=
  fold_left (fun b cells => fold_left add_pair (bio_pairs cells) b) (bio_rows0 p) [].
Definition edu_of (lower : pystr -> pystr) (p : Page) : dict record :=
  fold_left (edu_update lower) (tl (bio_rows1 p)) default_edu.

(** Pages for the row rules: a superscript serial number in both numbered
    tables, and a report container with a timetable and a faculty roster. *)
Definition superscript_page : Page :=
  mkPage [] None [mkRow superscript_row []] [mkRow superscript_book []] [] [].

Definition roster_table : Table :=
  mkTable faculty_header [mkRow faculty_header []; mkRow faculty_cells []].

Definition report_page : Page := mkPage [sample_table; roster_table] None [] [] [] [].

(** ** Facts about strings *)

Lemma str_eqb_eq (a b : pystr) : str_eqb a b = true <-> a = b.
Proof.
  revert b; induction a as [|x a IH]; intros [|y b]; simpl; split;
    try congruence; try reflexivity.
  - intros H. apply andb_true_iff in H as [Hx Hr].
    apply N.eqb_eq in Hx. apply IH in Hr. congruence.
  - intros H. injection H as -> ->. rewrite N.eqb_refl. simpl. now apply IH.
Qed.

Lemma str_eqb_refl (a : pystr) : str_eqb a a = true.
Proof. now apply str_eqb_eq. Qed.

Lemma str_eqb_neq (a b : pystr) : a <> b -> str_eqb a b = false.
Proof.
  intros H. destruct (str_eqb a b) eqn:E; auto.
  apply str_eqb_eq in E. contradiction.
Qed.

Lemma startswith_spec (p s : pystr) : startswith p s = true <-> starts_with p s.
Proof.
  unfold starts_with. revert s; induction p as [|x p IH]; intros s; simpl.
  - split; [intros _; now exists s | reflexivity].
  - destruct s as [|y s].
    + split; [discriminate | intros [r H]; discriminate].
    + rewrite andb_true_iff, N.eqb_eq, IH. split.
      * intros [-> [r ->]]. now exists r.
      * intros [r H]. injection H as -> ->. split; [reflexivity | now exists r].
Qed.

Lemma contains_spec (p s : pystr) : contains p s = true <-> has_substring p s.
Proof.
  unfold has_substring. induction s as [|y s IH]; simpl.
  - rewrite orb_false_r, startswith_spec. split.
    + intros [r H]. exists [], r. exact H.
    + intros [a [b H]]. destruct a; simpl in H.
      * now exists b.
      * discriminate.
  - rewrite orb_true_iff, startswith_spec, IH. split.
    + intros [[r H] | [a [b H]]].
      * exists [], r. exact H.
      * exists (y :: a), b. simpl. now rewrite H.
    + intros [a [b H]]. destruct a as [|z a]; simpl in H.
      * left. now exists b.
      * right. injection H as _ ->. now exists a, b.
Qed.

Lemma drop_while_head (p : N -> bool) (s : pystr) c r :
  drop_while p s = c :: r -> p c = false.
Proof.
  induction s as [|x s IH]; simpl; [discriminate|].
  destruct (p x) eqn:E; auto. intros H. now injection H as -> _.
Qed.

Lemma drop_while_suffix (p : N -> bool) (s : pystr) :
  exists a, s = a ++ drop_while p s /\ forallb p a = true.
Proof.
  induction s as [|x s [a [IH Ha]]]; simpl.
  - now exists [].
  - destruct (p x) eqn:E.
    + exists (x :: a). simpl. rewrite E, Ha. split; [now rewrite <- IH | reflexivity].
    + now exists [].
Qed.

Lemma rstrip_by_last (p : N -> bool) (s r : pystr) c :
  rstrip_by p s = r ++ [c] -> p c = false.
Proof.
  unfold rstrip_by. intros H.
  apply (f_equal (@rev N)) in H. rewrite rev_involutive, rev_app_distr in H.
  simpl in H. now apply drop_while_head in H.
Qed.

Lemma rstrip_by_prefix (p : N -> bool) (s : pystr) :
  exists z, s = rstrip_by p s ++ z /\ forallb p z = true.
Proof.
  unfold rstrip_by. destruct (drop_while_suffix p (rev s)) as [a [H Ha]].
  exists (rev a). split.
  - rewrite <- rev_app_distr, <- H. now rewrite rev_involutive.
  - rewrite forallb_forall in *. intros x Hx. apply Ha. now apply in_rev.
Qed.

Lemma rstrip_by_head (p : N -> bool) (s : pystr) c r :
  rstrip_by p s = c :: r -> exists r', s = c :: r'.
Proof.
  intros H. destruct (rstrip_by_prefix p s) as [z [Hs _]].
  rewrite H in Hs. simpl in Hs. eauto.
Qed.

Lemma strip_trimmed (s : pystr) : trimmed (strip s).
Proof.
  unfold trimmed, strip, lstrip_by. split.
  - intros c r H. apply rstrip_by_head in H as [r' H].
    now apply drop_while_head in H.
  - intros r c H. now apply rstrip_by_last in H.
Qed.

Lemma filter_last {A} (f : A -> bool) (l : list A) x :
  filter f (l ++ [x]) = filter f l ++ (if f x then [x] else []).
Proof. rewrite filter_app. reflexivity. Qed.

Lemma remove_nbsp_free (s : pystr) : ~ In nbsp (remove_nbsp s).
Proof.
  unfold remove_nbsp. intros H. apply filter_In in H as [_ H].
  now rewrite N.eqb_refl in H.
Qed.

Lemma nbsp_is_space : ch_isspace nbsp = true.
Proof. reflexivity. Qed.

Lemma remove_nbsp_trimmed (s : pystr) : trimmed s -> trimmed (remove_nbsp s).
Proof.
  unfold trimmed, remove_nbsp. intros [Hh Hl]. split.
  - intros c r H. destruct s as [|x s]; simpl in H; [discriminate|].
    assert (Hx : ch_isspace x = false) by (eapply Hh; reflexivity).
    destruct (N.eqb x nbsp) eqn:E.
    + apply N.eqb_eq in E. subst x. now rewrite nbsp_is_space in Hx.
    + simpl in H. now injection H as <- _.
  - intros r c H. destruct (exists_last (l := s)) as [s0 [x Hs]].
    + intros ->. simpl in H. now destruct r.
    + subst s. assert (Hx : ch_isspace x = false) by (eapply Hl; reflexivity).
      rewrite filter_last in H. destruct (N.eqb x nbsp) eqn:E.
      * apply N.eqb_eq in E. subst x. now rewrite nbsp_is_space in Hx.
      * simpl in H. apply app_inj_tail in H as [_ <-]. exact Hx.
Qed.

Lemma clean_cell_trimmed (t : pystr) : trimmed (clean_cell t) /\ ~ In nbsp (clean_cell t).
Proof.
  split.
  - apply remove_nbsp_trimmed, strip_trimmed.
  - apply remove_nbsp_free.
Qed.

(** On ASCII text [isdigit] is the decimal-digit test of the specification. *)
Lemma ch_isdigit_ascii (c : N) : (c < 128)%N -> ch_isdigit c = decimal_digit c.
Proof.
  intros H. unfold ch_isdigit, decimal_digit, in_ranges, digit_ranges.
  cbn [existsb fst snd].
  destruct (N.leb 48 c) eqn:E1, (N.leb c 57) eqn:E2; simpl; try reflexivity.
  - repeat match goal with
           | |- context [N.leb ?a c] =>
               replace (N.leb a c) with false by (symmetry; apply N.leb_gt; apply N.leb_gt in E2 || idtac; lia)
           end.
    reflexivity.
  - apply N.leb_gt in E1.
    repeat match goal with
           | |- context [N.leb ?a c] =>
               replace (N.leb a c) with false by (symmetry; apply N.leb_gt; lia)
           end.
    reflexivity.
  - apply N.leb_gt in E1.
    repeat match goal with
           | |- context [N.leb ?a c] =>
               replace (N.leb a c) with false by (symmetry; apply N.leb_gt; lia)
           end.
    reflexivity.
Qed.

(** ** Facts about the monad *)

Lemma bind_ok {A B} (m : M A) (f : A -> M B) st b st' :
  bind m f st = (Ok b, st') ->
  exists a st1, m st = (Ok a, st1) /\ f a st1 = (Ok b, st').
Proof.
  unfold bind. destruct (m st) as [[a|] st1]; intros H.
  - now exists a, st1.
  - discriminate.
Qed.

Lemma logged_refl P st : logged P st st.
Proof. exists []. split; [reflexivity | constructor]. Qed.

Lemma logged_trans P st1 st2 st3 :
  logged P st1 st2 -> logged P st2 st3 -> logged P st1 st3.
Proof.
  intros [n1 [H1 F1]] [n2 [H2 F2]]. exists (n2 ++ n1). split.
  - rewrite H2, H1. now rewrite app_assoc.
  - apply Forall_app. now split.
Qed.

Lemma logged_weaken (P Q : event -> Prop) st st' :
  (forall e, P e -> Q e) -> logged P st st' -> logged Q st st'.
Proof.
  intros HPQ [n [H F]]. exists n. split; [exact H|].
  eapply Forall_impl; eauto.
Qed.

Lemma scraping_closes (new tr : list event) :
  Forall scraping new -> closes_of (new ++ tr) = closes_of tr.
Proof.
  induction 1 as [|e new He _ IH]; simpl; [reflexivity|].
  destruct e; simpl in *; try exact IH; contradiction.
Qed.

Lemma scraping_writes (new tr : list event) :
  Forall scraping new -> writes_of (new ++ tr) = writes_of tr.
Proof.
  induction 1 as [|e new He _ IH]; simpl; [reflexivity|].
  destruct e; simpl in *; try exact IH; contradiction.
Qed.

Lemma logged_scraping st st' :
  logged scraping st st' ->
  closes_of (trace st') = closes_of (trace st) /\
  writes_of (trace st') = writes_of (trace st).
Proof.
  intros [new [-> F]]. split; [now apply scraping_closes | now apply scraping_writes].
Qed.

Section MonadFacts.

Variable W : World.

Lemma call_inv reload e st r st' :
  call W reload e st = (r, st') ->
  st' = mkState (e :: trace st) (if reload then shows W (e :: trace st) else page st) /\
  (r = Ok tt /\ raises W (e :: trace st) = false \/
   r = Raised /\ raises W (e :: trace st) = true).
Proof.
  unfold call. destruct (raises W (e :: trace st)) eqn:E; intros H;
    injection H as <- <-; auto.
Qed.

Lemma call_logged (P : event -> Prop) reload e st r st' :
  P e -> call W reload e st = (r, st') -> logged P st st'.
Proof.
  intros HP H. apply call_inv in H as [-> _]. exists [e]. split; [reflexivity|].
  now constructor.
Qed.

Lemma yields_ret {A} (v : A) : yields W (ret v) v.
Proof.
  intros st. exists (Ok v), st. repeat split; auto using logged_refl.
Qed.

Lemma yields_bind {A B} (m : M A) (f : A -> M B) a b :
  yields W m a -> yields W (f a) b -> yields W (bind m f) b.
Proof.
  intros Hm Hf st. destruct (Hm st) as (r1 & st1 & E1 & L1 & P1 & [-> | [-> Hr]]).
  - destruct (Hf st1) as (r2 & st2 & E2 & L2 & P2 & R2).
    exists r2, st2. unfold bind. rewrite E1. repeat split; auto.
    + eapply logged_trans; eauto.
    + congruence.
  - exists Raised, st1. unfold bind. rewrite E1. repeat split; auto.
Qed.

Lemma yields_observe e : scraping e -> yields W (observe W e) tt.
Proof.
  intros He st. destruct (observe W e st) as [r st'] eqn:E.
  exists r, st'. split; [reflexivity|]. split.
  - eapply call_logged; eauto.
  - apply call_inv in E as [-> [[-> _] | [-> Hr]]]; simpl; eauto.
Qed.

Lemma yields_query {A} sel (answer : A) : yields W (query W sel answer) answer.
Proof.
  unfold query. eapply yields_bind; [apply yields_observe; exact I | apply yields_ret].
Qed.

Lemma yields_inner_text cell : yields W (inner_text W cell) cell.
Proof.
  unfold inner_text. eapply yields_bind; [apply yields_observe; exact I | apply yields_ret].
Qed.

Lemma yields_map_m {A B} (f : A -> M B) (g : A -> B) xs :
  (forall x, yields W (f x) (g x)) -> yields W (map_m f xs) (map g xs).
Proof.
  intros Hf. induction xs as [|x xs IH]; simpl.
  - apply yields_ret.
  - eapply yields_bind; [apply Hf|].
    eapply yields_bind; [apply IH|]. apply yields_ret.
Qed.

Lemma yields_inner_texts g cells : yields W (inner_texts W g cells) (map g cells).
Proof.
  unfold inner_texts. apply yields_map_m. intros x.
  eapply yields_bind; [apply yields_inner_text | apply yields_ret].
Qed.

Lemma yields_for_each {A B} (body : B -> A -> M B) (F : B -> A -> B) xs acc :
  (forall acc x, yields W (body acc x) (F acc x)) ->
  yields W (for_each body xs acc) (fold_left F xs acc).
Proof.
  intros Hb. revert acc. induction xs as [|x xs IH]; intros acc; simpl.
  - apply yields_ret.
  - eapply yields_bind; [apply Hb | apply IH].
Qed.

Lemma yields_ok {A} (m : M A) v st r st' :
  yields W m v -> m st = (Ok r, st') ->
  r = v /\ logged scraping st st' /\ page st' = page st.
Proof.
  intros Hm E. destruct (Hm st) as (r1 & st1 & E1 & L1 & P1 & R1).
  rewrite E in E1. injection E1 as <- <-.
  destruct R1 as [R1 | [R1 _]]; [injection R1 as -> | discriminate]. auto.
Qed.

Lemma yields_quiet {A} (m : M A) v st :
  quiet W -> yields W m v -> exists st', m st = (Ok v, st').
Proof.
  intros Q Hm. destruct (Hm st) as (r1 & st1 & E1 & _ & _ & [-> | [_ [tr Hr]]]).
  - eauto.
  - rewrite Q in Hr. discriminate.
Qed.

Lemma yields_logged {A} (m : M A) v st r st' :
  yields W m v -> m st = (r, st') -> logged scraping st st'.
Proof.
  intros Hm E. destruct (Hm st) as (r1 & st1 & E1 & L1 & _).
  rewrite E in E1. now injection E1 as <- <-.
Qed.

End MonadFacts.

(** ** Facts about dicts *)

Lemma distinct_NoDup (ks : list pystr) : distinct ks = true -> NoDup ks.
Proof.
  induction ks as [|k ks IH]; simpl; intros H; constructor.
  - apply andb_true_iff in H as [H _]. intros Hin.
    apply negb_true_iff in H.
    assert (E : existsb (str_eqb k) ks = true).
    { apply existsb_exists. exists k. split; [exact Hin | apply str_eqb_refl]. }
    congruence.
  - apply andb_true_iff in H as [_ H]. auto.
Qed.

Lemma dict_set_fresh {V} (d : dict V) k (v : V) :
  ~ In k (keys d) -> dict_set d k v = d ++ [(k, v)].
Proof.
  induction d as [|[k' v'] d IH]; simpl; intros H; [reflexivity|].
  rewrite str_eqb_neq by (intros ->; apply H; now left).
  rewrite IH; [reflexivity | intros Hin; apply H; now right].
Qed.

Lemma dict_get_set_same {V} (d : dict V) k (v : V) :
  dict_get (dict_set d k v) k = Some v.
Proof.
  induction d as [|[k' v'] d IH]; simpl.
  - now rewrite str_eqb_refl.
  - destruct (str_eqb k' k) eqn:E; simpl; rewrite E; [reflexivity | exact IH].
Qed.

Lemma dict_get_set_other {V} (d : dict V) k k' (v : V) :
  k' <> k -> dict_get (dict_set d k v) k' = dict_get d k'.
Proof.
  intros Hne. induction d as [|[k0 v0] d IH]; simpl.
  - rewrite str_eqb_neq; [reflexivity | congruence].
  - destruct (str_eqb k0 k) eqn:E; simpl.
    + apply str_eqb_eq in E. subst k0.
      rewrite str_eqb_neq; [reflexivity | congruence].
    + destruct (str_eqb k0 k'); [reflexivity | exact IH].
Qed.

Lemma dict_zip_from {V} (ks : list pystr) (vs : list V) (acc : dict V) :
  NoDup ks -> (forall k, In k ks -> ~ In k (keys acc)) ->
  fold_left (fun d kv => dict_set d (fst kv) (snd kv)) (combine ks vs) acc
  = acc ++ combine ks vs.
Proof.
  revert vs acc. induction ks as [|k ks IH]; intros vs acc Hnd Hfresh; simpl.
  - now rewrite app_nil_r.
  - destruct vs as [|v vs]; simpl; [now rewrite app_nil_r|].
    inversion Hnd as [|? ? Hk Hks]; subst.
    rewrite dict_set_fresh by (apply Hfresh; now left).
    rewrite IH; [now rewrite <- app_assoc | exact Hks |].
    intros k' Hin. unfold keys. rewrite map_app, in_app_iff. simpl.
    intros [H | [H | []]].
    + apply (Hfresh k'); [now right | exact H].
    + subst k'. contradiction.
Qed.

Lemma dict_zip_distinct {V} (ks : list pystr) (vs : list V) :
  distinct ks = true -> dict_zip ks vs = combine ks vs.
Proof.
  intros H. unfold dict_zip. rewrite dict_zip_from; auto using distinct_NoDup.
Qed.

(** ** The row loops *)

Section RowFacts.

Variable W : World.

Lemma numbered_row_yields headers n data row :
  distinct headers = true ->
  yields W (numbered_row W headers n data row)
           (data ++ numbered_records headers n (row_td row)).
Proof.
  intros Hd. unfold numbered_row, numbered_records.
  eapply yields_bind; [apply yields_query|].
  destruct (length (row_td row) =? n); simpl.
  - eapply yields_bind; [apply yields_inner_texts|].
    replace (nth 0 (map strip (row_td row)) []) with (strip (nth 0 (row_td row) []))
      by (destruct (row_td row); reflexivity).
    destruct (isdigit _).
    + rewrite dict_zip_distinct by exact Hd. apply yields_ret.
    + rewrite app_nil_r. apply yields_ret.
  - rewrite app_nil_r. apply yields_ret.
Qed.

Lemma timetable_row_yields timetable row :
  yields W (timetable_row W timetable row)
           (timetable ++ timetable_records (row_td row)).
Proof.
  unfold timetable_row, timetable_records.
  eapply yields_bind; [apply yields_query|].
  eapply yields_bind; [apply yields_inner_texts|].
  rewrite length_map. change (length std_headers) with 9.
  destruct (length (row_td row) =? 9); simpl.
  - rewrite dict_zip_distinct by reflexivity. apply yields_ret.
  - rewrite app_nil_r. apply yields_ret.
Qed.

Lemma faculty_row_yields faculty row :
  yields W (faculty_row W faculty row)
           (faculty ++ faculty_records (row_td row)).
Proof.
  unfold faculty_row, faculty_records.
  eapply yields_bind; [apply yields_query|].
  eapply yields_bind; [apply yields_inner_texts|].
  rewrite length_map.
  destruct (row_td row) as [|c0 [|c1 [|c2 [|c3 cs]]]]; simpl;
    try (rewrite app_nil_r); apply yields_ret.
Qed.

Lemma calendar_row_yields headers calendar row :
  yields W (calendar_row W headers calendar row)
           (calendar ++ calendar_records headers (row_td row)).
Proof.
  unfold calendar_row, calendar_records.
  eapply yields_bind; [apply yields_query|].
  eapply yields_bind; [apply yields_inner_texts|].
  rewrite length_map.
  destruct (length (row_td row) =? length headers).
  - apply yields_ret.
  - rewrite app_nil_r. apply yields_ret.
Qed.

End RowFacts.

(** ** Attendance and library rows *)

Lemma isdigit_ascii (s : pystr) : is_ascii s -> isdigit s = integer_string s.
Proof.
  unfold isdigit, integer_string. destruct s as [|c s]; [reflexivity|].
  intros H. cbn [nonempty andb].
  induction H as [|x l Hx _ IH]; [reflexivity|].
  cbn [forallb]. now rewrite ch_isdigit_ascii, IH.
Qed.

Lemma numbered_records_cases headers n cells :
  (length cells = n /\ isdigit (strip (nth 0 cells [])) = true /\
   numbered_records headers n cells = [combine headers (map strip cells)]) \/
  ((length cells <> n \/ isdigit (strip (nth 0 cells [])) = false) /\
   numbered_records headers n cells = []).
Proof.
  unfold numbered_records. destruct (_ =? n) eqn:E.
  - apply Nat.eqb_eq in E. destruct (isdigit _) eqn:D; simpl.
    + left. repeat split; auto.
    + right. split; auto.
  - apply Nat.eqb_neq in E. simpl. right. split; auto.
Qed.

(** ** Timetable, faculty and calendar rows *)

Lemma fold_append {A B} (f : A -> list B) (xs : list A) (acc : list B) :
  fold_left (fun a x => a ++ f x) xs acc = acc ++ flat_map f xs.
Proof.
  revert acc. induction xs as [|x xs IH]; intros acc; simpl.
  - now rewrite app_nil_r.
  - rewrite IH. now rewrite <- app_assoc.
Qed.

Lemma timetable_records_cases cells :
  (length cells = 9 /\
   timetable_records cells = [combine std_headers (map clean_cell cells)]) \/
  (length cells <> 9 /\ timetable_records cells = []).
Proof.
  unfold timetable_records. destruct (_ =? 9) eqn:E.
  - apply Nat.eqb_eq in E. left. auto.
  - apply Nat.eqb_neq in E. right. auto.
Qed.

Lemma faculty_records_cases cells :
  (3 <= length cells /\
   faculty_records cells =
   [[(lit "Subject Code", clean_cell (nth 0 cells []));
     (lit "Subject", clean_cell (nth 1 cells []));
     (lit "Faculty Name", clean_cell (nth 2 cells []));
     (lit "Initials", match nth_error cells 3 with
                      | Some c => clean_cell c
                      | None => []
                      end)]]) \/
  (length cells < 3 /\ faculty_records cells = []).
Proof.
  unfold faculty_records. destruct (3 <=? _) eqn:E.
  - apply Nat.leb_le in E. left. auto.
  - apply Nat.leb_gt in E. right. auto.
Qed.

Ltac inv_bind H :=
  let a := fresh "a" in
  let s := fresh "s" in
  let E := fresh "E" in
  apply bind_ok in H as (a & s & E & H).

Ltac inv_ret H := unfold ret in H; injection H as <- <-.

Lemma query_page_inv (W : World) {A} sel (field : Page -> A) st r st' :
  query_page W sel field st = (r, st') ->
  st' = mkState (EvQuery (lit sel) :: trace st) (page st) /\
  (r = Ok (field (page st)) /\ raises W (EvQuery (lit sel) :: trace st) = false \/
   r = Raised /\ raises W (EvQuery (lit sel) :: trace st) = true).
Proof.
  unfold query_page, observe, bind, call, current_page, ret. simpl.
  destruct (raises W _); intros H; injection H as <- <-; auto.
Qed.

Lemma query_page_ok (W : World) {A} sel (field : Page -> A) st :
  raises W (EvQuery (lit sel) :: trace st) = false ->
  query_page W sel field st
  = (Ok (field (page st)), mkState (EvQuery (lit sel) :: trace st) (page st)).
Proof.
  intros H. unfold query_page, observe, bind, call, current_page, ret. simpl.
  now rewrite H.
Qed.

Lemma calendar_records_cases headers cells :
  (length cells = length headers /\
   calendar_records headers cells = [dict_zip headers (map strip cells)]) \/
  (length cells <> length headers /\ calendar_records headers cells = []).
Proof.
  unfold calendar_records. destruct (_ =? _) eqn:E.
  - apply Nat.eqb_eq in E. left. auto.
  - apply Nat.eqb_neq in E. right. auto.
Qed.

Lemma write_if_logged (W : World) (b : bool) name c st r st' :
  (if b then write_file W name c else ret tt) st = (r, st') ->
  (r = Ok tt -> writes_of (trace st') =
                writes_of (trace st) ++ (if b then [(lit name, c)] else [])) /\
  closes_of (trace st') = closes_of (trace st) /\ page st' = page st.
Proof.
  destruct b; intros H.
  - unfold write_file, observe in H. apply call_inv in H as [-> _]. simpl. auto.
  - unfold ret in H. injection H as <- <-. rewrite app_nil_r. auto.
Qed.

Lemma extract_academic_calendar_ok (W : World) st cal st' :
  extract_academic_calendar W st = (Ok cal, st') ->
  cal = calendar_of (page st) /\
  closes_of (trace st') = closes_of (trace st) /\
  writes_of (trace st') =
  writes_of (trace st) ++
  (if nonempty cal
   then [(lit "output/academic_calendar.json", FJson 2 (json_of_records cal))] else []).
Proof.
  unfold extract_academic_calendar, calendar_of. intros H.
  inv_bind H. apply query_page_inv in E as [-> [[E _] | [E _]]]; [|discriminate].
  injection E as ->.
  destruct (calendar_container (page st)) as [trs|].
  2:{ inv_ret H. simpl. rewrite app_nil_r. auto. }
  inv_bind H. apply (yields_ok _ (yields_query W _ trs)) in E as (-> & L0 & P0).
  destruct trs as [|row0 rest].
  { inv_ret H. apply logged_scraping in L0 as [C0 W0]. simpl in *.
    rewrite app_nil_r. auto. }
  inv_bind H. apply (yields_ok _ (yields_query W _ (row_td_th row0))) in E as (-> & L1 & P1).
  inv_bind H. apply (yields_ok _ (yields_inner_texts W strip (row_td_th row0))) in E
    as (-> & L2 & P2).
  inv_bind H.
  apply (yields_ok _ (yields_for_each _ _ rest []
           (fun acc x => calendar_row_yields W _ acc x))) in E as (-> & L3 & P3).
  rewrite fold_append in *. simpl app in *.
  inv_bind H. inv_ret H. destruct a.
  apply write_if_logged in E as (Wr & Cl & _). specialize (Wr eq_refl).
  pose proof (logged_trans L0 (logged_trans L1 (logged_trans L2 L3))) as L.
  apply logged_scraping in L as [C W0]. simpl in C, W0.
  split; [reflexivity|]. split; [congruence|].
  rewrite Wr. now rewrite W0.
Qed.

(** C7.  One iteration of the calendar loop appends a record exactly when
    the row has as many cells as the header row; the record is
    [dict(zip(headers, values))], the positional pairing when the header
    texts are distinct.  When the page has no container table the
    extractor returns the empty list without raising, and in general its
    result is the page's calendar. *)
Theorem calendar_extraction (W : World) (st : state) :
  (forall headers calendar row r st',
     calendar_row W headers calendar row st = (Ok r, st') ->
     (length (row_td row) = length headers /\
      r = calendar ++ [dict_zip headers (map strip (row_td row))]) \/
     (length (row_td row) <> length headers /\ r = calendar)) /\
  (forall headers (values : list pystr), distinct headers = true ->
     dict_zip headers values = combine headers values) /\
  (calendar_container (page st) = None ->
   raises W (EvQuery calendar_selector :: trace st) = false ->
   extract_academic_calendar W st
   = (Ok [], mkState (EvQuery calendar_selector :: trace st) (page st))) /\
  (forall cal st', extract_academic_calendar W st = (Ok cal, st') ->
     cal = calendar_of (page st)).
Proof.
  split; [|split; [|split]].
  - intros headers calendar row r st' E.
    apply (yields_ok st (calendar_row_yields W headers calendar row)) in E as [-> _].
    destruct (calendar_records_cases headers (row_td row)) as [(L & ->) | (L & ->)].
    + left. auto.
    + right. rewrite app_nil_r. auto.
  - intros headers values. apply dict_zip_distinct.
  - intros Hc Hr. unfold extract_academic_calendar, bind.
    rewrite query_page_ok by exact Hr. rewrite Hc. reflexivity.
  - intros cal st' E. now apply extract_academic_calendar_ok in E.
Qed.

Lemma calendar_extraction_witness :
  extract_academic_calendar (still_world blank_page) start
  = (Ok [], mkState (EvQuery calendar_selector :: trace start) (page start)).
Proof.
  apply (calendar_extraction (still_world blank_page) start); reflexivity.
Defined.

(** ** Table classification *)

Lemma report_table_yields (W : World) lower acc table :
  yields W (report_table W lower acc table)
           (fst acc ++ timetable_of lower table, snd acc ++ faculty_of lower table).
Proof.
  unfold report_table.
  eapply yields_bind; [apply yields_query|].
  eapply yields_bind; [apply yields_inner_texts|].
  apply yields_bind with (a := fst acc ++ timetable_of lower table).
  { unfold timetable_of. destruct (is_timetable lower _).
    - eapply yields_bind; [apply yields_query|].
      rewrite <- fold_append.
      apply yields_for_each with (F := fun a row => a ++ timetable_records (row_td row)).
      intros a x. apply timetable_row_yields.
    - rewrite app_nil_r. apply yields_ret. }
  apply yields_bind with (a := snd acc ++ faculty_of lower table).
  { unfold faculty_of. destruct (is_faculty lower _).
    - eapply yields_bind; [apply yields_query|].
      rewrite <- fold_append.
      apply yields_for_each with (F := fun a row => a ++ faculty_records (row_td row)).
      intros a x. apply faculty_row_yields.
    - rewrite app_nil_r. apply yields_ret. }
  apply yields_ret.
Qed.

Lemma is_timetable_spec lower headers :
  is_timetable lower headers = true <->
  exists h, In h headers /\
            (starts_with (lit "day") (lower h) \/ has_substring (lit "period") (lower h)).
Proof.
  unfold is_timetable. rewrite existsb_exists.
  split; intros [h [Hin H]]; exists h; (split; [exact Hin|]).
  - apply orb_true_iff in H. now rewrite startswith_spec, contains_spec in H.
  - apply orb_true_iff. now rewrite startswith_spec, contains_spec.
Qed.

Lemma is_faculty_spec lower headers :
  is_faculty lower headers = true <->
  exists h, In h headers /\
            (has_substring (lit "subject code") (lower h) \/
             has_substring (lit "faculty") (lower h)).
Proof.
  unfold is_faculty. rewrite existsb_exists.
  split; intros [h [Hin H]]; exists h; (split; [exact Hin|]).
  - apply orb_true_iff in H. now rewrite !contains_spec in H.
  - apply orb_true_iff. now rewrite !contains_spec.
Qed.

Lemma lower_on_ascii (lower : pystr -> pystr) (hs : list pystr) :
  (forall s, is_ascii s -> lower s = ascii_lower s) ->
  Forall is_ascii hs ->
  is_timetable lower hs = is_timetable ascii_lower hs /\
  is_faculty lower hs = is_faculty ascii_lower hs.
Proof.
  intros Hl Hs. unfold is_timetable, is_faculty.
  induction Hs as [|h hs Hh _ [IH1 IH2]]; [split; reflexivity|].
  cbn [existsb]. now rewrite (Hl h Hh), IH1, IH2.
Qed.

Lemma lit_headers_ascii :
  Forall is_ascii timetable_header /\ Forall is_ascii faculty_header /\
  Forall is_ascii plain_header.
Proof. repeat split; repeat constructor. Qed.

(** ** Bio-data: personal details *)

Lemma bio_row_yields (W : World) bio cells :
  yields W (bio_row W bio cells) (fold_left add_pair (bio_pairs cells) bio).
Proof.
  unfold bio_row, bio_pairs.
  eapply yields_bind; [apply yields_query|].
  destruct (length cells =? 2).
  - eapply yields_bind; [apply yields_inner_text|].
    eapply yields_bind; [apply yields_inner_text|].
    simpl. unfold add_pair, label. simpl fst. simpl snd.
    destruct (truthy _ && truthy _); apply yields_ret.
  - destruct (6 <=? length cells).
    + do 4 (eapply yields_bind; [apply yields_inner_text|]).
      apply yields_ret.
    + apply yields_ret.
Qed.

Lemma truthy_spec (s : pystr) : truthy s = true <-> s <> [].
Proof. destruct s; simpl; split; congruence. Qed.

Lemma add_pair_cases (bio : dict pystr) (k v : pystr) :
  (k <> [] /\ v <> [] /\ add_pair bio (k, v) = dict_set bio k v) \/
  ((k = [] \/ v = []) /\ add_pair bio (k, v) = bio).
Proof.
  unfold add_pair. simpl. destruct k as [|c k]; simpl.
  - right. auto.
  - destruct v as [|d v]; simpl.
    + right. auto.
    + left. repeat split; congruence.
Qed.

Lemma add_pairs_changed (ps : list (pystr * pystr)) (bio : dict pystr) key :
  dict_get (fold_left add_pair ps bio) key <> dict_get bio key ->
  exists v, In (key, v) ps /\ key <> [] /\ v <> [].
Proof.
  revert bio. induction ps as [|[k v] ps IH]; intros bio H; cbn [fold_left] in H.
  - contradiction.
  - destruct (str_eqb k key) eqn:E.
    + apply str_eqb_eq in E. subst k.
      destruct (add_pair_cases bio key v) as [(Hk & Hv & _) | (_ & Hb)].
      * exists v. simpl. auto.
      * rewrite Hb in H. apply IH in H as (v' & Hin & Hk & Hv).
        exists v'. simpl. auto.
    + assert (Hsame : dict_get (add_pair bio (k, v)) key = dict_get bio key).
      { destruct (add_pair_cases bio k v) as [(_ & _ & ->) | (_ & ->)]; [|reflexivity].
        apply dict_get_set_other. intros ->. now rewrite str_eqb_refl in E. }
      rewrite <- Hsame in H. apply IH in H as (v' & Hin & Hk & Hv).
      exists v'. simpl. auto.
Qed.

(** C10.  One iteration of the personal-details loop adds the pairs the
    row offers, each only when its colon-stripped label and its trimmed
    value are both non-empty: a two-cell row offers the pair of cells 0
    and 1, a row of six or more cells offers the pairs of cells 0/2 and
    3/5, tested one after the other, and a row of any other cell count
    (0, 1, 3, 4 or 5) offers none and leaves the result as it was. *)
Theorem bio_row_pairs (W : World) (bio : dict pystr) (cells : list pystr) (st : state) :
  (forall r st', bio_row W bio cells st = (Ok r, st') ->
     r = fold_left add_pair (bio_pairs cells) bio /\
     (forall key, dict_get r key <> dict_get bio key ->
        exists v, In (key, v) (bio_pairs cells) /\ key <> [] /\ v <> [])) /\
  (length cells = 2 ->
     bio_pairs cells = [(label (nth 0 cells []), strip (nth 1 cells []))]) /\
  (6 <= length cells ->
     bio_pairs cells = [(label (nth 0 cells []), strip (nth 2 cells []));
                        (label (nth 3 cells []), strip (nth 5 cells []))]) /\
  (length cells <> 2 -> length cells < 6 -> bio_pairs cells = []) /\
  (forall (b : dict pystr) (k v : pystr),
     (k <> [] /\ v <> [] /\ add_pair b (k, v) = dict_set b k v) \/
     ((k = [] \/ v = []) /\ add_pair b (k, v) = b)) /\
  (quiet W -> exists st',
     bio_row W bio cells st = (Ok (fold_left add_pair (bio_pairs cells) bio), st')).
Proof.
  assert (Y := bio_row_yields W bio cells).
  repeat apply conj.
  - intros r st' E. apply (yields_ok st Y) in E as [-> _].
    split; [reflexivity|]. intros key. apply add_pairs_changed.
  - intros L. unfold bio_pairs. now rewrite L.
  - intros L. unfold bio_pairs. destruct (_ =? 2) eqn:E.
    + apply Nat.eqb_eq in E. lia.
    + apply Nat.leb_le in L. now rewrite L.
  - intros L2 L6. unfold bio_pairs.
    apply Nat.eqb_neq in L2. rewrite L2. apply Nat.leb_gt in L6. now rewrite L6.
  - intros b k v. apply add_pair_cases.
  - intros Q. apply (yields_quiet st Q Y).
Qed.

Lemma bio_row_pairs_witness :
  exists st',
    bio_row (still_world blank_page) [] name_cells start
    = (Ok (fold_left add_pair (bio_pairs name_cells) []), st').
Proof.
  apply (bio_row_pairs (still_world blank_page) [] name_cells start).
  intros tr. reflexivity.
Defined.

(** ** Bio-data: education records *)

Lemma stripped_text_yields (W : World) cell :
  yields W (stripped_text W cell) (strip cell).
Proof.
  unfold stripped_text. eapply yields_bind; [apply yields_inner_text | apply yields_ret].
Qed.

Lemma optional_cell_yields (W : World) (cells : list pystr) i :
  yields W (if i <? length cells then stripped_text W (nth i cells []) else ret [])
           (strip (nth i cells [])).
Proof.
  destruct (i <? length cells) eqn:E.
  - apply stripped_text_yields.
  - apply Nat.ltb_ge in E. rewrite nth_overflow by exact E. apply yields_ret.
Qed.

Lemma edu_row_yields (W : World) lower edu cells :
  yields W (edu_row W lower edu cells) (edu_update lower edu cells).
Proof.
  unfold edu_row, edu_update.
  eapply yields_bind; [apply yields_query|].
  destruct (length cells <? 7); [apply yields_ret|].
  eapply yields_bind; [apply yields_inner_text|]. cbv zeta.
  destruct (negb (truthy _)); [apply yields_ret|].
  destruct (qualification_key _) as [key|]; [|apply yields_ret].
  do 6 (eapply yields_bind; [apply stripped_text_yields|]).
  eapply yields_bind; [apply yields_query|].
  eapply yields_bind; [apply optional_cell_yields|].
  eapply yields_bind; [apply yields_query|].
  eapply yields_bind; [apply optional_cell_yields|].
  unfold edu_values. cbn [map].
  destruct (existsb truthy _); apply yields_ret.
Qed.

Lemma existsb_truthy_false (vs : list pystr) :
  Forall (fun v => v = []) vs -> existsb truthy vs = false.
Proof.
  induction 1 as [|v vs -> _ IH]; [reflexivity|]. simpl. exact IH.
Qed.

Lemma existsb_truthy_true (vs : list pystr) :
  existsb truthy vs = true -> exists v, In v vs /\ v <> [].
Proof.
  intros H. apply existsb_exists in H as [v [Hin Hv]].
  exists v. split; [exact Hin | now apply truthy_spec].
Qed.

Lemma edu_update_cases lower edu cells :
  edu_update lower edu cells = edu \/
  (exists key,
     7 <= length cells /\
     qualification_key (lower (strip (nth 0 cells []))) = Some key /\
     existsb truthy (edu_values cells) = true /\
     edu_update lower edu cells = dict_set edu key (combine edu_fields (edu_values cells))).
Proof.
  unfold edu_update. destruct (length cells <? 7) eqn:L; [now left|].
  apply Nat.ltb_ge in L. cbv zeta.
  destruct (negb (truthy _)); [now left|].
  destruct (qualification_key _) as [key|] eqn:K; [|now left].
  destruct (existsb truthy _) eqn:T; [|now left].
  right. exists key. auto.
Qed.

(** C6.  One iteration of the education loop overwrites a record only for
    a row of at least 7 cells with a recognised qualification and at least
    one non-empty field among the eight extracted ones; the new record
    then holds exactly those eight fields.  A row whose eight fields are
    all empty leaves the dict as it was, so a blank SSC row keeps the
    pre-populated default. *)
Theorem edu_row_overwrite (W : World) (lower : pystr -> pystr)
    (edu : dict record) (cells : list pystr) (st : state) :
  (forall r st', edu_row W lower edu cells st = (Ok r, st') ->
     (r = edu \/
      exists key v,
        7 <= length cells /\
        qualification_key (lower (strip (nth 0 cells []))) = Some key /\
        In v (edu_values cells) /\ v <> [] /\
        r = dict_set edu key (combine edu_fields (edu_values cells))) /\
     (Forall (fun v => v = []) (edu_values cells) -> r = edu)) /\
  (quiet W -> exists st',
     edu_row W lower edu cells st = (Ok (edu_update lower edu cells), st')) /\
  (lower (lit "SSC") = lit "ssc" ->
     qualification_key (lower (strip (nth 0 blank_ssc_row []))) = Some (lit "School (SSC)") /\
     edu_update lower default_edu blank_ssc_row = default_edu).
Proof.
  assert (Y := edu_row_yields W lower edu cells).
  repeat apply conj.
  - intros r st' E. apply (yields_ok st Y) in E as [-> _]. split.
    + destruct (edu_update_cases lower edu cells) as [-> | (key & L & K & T & ->)];
        [now left|].
      right. apply existsb_truthy_true in T as (v & Hin & Hv).
      exists key, v. auto.
    + intros Hall. unfold edu_update.
      rewrite (existsb_truthy_false Hall).
      destruct (_ <? 7); [reflexivity|]. cbv zeta.
      destruct (negb _); [reflexivity|]. now destruct (qualification_key _).
  - intros Q. apply (yields_quiet st Q Y).
  - intros Hl. unfold edu_update.
    change (strip (nth 0 blank_ssc_row [])) with (lit "SSC").
    rewrite Hl. split; reflexivity.
Qed.

Lemma edu_row_overwrite_witness :
  qualification_key (ascii_lower (strip (nth 0 blank_ssc_row []))) = Some (lit "School (SSC)") /\
  edu_update ascii_lower default_edu blank_ssc_row = default_edu.
Proof.
  apply (edu_row_overwrite (still_world blank_page) ascii_lower default_edu blank_ssc_row start).
  reflexivity.
Defined.

(** ** Whole scrapes: what is logged *)

Lemma logs_ret {A} P (a : A) : logs_only P (ret a).
Proof. intros st r st' H. injection H as _ <-. apply logged_refl. Qed.

Lemma logs_bind {A B} P (m : M A) (f : A -> M B) :
  logs_only P m -> (forall a, logs_only P (f a)) -> logs_only P (bind m f).
Proof.
  intros Hm Hf st r st'. unfold bind. destruct (m st) as [[a|] s1] eqn:E; intros H.
  - eapply logged_trans; [eapply Hm; eauto | eapply Hf; eauto].
  - injection H as _ <-. eapply Hm; eauto.
Qed.

Lemma logs_call (P : event -> Prop) W reload e : P e -> logs_only P (call W reload e).
Proof. intros HP st r st' H. eapply call_logged; eauto. Qed.

Lemma logs_try P (m : M unit) : logs_only P m -> logs_only P (try_pass m).
Proof.
  intros Hm st r st'. unfold try_pass. destruct (m st) as [[a|] s1] eqn:E; intros H;
    injection H as _ <-; eapply Hm; eauto.
Qed.

Lemma logs_yields W {A} (m : M A) v : yields W m v -> logs_only scraping m.
Proof. intros Y st r st' H. eapply yields_logged; eauto. Qed.

Lemma logs_login W u p : logs_only scraping (login_and_get_page W u p).
Proof.
  unfold login_and_get_page, interact.
  repeat (apply logs_bind; [apply logs_call; exact I | intros _]).
  apply logs_call. exact I.
Qed.

Lemma with_playwright_ok W {A} (body : M A) st v st' :
  with_playwright W body st = (Ok v, st') ->
  exists s1 s2,
    logged scraping st s1 /\ body s1 = (Ok v, s2) /\
    st' = mkState (EvStop :: trace s2) (page s2).
Proof.
  unfold with_playwright. destruct (observe W EvStart st) as [[u|] s1] eqn:E0; [|discriminate].
  destruct (body s1) as [r s2] eqn:E1. intros H. injection H as -> <-.
  exists s1, s2. split; [|auto]. eapply call_logged; [|exact E0]. exact I.
Qed.

Lemma close_ok W st u st' :
  observe W EvClose st = (Ok u, st') -> st' = mkState (EvClose :: trace st) (page st).
Proof. intros H. now apply call_inv in H as [-> _]. Qed.

Lemma write_ok W name c st u st' :
  write_file W name c st = (Ok u, st') ->
  st' = mkState (EvWrite (lit name) c :: trace st) (page st).
Proof. intros H. now apply call_inv in H as [-> _]. Qed.

(** Turn a completed step [E : m s = (r, s')] into [logged scraping s s']. *)
Ltac logged_step E :=
  match type of E with
  | ?m ?s = (_, ?s') =>
      let L := fresh "L" in
      assert (L : logged scraping s s')
        by (refine ((_ : logs_only scraping m) _ _ _ E);
            first [ apply logs_login
                  | apply logs_call; exact I
                  | apply logs_try; apply logs_bind;
                    [apply logs_call; exact I | intros _; apply logs_call; exact I] ]);
      clear E
  end.

Ltac chain :=
  repeat match goal with
         | L1 : logged scraping ?a ?b, L2 : logged scraping ?b ?c |- _ =>
             pose proof (logged_trans L1 L2); clear L1 L2
         end.

Lemma numbered_loop_ok W headers n rows st data st' :
  distinct headers = true ->
  for_each (numbered_row W headers n) rows [] st = (Ok data, st') ->
  data = numbered_of headers n rows /\ logged scraping st st'.
Proof.
  intros Hd E.
  apply (yields_ok _ (yields_for_each _ _ rows []
           (fun acc x => numbered_row_yields W headers n acc x Hd))) in E as (-> & L & _).
  rewrite fold_append. auto.
Qed.

Ltac settle L :=
  apply logged_scraping in L as [? ?]; cbn [trace page closes_of writes_of] in *.

Lemma fetch_attendance_ok W u p st data st' :
  fetch_attendance W u p st = (Ok data, st') ->
  closes_of (trace st') = S (closes_of (trace st)) /\
  writes_of (trace st') =
  writes_of (trace st) ++
  [(lit "output/attendance_data.json", FJson 4 (json_of_records data));
   (lit "output/attendance_data.csv", FCsv (csv_dict_rows attendance_headers data))] /\
  exists p, data = numbered_of attendance_headers 5 (attendance_rows p).
Proof.
  unfold fetch_attendance. intros H.
  apply with_playwright_ok in H as (s1 & s2 & L0 & H & ->).
  inv_bind H. logged_step E.
  inv_bind H. logged_step E.
  inv_bind H. logged_step E.
  inv_bind H. logged_step E.
  inv_bind H. logged_step E.
  inv_bind H. apply query_page_inv in E as [-> [[E _] | [E _]]]; [|discriminate].
  injection E as ->.
  inv_bind H. apply numbered_loop_ok in E as [-> L5]; [|reflexivity].
  inv_bind H. apply close_ok in E. subst.
  inv_bind H. apply write_ok in E. subst.
  inv_bind H. apply write_ok in E. subst.
  inv_ret H. chain. settle L5. settle H.
  split; [congruence|]. split; [|eexists; reflexivity].
  rewrite <- app_assoc. simpl. congruence.
Qed.

Lemma fetch_library_books_ok W u p st data st' :
  fetch_library_books W u p st = (Ok data, st') ->
  closes_of (trace st') = S (closes_of (trace st)) /\
  writes_of (trace st') =
  writes_of (trace st) ++
  [(lit "output/library_books.json", FJson 4 (json_of_records data));
   (lit "output/library_books.csv", FCsv (csv_dict_rows library_headers data))] /\
  exists p, data = numbered_of library_headers 8 (library_rows p).
Proof.
  unfold fetch_library_books. intros H.
  apply with_playwright_ok in H as (s1 & s2 & L0 & H & ->).
  inv_bind H. logged_step E.
  inv_bind H. logged_step E.
  inv_bind H. logged_step E.
  inv_bind H. apply query_page_inv in E as [-> [[E _] | [E _]]]; [|discriminate].
  injection E as ->.
  inv_bind H. apply numbered_loop_ok in E as [-> L5]; [|reflexivity].
  inv_bind H. apply close_ok in E. subst.
  inv_bind H. apply write_ok in E. subst.
  inv_bind H. apply write_ok in E. subst.
  inv_ret H. chain. settle L5. settle H.
  split; [congruence|]. split; [|eexists; reflexivity].
  rewrite <- app_assoc. simpl. congruence.
Qed.

Lemma fetch_bio_data_ok W lower u p st bio edu st' :
  fetch_bio_data W lower u p st = (Ok (bio, edu), st') ->
  closes_of (trace st') = S (closes_of (trace st)) /\
  writes_of (trace st') =
  writes_of (trace st) ++
  [(lit "output/bio_data.json", FJson 4 (bio_json bio edu));
   (lit "output/bio_data.csv", FCsv (bio_csv_rows bio edu))] /\
  exists pg,
    bio = fold_left (fun b cells => fold_left add_pair (bio_pairs cells) b) (bio_rows0 pg) [] /\
    edu = fold_left (edu_update lower) (tl (bio_rows1 pg)) default_edu.
Proof.
  unfold fetch_bio_data. intros H.
  apply with_playwright_ok in H as (s1 & s2 & L0 & H & ->).
  inv_bind H. logged_step E.
  inv_bind H. logged_step E.
  inv_bind H. logged_step E.
  inv_bind H. logged_step E.
  inv_bind H. apply query_page_inv in E as [-> [[E _] | [E _]]]; [|discriminate].
  injection E as ->.
  inv_bind H.
  apply (yields_ok _ (yields_for_each _ _ _ []
           (fun acc x => bio_row_yields W acc x))) in E as (-> & L5 & P5).
  inv_bind H. apply query_page_inv in E as [-> [[E _] | [E _]]]; [|discriminate].
  injection E as ->.
  inv_bind H.
  apply (yields_ok _ (yields_for_each _ _ _ default_edu
           (fun acc x => edu_row_yields W lower acc x))) in E as (-> & L6 & P6).
  inv_bind H. apply close_ok in E. subst.
  inv_bind H. apply write_ok in E. subst.
  inv_bind H. apply write_ok in E. subst.
  unfold ret in H. injection H as <- <- <-. chain.
  settle L5. settle L6.
  match goal with L : logged scraping st _ |- _ => settle L end.
  split; [congruence|]. split.
  - rewrite <- app_assoc. simpl. congruence.
  - exists (page s4). cbn [page] in *. rewrite P5. auto.
Qed.

Lemma extract_timetable_and_faculty_ok W lower st acc st' :
  extract_timetable_and_faculty W lower st = (Ok acc, st') ->
  acc = tables_of lower (page st) /\
  closes_of (trace st') = closes_of (trace st) /\
  writes_of (trace st') =
  writes_of (trace st) ++ json_if_any "output/timetable.json" (fst acc)
                       ++ json_if_any "output/faculty_allocation.json" (snd acc).
Proof.
  unfold extract_timetable_and_faculty, tables_of, json_if_any. intros H.
  inv_bind H. apply query_page_inv in E as [-> [[E _] | [E _]]]; [|discriminate].
  injection E as ->.
  inv_bind H.
  apply (yields_ok _ (yields_for_each _ _ _ _
           (fun a x => report_table_yields W lower a x))) in E as (-> & L & P).
  inv_bind H. apply write_if_logged in E as (W1 & C1 & _). destruct a. specialize (W1 eq_refl).
  inv_bind H. apply write_if_logged in E as (W2 & C2 & _). destruct a. specialize (W2 eq_refl).
  inv_ret H. settle L.
  split; [reflexivity|]. split; [congruence|].
  rewrite W2, W1. rewrite <- app_assoc. congruence.
Qed.

Lemma fetch_timetable_and_calendar_ok W lower u p st tt fac cal st' :
  fetch_timetable_and_calendar W lower u p st = (Ok (tt, fac, cal), st') ->
  closes_of (trace st') = S (closes_of (trace st)) /\
  writes_of (trace st') =
  writes_of (trace st) ++ json_if_any "output/timetable.json" tt
                       ++ json_if_any "output/faculty_allocation.json" fac
                       ++ json_if_any "output/academic_calendar.json" cal /\
  exists p1 p2, (tt, fac) = tables_of lower p1 /\ cal = calendar_of p2.
Proof.
  unfold fetch_timetable_and_calendar. intros H.
  apply with_playwright_ok in H as (s1 & s2 & L0 & H & ->).
  inv_bind H. logged_step E.
  inv_bind H. logged_step E.
  inv_bind H. logged_step E.
  inv_bind H. apply extract_timetable_and_faculty_ok in E as (Ha & C1 & W1).
  inv_bind H. logged_step E.
  inv_bind H. logged_step E.
  inv_bind H. apply extract_academic_calendar_ok in E as (Hc & C2 & W2).
  inv_bind H. apply close_ok in E.
  unfold ret in H. injection H as Ht Hf Hcal Hs. subst.
  pose proof (logged_scraping (logged_trans L0 (logged_trans L (logged_trans L1 L2))))
    as [K1 K2].
  pose proof (logged_scraping (logged_trans L3 L4)) as [K3 K4].
  cbn [trace page closes_of writes_of] in *.
  split; [congruence|]. split.
  - unfold json_if_any in *. rewrite W2, K4, W1, K2. now rewrite <- !app_assoc.
  - exists (page s3), (page s6). split; [|reflexivity].
    now destruct (tables_of lower (page s3)).
Qed.

(** ** Session lifecycle *)

(** On a run that returns, the browser is closed exactly once. *)
Lemma session_closed_once_on_success W lower u p st st' :
  (forall data, fetch_attendance W u p st = (Ok data, st') ->
     closes_of (trace st') = S (closes_of (trace st))) /\
  (forall data, fetch_library_books W u p st = (Ok data, st') ->
     closes_of (trace st') = S (closes_of (trace st))) /\
  (forall data, fetch_bio_data W lower u p st = (Ok data, st') ->
     closes_of (trace st') = S (closes_of (trace st))) /\
  (forall data, fetch_timetable_and_calendar W lower u p st = (Ok data, st') ->
     closes_of (trace st') = S (closes_of (trace st))).
Proof.
  repeat apply conj; intros data H.
  - now apply fetch_attendance_ok in H.
  - now apply fetch_library_books_ok in H.
  - destruct data as [bio edu]. now apply fetch_bio_data_ok in H.
  - destruct data as [[tt fac] cal]. now apply fetch_timetable_and_calendar_ok in H.
Qed.

(** C1.  When the navigation to the report page raises, each scraper
    propagates the exception having launched one browser and closed none:
    [browser.close] is reached only on the path that returns. *)
Theorem close_skipped_when_navigation_raises (u p : pystr) :
  outcome (fetch_attendance (unreachable ATTENDANCE_URL) u p start) = (true, 1, 0) /\
  outcome (fetch_library_books (unreachable LIBRARY_URL) u p start) = (true, 1, 0) /\
  outcome (fetch_bio_data (unreachable PROFILE_URL) ascii_lower u p start) = (true, 1, 0) /\
  outcome (fetch_timetable_and_calendar (unreachable TIMETABLE_URL) ascii_lower u p start)
  = (true, 1, 0) /\
  outcome (fetch_attendance (still_world blank_page) u p start) = (false, 1, 1).
Proof. repeat apply conj; vm_compute; reflexivity. Qed.

(** ** Persisted artifacts *)

Lemma keys_combine {V} (ks : list pystr) (vs : list V) :
  length vs = length ks -> keys (combine ks vs) = ks.
Proof.
  revert vs. induction ks as [|k ks IH]; intros [|v vs] H; simpl in *;
    try discriminate; [reflexivity|].
  f_equal. apply IH. now injection H.
Qed.

Lemma numbered_records_keys headers n cells r :
  length headers = n -> In r (numbered_records headers n cells) -> keys r = headers.
Proof.
  intros Hn. destruct (numbered_records_cases headers n cells) as [(L & _ & ->) | (_ & ->)].
  - intros [<- | []]. apply keys_combine. rewrite length_map.
    transitivity n; [exact L | symmetry; exact Hn].
  - intros [].
Qed.

(** C2 (as amended).  A returning attendance, library or bio-data scrape
    writes its JSON file and then its CSV file whatever the number of
    records; the attendance and library CSV files begin with the report's
    field names, which are the keys of every record of that report, and
    the bio-data CSV begins with Section, Subsection, Field, Value.
    A returning timetable-and-calendar scrape writes each of its three JSON
    files only when the corresponding list is non-empty. *)
Theorem persisted_artifacts (W : World) (lower : pystr -> pystr) (u p : pystr) (st : state) :
  (forall data st', fetch_attendance W u p st = (Ok data, st') ->
     writes_of (trace st') =
     writes_of (trace st) ++
     [(lit "output/attendance_data.json", FJson 4 (json_of_records data));
      (lit "output/attendance_data.csv", FCsv (csv_dict_rows attendance_headers data))]) /\
  (forall data st', fetch_library_books W u p st = (Ok data, st') ->
     writes_of (trace st') =
     writes_of (trace st) ++
     [(lit "output/library_books.json", FJson 4 (json_of_records data));
      (lit "output/library_books.csv", FCsv (csv_dict_rows library_headers data))]) /\
  (forall bio edu st', fetch_bio_data W lower u p st = (Ok (bio, edu), st') ->
     writes_of (trace st') =
     writes_of (trace st) ++
     [(lit "output/bio_data.json", FJson 4 (bio_json bio edu));
      (lit "output/bio_data.csv", FCsv (bio_csv_rows bio edu))]) /\
  (forall tt fac cal st',
     fetch_timetable_and_calendar W lower u p st = (Ok (tt, fac, cal), st') ->
     writes_of (trace st') =
     writes_of (trace st) ++ json_if_any "output/timetable.json" tt
                          ++ json_if_any "output/faculty_allocation.json" fac
                          ++ json_if_any "output/academic_calendar.json" cal) /\
  (forall name, json_if_any name [] = []) /\
  (forall name r rs,
     json_if_any name (r :: rs) = [(lit name, FJson 2 (json_of_records (r :: rs)))]) /\
  (forall data, hd [] (csv_dict_rows attendance_headers data) = attendance_headers) /\
  (forall data, hd [] (csv_dict_rows library_headers data) = library_headers) /\
  (forall bio edu, hd [] (bio_csv_rows bio edu) = bio_csv_header) /\
  (forall cells r, In r (numbered_records attendance_headers 5 cells) ->
     keys r = attendance_headers) /\
  (forall cells r, In r (numbered_records library_headers 8 cells) ->
     keys r = library_headers).
Proof.
  repeat apply conj.
  - intros data st' H. now apply fetch_attendance_ok in H.
  - intros data st' H. now apply fetch_library_books_ok in H.
  - intros bio edu st' H. now apply fetch_bio_data_ok in H.
  - intros tt fac cal st' H. now apply fetch_timetable_and_calendar_ok in H.
  - reflexivity.
  - reflexivity.
  - reflexivity.
  - reflexivity.
  - reflexivity.
  - intros cells r. now apply numbered_records_keys.
  - intros cells r. now apply numbered_records_keys.
Qed.

Lemma persisted_artifacts_witness :
  writes_of (trace (snd (fetch_attendance (still_world blank_page) (lit "u") (lit "p") start))) =
  writes_of (trace start) ++
  [(lit "output/attendance_data.json", FJson 4 (json_of_records []));
   (lit "output/attendance_data.csv", FCsv (csv_dict_rows attendance_headers []))].
Proof.
  apply (proj1 (persisted_artifacts (still_world blank_page) ascii_lower
                  (lit "u") (lit "p") start) []).
  vm_compute. reflexivity.
Defined.

(** C2, the claim as written fails: a timetable-and-calendar scrape of a
    page without tables returns three empty lists and writes no file. *)
Lemma empty_timetable_writes_no_file :
  fst (fetch_timetable_and_calendar (still_world blank_page) ascii_lower
         (lit "u") (lit "p") start) = Ok ([], [], []) /\
  writes_of (trace (snd (fetch_timetable_and_calendar (still_world blank_page) ascii_lower
                           (lit "u") (lit "p") start))) = [].
Proof. vm_compute. split; reflexivity. Qed.

(** ** The row rules over a whole scrape *)

Lemma fold_pair_append {A B C} (f : A -> list B) (g : A -> list C) xs acc :
  fold_left (fun a x => (fst a ++ f x, snd a ++ g x)) xs acc
  = (fst acc ++ flat_map f xs, snd acc ++ flat_map g xs).
Proof.
  revert acc. induction xs as [|x xs IH]; intros acc; simpl.
  - rewrite !app_nil_r. now destruct acc.
  - rewrite IH. simpl. now rewrite <- !app_assoc.
Qed.

Lemma tables_of_flat lower pg :
  tables_of lower pg
  = (flat_map (timetable_of lower) (report_tables pg),
     flat_map (faculty_of lower) (report_tables pg)).
Proof. unfold tables_of. now rewrite fold_pair_append. Qed.

(** The attendance scrape returns the records of the rows of the page the
    portal shows after the 1500 ms wait, which is the page it queries. *)
Lemma fetch_attendance_rows W u p st data st' :
  fetch_attendance W u p st = (Ok data, st') ->
  exists new mid,
    trace st' = new ++ EvQuery (lit "table.cellBorder tr")
                    :: EvWaitTimeout 1500 :: mid ++ trace st /\
    data = numbered_of attendance_headers 5
             (attendance_rows (shows W (EvWaitTimeout 1500 :: mid ++ trace st))).
Proof.
  unfold fetch_attendance. intros H.
  apply with_playwright_ok in H as (s1 & s2 & L0 & H & ->).
  inv_bind H. logged_step E.
  inv_bind H. logged_step E.
  inv_bind H. logged_step E.
  inv_bind H. logged_step E.
  inv_bind H. unfold interact in E. apply call_inv in E as [-> _].
  inv_bind H. apply query_page_inv in E as [-> [[E _] | [E _]]]; [|discriminate].
  injection E as ->.
  inv_bind H. apply numbered_loop_ok in E as [-> L5]; [|reflexivity].
  inv_bind H. apply close_ok in E. subst.
  inv_bind H. apply write_ok in E. subst.
  inv_bind H. apply write_ok in E. subst.
  inv_ret H. chain.
  destruct L5 as [new1 [T1 _]].
  match goal with L : logged scraping st _ |- _ => destruct L as [mid [T0 _]] end.
  cbn [trace page] in *.
  eexists (EvStop :: _ :: _ :: EvClose :: new1), mid.
  rewrite T1, T0. split; reflexivity.
Qed.

Lemma fetch_library_books_rows W u p st data st' :
  fetch_library_books W u p st = (Ok data, st') ->
  exists new mid,
    trace st' = new ++ EvQuery (lit "table#tblbooks tr")
                    :: EvWaitTimeout 1500 :: mid ++ trace st /\
    data = numbered_of library_headers 8
             (library_rows (shows W (EvWaitTimeout 1500 :: mid ++ trace st))).
Proof.
  unfold fetch_library_books. intros H.
  apply with_playwright_ok in H as (s1 & s2 & L0 & H & ->).
  inv_bind H. logged_step E.
  inv_bind H. logged_step E.
  inv_bind H. unfold interact in E. apply call_inv in E as [-> _].
  inv_bind H. apply query_page_inv in E as [-> [[E _] | [E _]]]; [|discriminate].
  injection E as ->.
  inv_bind H. apply numbered_loop_ok in E as [-> L5]; [|reflexivity].
  inv_bind H. apply close_ok in E. subst.
  inv_bind H. apply write_ok in E. subst.
  inv_bind H. apply write_ok in E. subst.
  inv_ret H. chain.
  destruct L5 as [new1 [T1 _]].
  match goal with L : logged scraping st _ |- _ => destruct L as [mid [T0 _]] end.
  cbn [trace page] in *.
  eexists (EvStop :: _ :: _ :: EvClose :: new1), mid.
  rewrite T1, T0. split; reflexivity.
Qed.

Lemma extract_timetable_and_faculty_lists W lower st acc st' :
  extract_timetable_and_faculty W lower st = (Ok acc, st') ->
  fst acc = flat_map (timetable_of lower) (report_tables (page st)) /\
  snd acc = flat_map (faculty_of lower) (report_tables (page st)).
Proof.
  intros H. apply extract_timetable_and_faculty_ok in H as (-> & _ & _).
  rewrite tables_of_flat. split; reflexivity.
Qed.

(** ** Runs that return *)

Lemma returns_ret {A} (a : A) : returns (ret a).
Proof. intros st. now exists a, st. Qed.

Lemma returns_bind {A B} (m : M A) (f : A -> M B) :
  returns m -> (forall a, returns (f a)) -> returns (bind m f).
Proof.
  intros Hm Hf st. destruct (Hm st) as (a & s1 & E).
  destruct (Hf a s1) as (b & s2 & E2). exists b, s2. unfold bind. now rewrite E.
Qed.

Lemma returns_try (m : M unit) : returns (try_pass m).
Proof.
  intros st. unfold try_pass. destruct (m st) as [[a|] s1]; eauto.
Qed.

Lemma returns_current_page : returns current_page.
Proof. intros st. now exists (page st), st. Qed.

Lemma returns_for_each {A B} (body : B -> A -> M B) xs acc :
  (forall acc x, returns (body acc x)) -> returns (for_each body xs acc).
Proof.
  intros Hb. revert acc. induction xs as [|x xs IH]; intros acc; simpl.
  - apply returns_ret.
  - apply returns_bind; [apply Hb | intros a; apply IH].
Qed.

Lemma returns_map_m {A B} (f : A -> M B) xs :
  (forall x, returns (f x)) -> returns (map_m f xs).
Proof.
  intros Hf. induction xs as [|x xs IH]; simpl.
  - apply returns_ret.
  - apply returns_bind; [apply Hf | intros y].
    apply returns_bind; [apply IH | intros ys; apply returns_ret].
Qed.

Section BestEffort.

Variable W : World.
Variable opt : event -> bool.
Hypothesis engine_only_opt : engine_raises_only_at W opt.
Hypothesis writes_never_fail : writes_succeed W.

Lemma returns_call reload e : opt e = false -> returns (call W reload e).
Proof.
  intros He st. unfold call.
  destruct (raises W (e :: trace st)) eqn:R; [|eauto].
  destruct (latest_is_write (e :: trace st)) eqn:Lw.
  - apply writes_never_fail in Lw. congruence.
  - apply (engine_only_opt _ _ Lw) in R. congruence.
Qed.

Lemma returns_with_playwright {A} (body : M A) :
  opt EvStart = false -> returns body -> returns (with_playwright W body).
Proof.
  intros He Hb st. unfold with_playwright.
  destruct (returns_call false He st) as (u & s1 & E).
  unfold observe. rewrite E. destruct (Hb s1) as (a & s2 & E2). rewrite E2. eauto.
Qed.

End BestEffort.

Ltac returns_tac H Hw :=
  repeat first
    [ apply returns_ret
    | apply returns_try
    | apply returns_current_page
    | (apply (returns_call H Hw); vm_compute; reflexivity)
    | apply returns_for_each; intros
    | apply returns_map_m; intros
    | (apply returns_bind; [| intros ?])
    | match goal with
      | |- returns (if ?b then _ else _) => destruct b
      | |- returns (match ?x with _ => _ end) => destruct x
      end
    | progress cbv zeta
    | progress unfold query_page, query, inner_texts, inner_text, stripped_text,
        write_file, interact, observe, numbered_row, attendance_row, library_row,
        bio_row, edu_row, login_and_get_page, report_table, timetable_row,
        faculty_row ].

Lemma quiet_engine W opt : quiet W -> engine_raises_only_at W opt.
Proof. intros Q e tr _ R. rewrite Q in R. discriminate. Qed.

Lemma quiet_writes W : quiet W -> writes_succeed W.
Proof. intros Q tr _. apply Q. Qed.

(** When nothing raises, the numbered scrapes and the table extractor
    return, whatever the rows and tables of the page hold. *)
Lemma fetch_attendance_returns W u p : quiet W -> returns (fetch_attendance W u p).
Proof.
  intros Q. pose proof (quiet_engine (fun _ => false) Q) as H.
  pose proof (quiet_writes Q) as Hw.
  unfold fetch_attendance. apply (returns_with_playwright H Hw); [reflexivity|].
  returns_tac H Hw.
Qed.

Lemma fetch_library_books_returns W u p : quiet W -> returns (fetch_library_books W u p).
Proof.
  intros Q. pose proof (quiet_engine (fun _ => false) Q) as H.
  pose proof (quiet_writes Q) as Hw.
  unfold fetch_library_books. apply (returns_with_playwright H Hw); [reflexivity|].
  returns_tac H Hw.
Qed.

Lemma extract_timetable_and_faculty_returns W lower :
  quiet W -> returns (extract_timetable_and_faculty W lower).
Proof.
  intros Q. pose proof (quiet_engine (fun _ => false) Q) as H.
  pose proof (quiet_writes Q) as Hw.
  unfold extract_timetable_and_faculty. returns_tac H Hw.
Qed.

(** C3 (as amended).  A returning attendance scrape returns, in page
    order, one record for each row of the queried attendance table that
    has 5 cells and whose trimmed first cell passes [str.isdigit], and
    nothing for any other row; the record pairs the five field names with
    the trimmed cells.  The scrape returns whenever nothing raises,
    whatever the rows hold.  The same holds of one iteration of the row
    loop.  On ASCII text [str.isdigit] is
    the decimal-integer test of the specification.  The row
    1/Maths/40/38/95.0 is emitted and the Total row is dropped. *)
Theorem attendance_row_emission (W : World) (data : list record) (row : Row) (st : state) :
  (forall u p result st',
     fetch_attendance W u p st = (Ok result, st') ->
     exists new mid,
       trace st' = new ++ EvQuery (lit "table.cellBorder tr")
                       :: EvWaitTimeout 1500 :: mid ++ trace st /\
       result = flat_map (fun r => numbered_records attendance_headers 5 (row_td r))
                  (attendance_rows (shows W (EvWaitTimeout 1500 :: mid ++ trace st)))) /\
  (quiet W -> forall u p,
     exists result st', fetch_attendance W u p st = (Ok result, st')) /\
  (forall cells : list pystr,
     (length cells = 5 /\ isdigit (strip (nth 0 cells [])) = true /\
      numbered_records attendance_headers 5 cells
      = [combine attendance_headers (map strip cells)]) \/
     ((length cells <> 5 \/ isdigit (strip (nth 0 cells [])) = false) /\
      numbered_records attendance_headers 5 cells = [])) /\
  (forall r st', attendance_row W data row st = (Ok r, st') ->
     (length (row_td row) = 5 /\ isdigit (strip (nth 0 (row_td row) [])) = true /\
      r = data ++ [combine attendance_headers (map strip (row_td row))]) \/
     ((length (row_td row) <> 5 \/ isdigit (strip (nth 0 (row_td row) [])) = false) /\
      r = data)) /\
  (quiet W -> exists st',
     attendance_row W data row st
     = (Ok (data ++ numbered_records attendance_headers 5 (row_td row)), st')) /\
  (is_ascii (strip (nth 0 (row_td row) [])) ->
     isdigit (strip (nth 0 (row_td row) [])) = integer_string (strip (nth 0 (row_td row) []))) /\
  numbered_records attendance_headers 5 maths_row
  = [[(lit "Sl.No.", lit "1"); (lit "Subject", lit "Maths"); (lit "Held", lit "40");
      (lit "Attend", lit "38"); (lit "%", lit "95.0")]] /\
  numbered_records attendance_headers 5 total_row = [].
Proof.
  assert (Y := numbered_row_yields W attendance_headers 5 data row eq_refl).
  repeat apply conj.
  - intros u p result st' H. now apply fetch_attendance_rows in H.
  - intros Q u p. apply (@fetch_attendance_returns W u p Q st).
  - intros cells. apply numbered_records_cases.
  - intros r st' E. apply (yields_ok st Y) in E as [-> _].
    destruct (numbered_records_cases attendance_headers 5 (row_td row))
      as [(L & D & ->) | (C & ->)].
    + left. auto.
    + right. rewrite app_nil_r. auto.
  - intros Q. apply (yields_quiet st Q Y).
  - apply isdigit_ascii.
  - reflexivity.
  - reflexivity.
Qed.

Lemma attendance_row_emission_witness :
  exists new mid,
    trace (snd (fetch_attendance (still_world attendance_page) (lit "u") (lit "p") start))
    = new ++ EvQuery (lit "table.cellBorder tr")
          :: EvWaitTimeout 1500 :: mid ++ trace start /\
    [combine attendance_headers maths_row]
    = flat_map (fun r => numbered_records attendance_headers 5 (row_td r))
        (attendance_rows
           (shows (still_world attendance_page) (EvWaitTimeout 1500 :: mid ++ trace start))).
Proof.
  apply (proj1 (attendance_row_emission (still_world attendance_page) []
                  (mkRow maths_row []) start) (lit "u") (lit "p")).
  vm_compute. reflexivity.
Defined.

(** C3, the claim as written fails: a row of five cells whose first cell
    is the superscript two is emitted, by the loop body and by the whole
    scrape, and its first cell is not an integer string. *)
Lemma attendance_superscript_emitted :
  fst (attendance_row (still_world blank_page) [] (mkRow superscript_row []) start)
  = Ok [combine attendance_headers superscript_row] /\
  length superscript_row = 5 /\
  integer_string (strip (nth 0 superscript_row [])) = false /\
  fst (fetch_attendance (still_world superscript_page) (lit "u") (lit "p") start)
  = Ok [combine attendance_headers superscript_row].
Proof. vm_compute. auto. Qed.

(** C9 (as amended).  A returning library scrape returns, in page order,
    one record for each row of the queried books table that has 8 cells
    and whose trimmed first cell passes [str.isdigit], and nothing for any
    other row; the record pairs the eight field names with the trimmed
    cells.  The scrape returns whenever nothing raises, whatever the rows
    hold.  The same holds of one iteration of the row loop.  On ASCII
    text [str.isdigit] is the decimal-integer test. *)
Theorem library_row_emission (W : World) (data : list record) (row : Row) (st : state) :
  (forall u p result st',
     fetch_library_books W u p st = (Ok result, st') ->
     exists new mid,
       trace st' = new ++ EvQuery (lit "table#tblbooks tr")
                       :: EvWaitTimeout 1500 :: mid ++ trace st /\
       result = flat_map (fun r => numbered_records library_headers 8 (row_td r))
                  (library_rows (shows W (EvWaitTimeout 1500 :: mid ++ trace st)))) /\
  (quiet W -> forall u p,
     exists result st', fetch_library_books W u p st = (Ok result, st')) /\
  (forall cells : list pystr,
     (length cells = 8 /\ isdigit (strip (nth 0 cells [])) = true /\
      numbered_records library_headers 8 cells
      = [combine library_headers (map strip cells)]) \/
     ((length cells <> 8 \/ isdigit (strip (nth 0 cells [])) = false) /\
      numbered_records library_headers 8 cells = [])) /\
  (forall r st', library_row W data row st = (Ok r, st') ->
     (length (row_td row) = 8 /\ isdigit (strip (nth 0 (row_td row) [])) = true /\
      r = data ++ [combine library_headers (map strip (row_td row))]) \/
     ((length (row_td row) <> 8 \/ isdigit (strip (nth 0 (row_td row) [])) = false) /\
      r = data)) /\
  (quiet W -> exists st',
     library_row W data row st
     = (Ok (data ++ numbered_records library_headers 8 (row_td row)), st')) /\
  (is_ascii (strip (nth 0 (row_td row) [])) ->
     isdigit (strip (nth 0 (row_td row) [])) = integer_string (strip (nth 0 (row_td row) []))).
Proof.
  assert (Y := numbered_row_yields W library_headers 8 data row eq_refl).
  repeat apply conj.
  - intros u p result st' H. now apply fetch_library_books_rows in H.
  - intros Q u p. apply (@fetch_library_books_returns W u p Q st).
  - intros cells. apply numbered_records_cases.
  - intros r st' E. apply (yields_ok st Y) in E as [-> _].
    destruct (numbered_records_cases library_headers 8 (row_td row))
      as [(L & D & ->) | (C & ->)].
    + left. auto.
    + right. rewrite app_nil_r. auto.
  - intros Q. apply (yields_quiet st Q Y).
  - apply isdigit_ascii.
Qed.

Lemma library_row_emission_witness :
  exists new mid,
    trace (snd (fetch_library_books (still_world superscript_page) (lit "u") (lit "p") start))
    = new ++ EvQuery (lit "table#tblbooks tr")
          :: EvWaitTimeout 1500 :: mid ++ trace start /\
    [combine library_headers superscript_book]
    = flat_map (fun r => numbered_records library_headers 8 (row_td r))
        (library_rows
           (shows (still_world superscript_page) (EvWaitTimeout 1500 :: mid ++ trace start))).
Proof.
  apply (proj1 (library_row_emission (still_world superscript_page) []
                  (mkRow superscript_book []) start) (lit "u") (lit "p")).
  vm_compute. reflexivity.
Defined.

(** C9, the claim as written fails: a library row of eight cells whose
    first cell is the superscript two is emitted, by the loop body and by
    the whole scrape. *)
Lemma library_superscript_emitted :
  fst (library_row (still_world blank_page) [] (mkRow superscript_book []) start)
  = Ok [combine library_headers superscript_book] /\
  length superscript_book = 8 /\
  integer_string (strip (nth 0 superscript_book [])) = false /\
  fst (fetch_library_books (still_world superscript_page) (lit "u") (lit "p") start)
  = Ok [combine library_headers superscript_book].
Proof. vm_compute. auto. Qed.

(** C5.  A returning [extract_timetable_and_faculty] returns as its
    timetable, in page order, for every table classified as a timetable,
    one record for each non-header row that has exactly 9 cells and
    nothing for a row of any other cell count; the record pairs the nine
    standard headers with the cell texts, each trimmed and with every
    non-breaking space removed (so that no whitespace is left at either
    end and no U+00A0 anywhere).  The extractor returns whenever nothing
    raises, whatever the rows hold: a row of another cell count is
    skipped, not an error.  The same holds of one iteration of the row
    loop. *)
Theorem timetable_row_emission (W : World) (timetable : list record) (row : Row) (st : state) :
  (forall lower acc st',
     extract_timetable_and_faculty W lower st = (Ok acc, st') ->
     fst acc = flat_map
                 (fun table =>
                    if is_timetable lower (map strip (first_row_cells table))
                    then flat_map (fun r => timetable_records (row_td r))
                                  (tl (table_rows table))
                    else [])
                 (report_tables (page st))) /\
  (quiet W -> forall lower,
     exists acc st', extract_timetable_and_faculty W lower st = (Ok acc, st')) /\
  (forall cells : list pystr,
     (length cells = 9 /\
      timetable_records cells = [combine std_headers (map clean_cell cells)]) \/
     (length cells <> 9 /\ timetable_records cells = [])) /\
  (forall r st', timetable_row W timetable row st = (Ok r, st') ->
     (length (row_td row) = 9 /\
      r = timetable ++ [combine std_headers (map clean_cell (row_td row))]) \/
     (length (row_td row) <> 9 /\ r = timetable)) /\
  (quiet W -> exists st',
     timetable_row W timetable row st
     = (Ok (timetable ++ timetable_records (row_td row)), st')) /\
  (forall t, clean_cell t = remove_nbsp (strip t) /\
             trimmed (clean_cell t) /\ ~ In nbsp (clean_cell t)).
Proof.
  assert (Y := timetable_row_yields W timetable row).
  split; [|split; [|split; [|split; [|split]]]].
  - intros lower acc st' H. now apply extract_timetable_and_faculty_lists in H.
  - intros Q lower. apply (@extract_timetable_and_faculty_returns W lower Q st).
  - intros cells. apply timetable_records_cases.
  - intros r st' E. apply (yields_ok st Y) in E as [-> _].
    destruct (timetable_records_cases (row_td row)) as [(L & ->) | (L & ->)].
    + left. auto.
    + right. rewrite app_nil_r. auto.
  - intros Q. apply (yields_quiet st Q Y).
  - intros t. split; [reflexivity | apply clean_cell_trimmed].
Qed.

Lemma timetable_row_emission_witness :
  fst ([combine std_headers day_row],
       [combine faculty_keys (map lit ["CS101"; "Programming"; "Dr. Rao"; ""]%string)])
  = flat_map
      (fun table =>
         if is_timetable ascii_lower (map strip (first_row_cells table))
         then flat_map (fun r => timetable_records (row_td r)) (tl (table_rows table))
         else [])
      (report_tables (page (mkState [] report_page))).
Proof.
  apply (proj1 (timetable_row_emission (still_world report_page) [] monday
                  (mkState [] report_page)) ascii_lower _
               (snd (extract_timetable_and_faculty (still_world report_page) ascii_lower
                       (mkState [] report_page)))).
  vm_compute. reflexivity.
Defined.

(** C8.  A returning [extract_timetable_and_faculty] returns as its
    faculty list, in page order, for every table classified as a faculty
    allocation, one record for each non-header row that has at least 3
    cells and nothing for a shorter row: cell 0 is the Subject Code, cell 1
    the Subject, cell 2 the Faculty Name, and Initials is cell 3 when the
    row has one and the empty string otherwise.  The extractor returns
    whenever nothing raises.  The same holds of one iteration of the row
    loop. *)
Theorem faculty_row_emission (W : World) (faculty : list record) (row : Row) (st : state) :
  (forall lower acc st',
     extract_timetable_and_faculty W lower st = (Ok acc, st') ->
     snd acc = flat_map
                 (fun table =>
                    if is_faculty lower (map strip (first_row_cells table))
                    then flat_map (fun r => faculty_records (row_td r))
                                  (tl (table_rows table))
                    else [])
                 (report_tables (page st))) /\
  (quiet W -> forall lower,
     exists acc st', extract_timetable_and_faculty W lower st = (Ok acc, st')) /\
  (forall cells : list pystr,
     (3 <= length cells /\
      faculty_records cells =
      [[(lit "Subject Code", clean_cell (nth 0 cells []));
        (lit "Subject", clean_cell (nth 1 cells []));
        (lit "Faculty Name", clean_cell (nth 2 cells []));
        (lit "Initials", match nth_error cells 3 with
                         | Some c => clean_cell c
                         | None => []
                         end)]]) \/
     (length cells < 3 /\ faculty_records cells = [])) /\
  (forall r st', faculty_row W faculty row st = (Ok r, st') ->
     (3 <= length (row_td row) /\
      r = faculty ++
          [[(lit "Subject Code", clean_cell (nth 0 (row_td row) []));
            (lit "Subject", clean_cell (nth 1 (row_td row) []));
            (lit "Faculty Name", clean_cell (nth 2 (row_td row) []));
            (lit "Initials", match nth_error (row_td row) 3 with
                             | Some c => clean_cell c
                             | None => []
                             end)]]) \/
     (length (row_td row) < 3 /\ r = faculty)) /\
  (quiet W -> exists st',
     faculty_row W faculty row st
     = (Ok (faculty ++ faculty_records (row_td row)), st')) /\
  (length (row_td row) <= 3 -> nth_error (row_td row) 3 = None).
Proof.
  assert (Y := faculty_row_yields W faculty row).
  repeat apply conj.
  - intros lower acc st' H. now apply extract_timetable_and_faculty_lists in H.
  - intros Q lower. apply (@extract_timetable_and_faculty_returns W lower Q st).
  - intros cells. apply faculty_records_cases.
  - intros r st' E. apply (yields_ok st Y) in E as [-> _].
    destruct (faculty_records_cases (row_td row)) as [(L & ->) | (L & ->)].
    + left. auto.
    + right. rewrite app_nil_r. auto.
  - intros Q. apply (yields_quiet st Q Y).
  - intros L. now apply nth_error_None.
Qed.

Lemma faculty_row_emission_witness :
  snd ([combine std_headers day_row],
       [combine faculty_keys (map lit ["CS101"; "Programming"; "Dr. Rao"; ""]%string)])
  = flat_map
      (fun table =>
         if is_faculty ascii_lower (map strip (first_row_cells table))
         then flat_map (fun r => faculty_records (row_td r)) (tl (table_rows table))
         else [])
      (report_tables (page (mkState [] report_page))).
Proof.
  apply (proj1 (faculty_row_emission (still_world report_page) [] (mkRow faculty_cells [])
                  (mkState [] report_page)) ascii_lower _
               (snd (extract_timetable_and_faculty (still_world report_page) ascii_lower
                       (mkState [] report_page)))).
  vm_compute. reflexivity.
Defined.

(** C4.  Every table of the report container is classified from the
    trimmed texts of its first-row cells: timetable when some lower-cased
    header starts with "day" or contains "period", faculty when some
    lower-cased header contains "subject code" or "faculty".  The two tests
    are independent: a returning [extract_timetable_and_faculty] returns
    as its timetable the timetable records of exactly the tables passing
    the first test and as its faculty list the faculty records of exactly
    the tables passing the second, so a table matching neither contributes
    to neither list and a table matching both contributes to both.  The
    extractor returns whenever nothing raises.  The same holds of one
    iteration of the table loop. *)
Theorem table_classification (W : World) (lower : pystr -> pystr)
    (acc : list record * list record) (table : Table) (st : state) :
  let headers := map strip (first_row_cells table) in
  let rows := tl (table_rows table) in
  (forall result st',
     extract_timetable_and_faculty W lower st = (Ok result, st') ->
     fst result = flat_map
                    (fun t =>
                       if is_timetable lower (map strip (first_row_cells t))
                       then flat_map (fun r => timetable_records (row_td r))
                                     (tl (table_rows t))
                       else [])
                    (report_tables (page st)) /\
     snd result = flat_map
                    (fun t =>
                       if is_faculty lower (map strip (first_row_cells t))
                       then flat_map (fun r => faculty_records (row_td r))
                                     (tl (table_rows t))
                       else [])
                    (report_tables (page st))) /\
  (quiet W ->
     exists result st', extract_timetable_and_faculty W lower st = (Ok result, st')) /\
  (is_timetable lower headers = true <->
   exists h, In h headers /\
     (starts_with (lit "day") (lower h) \/ has_substring (lit "period") (lower h))) /\
  (is_faculty lower headers = true <->
   exists h, In h headers /\
     (has_substring (lit "subject code") (lower h) \/
      has_substring (lit "faculty") (lower h))) /\
  (forall r st', report_table W lower acc table st = (Ok r, st') ->
     fst r = fst acc ++
       (if is_timetable lower headers
        then flat_map (fun row => timetable_records (row_td row)) rows else []) /\
     snd r = snd acc ++
       (if is_faculty lower headers
        then flat_map (fun row => faculty_records (row_td row)) rows else []) /\
     (is_timetable lower headers = false -> is_faculty lower headers = false -> r = acc)) /\
  (quiet W -> exists st',
     report_table W lower acc table st
     = (Ok (fst acc ++ timetable_of lower table, snd acc ++ faculty_of lower table), st')) /\
  ((forall s, is_ascii s -> lower s = ascii_lower s) ->
   is_timetable lower timetable_header = true /\
   is_faculty lower timetable_header = false /\
   is_timetable lower faculty_header = false /\
   is_faculty lower faculty_header = true /\
   is_timetable lower plain_header = false /\
   is_faculty lower plain_header = false).
Proof.
  intros headers rows.
  assert (Y := report_table_yields W lower acc table).
  split; [|split; [|split; [apply is_timetable_spec|]; split; [apply is_faculty_spec|];
                    split; [|split]]].
  - intros result st' H. now apply extract_timetable_and_faculty_lists in H.
  - intros Q. apply (@extract_timetable_and_faculty_returns W lower Q st).
  - intros r st' E. apply (yields_ok st Y) in E as [-> _].
    unfold timetable_of, faculty_of. fold headers rows. simpl.
    split; [reflexivity|]. split; [reflexivity|].
    intros -> ->. rewrite !app_nil_r. now destruct acc.
  - intros Q. apply (yields_quiet st Q Y).
  - intros Hl. destruct lit_headers_ascii as (A1 & A2 & A3).
    destruct (@lower_on_ascii lower _ Hl A1) as [-> ->].
    destruct (@lower_on_ascii lower _ Hl A2) as [-> ->].
    destruct (@lower_on_ascii lower _ Hl A3) as [-> ->].
    repeat split; reflexivity.
Qed.

Lemma table_classification_witness :
  fst ([combine std_headers day_row],
       [combine faculty_keys (map lit ["CS101"; "Programming"; "Dr. Rao"; ""]%string)])
  = flat_map
      (fun t =>
         if is_timetable ascii_lower (map strip (first_row_cells t))
         then flat_map (fun r => timetable_records (row_td r)) (tl (table_rows t))
         else [])
      (report_tables (page (mkState [] report_page))) /\
  snd ([combine std_headers day_row],
       [combine faculty_keys (map lit ["CS101"; "Programming"; "Dr. Rao"; ""]%string)])
  = flat_map
      (fun t =>
         if is_faculty ascii_lower (map strip (first_row_cells t))
         then flat_map (fun r => faculty_records (row_td r)) (tl (table_rows t))
         else [])
      (report_tables (page (mkState [] report_page))).
Proof.
  apply (proj1 (table_classification (still_world report_page) ascii_lower no_records
                  sample_table (mkState [] report_page)) _
               (snd (extract_timetable_and_faculty (still_world report_page) ascii_lower
                       (mkState [] report_page)))).
  vm_compute. reflexivity.
Defined.

(** * Further properties of the scrapers *)

(** ** Dicts built by [dict(zip(...))] *)

Lemma keys_dict_set_in {V} (d : dict V) k (v : V) :
  In k (keys d) -> keys (dict_set d k v) = keys d.
Proof.
  induction d as [|[k' v'] d IH]; simpl; [contradiction|].
  destruct (str_eqb k' k) eqn:E; simpl; [reflexivity|].
  intros [H | H].
  - subst k'. now rewrite str_eqb_refl in E.
  - now rewrite IH.
Qed.

Lemma keys_dict_set_fresh {V} (d : dict V) k (v : V) :
  ~ In k (keys d) -> keys (dict_set d k v) = keys d ++ [k].
Proof.
  intros H. rewrite dict_set_fresh by exact H. unfold keys. now rewrite map_app.
Qed.

Lemma in_keys_dec {V} (d : dict V) k : In k (keys d) \/ ~ In k (keys d).
Proof.
  destruct (existsb (str_eqb k) (keys d)) eqn:E.
  - left. apply existsb_exists in E as [x [Hin Hx]].
    apply str_eqb_eq in Hx. now subst x.
  - right. intros Hin.
    assert (existsb (str_eqb k) (keys d) = true)
      by (apply existsb_exists; exists k; split; [exact Hin | apply str_eqb_refl]).
    congruence.
Qed.

Lemma keys_dict_set_NoDup {V} (d : dict V) k (v : V) :
  NoDup (keys d) -> NoDup (keys (dict_set d k v)).
Proof.
  intros H. destruct (in_keys_dec d k) as [Hin | Hout].
  - now rewrite keys_dict_set_in.
  - rewrite keys_dict_set_fresh by exact Hout.
    apply NoDup_app; [exact H | repeat constructor; auto | ].
    intros x Hx [<- | []]. contradiction.
Qed.

Lemma keys_dict_set_iff {V} (d : dict V) k (v : V) x :
  In x (keys (dict_set d k v)) <-> In x (keys d) \/ x = k.
Proof.
  destruct (in_keys_dec d k) as [Hin | Hout].
  - rewrite keys_dict_set_in by exact Hin. split; [auto|].
    intros [H | ->]; assumption.
  - rewrite keys_dict_set_fresh by exact Hout. rewrite in_app_iff. simpl.
    split.
    + intros [H | [<- | []]]; auto.
    + intros [H | ->]; [now left | right; now left].
Qed.

Lemma dict_set_Forall {V} (P : pystr * V -> Prop) (d : dict V) k (v : V) :
  Forall P d -> P (k, v) -> Forall P (dict_set d k v).
Proof.
  intros Hd Hk. induction d as [|[k' v'] d IH]; simpl.
  - now constructor.
  - inversion Hd as [|? ? Hx Hr]; subst.
    destruct (str_eqb k' k) eqn:E.
    + apply str_eqb_eq in E. subst k'. now constructor.
    + constructor; auto.
Qed.

Section FoldSet.

Context {V : Type}.

Let put (d : dict V) (kv : pystr * V) : dict V := dict_set d (fst kv) (snd kv).

Lemma fold_set_NoDup (kvs : list (pystr * V)) (acc : dict V) :
  NoDup (keys acc) -> NoDup (keys (fold_left put kvs acc)).
Proof.
  revert acc. induction kvs as [|kv kvs IH]; intros acc H; simpl; [exact H|].
  apply IH. now apply keys_dict_set_NoDup.
Qed.

Lemma fold_set_keys (kvs : list (pystr * V)) (acc : dict V) x :
  In x (keys (fold_left put kvs acc)) <-> In x (keys acc) \/ In x (map fst kvs).
Proof.
  revert acc. induction kvs as [|kv kvs IH]; intros acc; simpl.
  - tauto.
  - rewrite IH. unfold put. rewrite keys_dict_set_iff.
    split; intros H; intuition auto.
Qed.

Lemma fold_set_get_other (kvs : list (pystr * V)) (acc : dict V) k :
  ~ In k (map fst kvs) -> dict_get (fold_left put kvs acc) k = dict_get acc k.
Proof.
  revert acc. induction kvs as [|kv kvs IH]; intros acc H; simpl; [reflexivity|].
  rewrite IH by (intros Hin; apply H; now right).
  apply dict_get_set_other. intros ->. apply H. now left.
Qed.

Lemma fold_set_last_wins (a b : list (pystr * V)) k (v : V) (acc : dict V) :
  ~ In k (map fst b) ->
  dict_get (fold_left put (a ++ (k, v) :: b) acc) k = Some v.
Proof.
  intros H. rewrite fold_left_app. simpl.
  rewrite fold_set_get_other by exact H.
  apply dict_get_set_same.
Qed.

End FoldSet.

Lemma combine_split {A B} (a1 a2 : list A) (b1 b2 : list B) :
  length a1 = length b1 -> combine (a1 ++ a2) (b1 ++ b2) = combine a1 b1 ++ combine a2 b2.
Proof.
  revert b1. induction a1 as [|x a1 IH]; intros [|y b1] H; simpl in *;
    try discriminate; [reflexivity|].
  f_equal. apply IH. now injection H.
Qed.

Lemma map_fst_combine {A B} (a : list A) (b : list B) :
  length a = length b -> map fst (combine a b) = a.
Proof.
  revert b. induction a as [|x a IH]; intros [|y b] H; simpl in *;
    try discriminate; [reflexivity|].
  f_equal. apply IH. now injection H.
Qed.

Lemma in_map_fst_combine {A B} (a : list A) (b : list B) x :
  In x (map fst (combine a b)) -> In x a.
Proof.
  revert b. induction a as [|y a IH]; intros [|z b]; simpl; try tauto.
  intros [H | H]; [now left | right; eauto].
Qed.

Lemma dict_zip_shape (hs : list pystr) (vs : list pystr) :
  length vs = length hs ->
  NoDup (keys (dict_zip hs vs)) /\
  (forall k, In k (keys (dict_zip hs vs)) <-> In k hs) /\
  (forall h1 k h2 v1 v v2,
     hs = h1 ++ k :: h2 -> vs = v1 ++ v :: v2 -> length h1 = length v1 ->
     ~ In k h2 -> dict_get (dict_zip hs vs) k = Some v).
Proof.
  intros L. unfold dict_zip. repeat apply conj.
  - apply fold_set_NoDup. constructor.
  - intros k. rewrite fold_set_keys. rewrite map_fst_combine by auto. simpl. tauto.
  - intros h1 k h2 v1 v v2 -> -> L1 Hk.
    rewrite combine_split by exact L1. simpl.
    apply fold_set_last_wins. intros Hin. apply Hk.
    eapply in_map_fst_combine; eauto.
Qed.

(** X10.  A calendar record has pairwise distinct keys, its keys are the
    header texts, and when a header text occurs in several columns the
    record holds the trimmed cell of the last such column. *)
Theorem calendar_record_last_column_wins (headers cells : list pystr) (r : record) :
  In r (calendar_records headers cells) ->
  NoDup (keys r) /\
  (forall k, In k (keys r) <-> In k headers) /\
  (forall h1 k h2 v1 v v2,
     headers = h1 ++ k :: h2 -> map strip cells = v1 ++ v :: v2 ->
     length h1 = length v1 -> ~ In k h2 -> dict_get r k = Some v) /\
  length r <= length headers.
Proof.
  destruct (calendar_records_cases headers cells) as [(L & ->) | (_ & ->)];
    [|intros []].
  intros [<- | []].
  assert (L' : length (map strip cells) = length headers)
    by (rewrite length_map; exact L).
  destruct (dict_zip_shape headers (map strip cells) L') as (ND & K & G).
  repeat apply conj; auto.
  assert (E : length (dict_zip headers (map strip cells))
              = length (keys (dict_zip headers (map strip cells))))
    by (unfold keys; now rewrite length_map).
  rewrite E. apply NoDup_incl_length; [exact ND|].
  intros k Hk. now apply K.
Qed.

Lemma calendar_record_last_column_wins_witness :
  dict_get (dict_zip repeated_headers (map strip repeated_cells)) (lit "Date")
  = Some (lit "02-08").
Proof.
  refine (proj1 (proj2 (proj2 (calendar_record_last_column_wins
            repeated_headers repeated_cells
            (dict_zip repeated_headers (map strip repeated_cells)) _)))
          (map lit ["Date"; "Event"]%string) (lit "Date") []
          (map lit ["01-08"; "Term begins"]%string) (lit "02-08") []
          eq_refl eq_refl eq_refl _).
  - left. reflexivity.
  - intros [].
Defined.

(** ** CSV rows of the attendance and library reports *)

Lemma distinct_head_false (k : pystr) (ks : list pystr) h :
  existsb (str_eqb k) ks = false -> In h ks -> str_eqb k h = false.
Proof.
  intros E Hin. destruct (str_eqb k h) eqn:Ekh; [|reflexivity].
  assert (existsb (str_eqb k) ks = true)
    by (apply existsb_exists; exists h; auto).
  congruence.
Qed.

Lemma lookup_combine (ks vs : list pystr) :
  distinct ks = true -> length vs = length ks ->
  map (fun h => match dict_get (combine ks vs) h with Some v => v | None => [] end) ks = vs.
Proof.
  revert vs. induction ks as [|k ks IH]; intros [|v vs] D L; simpl in *;
    try discriminate; [reflexivity|].
  apply andb_true_iff in D as [Dk Dr]. apply negb_true_iff in Dk.
  rewrite str_eqb_refl. f_equal.
  transitivity (map (fun h => match dict_get (combine ks vs) h with
                              | Some v => v
                              | None => []
                              end) ks).
  - apply map_ext_in. intros h Hin.
    now rewrite (@distinct_head_false k ks h Dk Hin).
  - apply IH; [exact Dr | now injection L].
Qed.

Lemma numbered_records_accepted headers n cells :
  numbered_records headers n cells
  = if accepted n cells then [combine headers (map strip cells)] else [].
Proof. reflexivity. Qed.

Lemma accepted_length n cells : accepted n cells = true -> length cells = n.
Proof.
  unfold accepted. intros H. apply andb_true_iff in H as [H _].
  now apply Nat.eqb_eq in H.
Qed.

Lemma csv_rows_of_numbered headers n rows :
  distinct headers = true -> length headers = n ->
  csv_dict_rows headers (numbered_of headers n rows)
  = headers :: map (fun row => map strip (row_td row))
                   (filter (fun row => accepted n (row_td row)) rows).
Proof.
  intros D L. unfold csv_dict_rows, numbered_of. f_equal.
  induction rows as [|row rows IH]; [reflexivity|].
  cbn [flat_map filter]. rewrite numbered_records_accepted.
  destruct (accepted n (row_td row)) eqn:A; cbn [app map]; [|exact IH].
  f_equal; [|exact IH].
  apply lookup_combine; [exact D|].
  rewrite length_map. apply accepted_length in A.
  transitivity n; [exact A | symmetry; exact L].
Qed.

Lemma written_last (tr : list event) name c :
  In (name, c) (writes_of (EvWrite name c :: tr)).
Proof. simpl. apply in_or_app. right. now left. Qed.

Lemma numbered_of_accepted headers n rows :
  numbered_of headers n rows
  = map (fun row => combine headers (map strip (row_td row)))
        (filter (fun row => accepted n (row_td row)) rows).
Proof.
  unfold numbered_of. induction rows as [|row rows IH]; [reflexivity|].
  cbn [flat_map filter]. rewrite numbered_records_accepted.
  destruct (accepted n (row_td row)); cbn [app map]; now rewrite IH.
Qed.

(** X7.  A returning attendance (library) scrape queried the table rows of
    the page the portal showed after the 1500 ms wait of that run.  It
    returns one record for each accepted row of that page, in page order,
    and the only files it writes are the JSON file of the returned records
    and then the CSV file, which holds the field names followed by, for
    each accepted row of that page in page order, exactly the trimmed cell
    texts of that row: writing the records through [csv.DictWriter] gives
    the scraped cells back. *)
Theorem csv_rows_are_the_trimmed_cells (W : World) (u p : pystr) (st : state) :
  (forall data st', fetch_attendance W u p st = (Ok data, st') ->
     exists new mid,
       trace st' = new ++ EvQuery (lit "table.cellBorder tr")
                       :: EvWaitTimeout 1500 :: mid ++ trace st /\
       data = map (fun row => combine attendance_headers (map strip (row_td row)))
                (filter (fun row => accepted 5 (row_td row))
                   (attendance_rows (shows W (EvWaitTimeout 1500 :: mid ++ trace st)))) /\
       writes_of (trace st')
       = writes_of (trace st) ++
         [(lit "output/attendance_data.json", FJson 4 (json_of_records data));
          (lit "output/attendance_data.csv",
           FCsv (attendance_headers ::
                 map (fun row => map strip (row_td row))
                   (filter (fun row => accepted 5 (row_td row))
                      (attendance_rows
                         (shows W (EvWaitTimeout 1500 :: mid ++ trace st))))))]) /\
  (forall data st', fetch_library_books W u p st = (Ok data, st') ->
     exists new mid,
       trace st' = new ++ EvQuery (lit "table#tblbooks tr")
                       :: EvWaitTimeout 1500 :: mid ++ trace st /\
       data = map (fun row => combine library_headers (map strip (row_td row)))
                (filter (fun row => accepted 8 (row_td row))
                   (library_rows (shows W (EvWaitTimeout 1500 :: mid ++ trace st)))) /\
       writes_of (trace st')
       = writes_of (trace st) ++
         [(lit "output/library_books.json", FJson 4 (json_of_records data));
          (lit "output/library_books.csv",
           FCsv (library_headers ::
                 map (fun row => map strip (row_td row))
                   (filter (fun row => accepted 8 (row_td row))
                      (library_rows
                         (shows W (EvWaitTimeout 1500 :: mid ++ trace st))))))]).
Proof.
  split; intros data st' H.
  - pose proof (fetch_attendance_ok _ _ _ _ H) as (_ & Wr & _).
    apply fetch_attendance_rows in H as (new & mid & T & E).
    exists new, mid. split; [exact T|]. split.
    + rewrite E. apply numbered_of_accepted.
    + rewrite Wr. rewrite E at 2. now rewrite csv_rows_of_numbered.
  - pose proof (fetch_library_books_ok _ _ _ _ H) as (_ & Wr & _).
    apply fetch_library_books_rows in H as (new & mid & T & E).
    exists new, mid. split; [exact T|]. split.
    + rewrite E. apply numbered_of_accepted.
    + rewrite Wr. rewrite E at 2. now rewrite csv_rows_of_numbered.
Qed.

Lemma csv_rows_are_the_trimmed_cells_witness :
  exists new mid,
    trace (snd (fetch_attendance (still_world attendance_page) (lit "u") (lit "p") start))
    = new ++ EvQuery (lit "table.cellBorder tr")
          :: EvWaitTimeout 1500 :: mid ++ trace start /\
    [combine attendance_headers maths_row]
    = map (fun row => combine attendance_headers (map strip (row_td row)))
        (filter (fun row => accepted 5 (row_td row))
           (attendance_rows
              (shows (still_world attendance_page)
                 (EvWaitTimeout 1500 :: mid ++ trace start)))) /\
    writes_of (trace (snd (fetch_attendance (still_world attendance_page)
                             (lit "u") (lit "p") start)))
    = writes_of (trace start) ++
      [(lit "output/attendance_data.json",
        FJson 4 (json_of_records [combine attendance_headers maths_row]));
       (lit "output/attendance_data.csv",
        FCsv (attendance_headers ::
              map (fun row => map strip (row_td row))
                (filter (fun row => accepted 5 (row_td row))
                   (attendance_rows
                      (shows (still_world attendance_page)
                         (EvWaitTimeout 1500 :: mid ++ trace start))))))].
Proof.
  apply (proj1 (csv_rows_are_the_trimmed_cells (still_world attendance_page)
                  (lit "u") (lit "p") start)
               [combine attendance_headers maths_row]).
  vm_compute. reflexivity.
Defined.

(** ** What every scraped record looks like *)

Lemma Forall_map_strip_trimmed (cells : list pystr) : Forall trimmed (map strip cells).
Proof.
  induction cells; simpl; constructor; auto using strip_trimmed.
Qed.

Lemma values_combine (ks vs : list pystr) :
  length vs = length ks -> values (combine ks vs) = vs.
Proof.
  revert vs. induction ks as [|k ks IH]; intros [|v vs] H; simpl in *;
    try discriminate; [reflexivity|].
  unfold values in *. simpl. f_equal. apply IH. now injection H.
Qed.

Lemma numbered_record_shape (h0 : pystr) (hs : list pystr) n cells r :
  length (h0 :: hs) = n ->
  In r (numbered_records (h0 :: hs) n cells) ->
  keys r = h0 :: hs /\ Forall trimmed (values r) /\
  exists v, dict_get r h0 = Some v /\ isdigit v = true.
Proof.
  intros Hn Hin. pose proof (@numbered_records_keys _ _ _ _ Hn Hin) as K.
  destruct (numbered_records_cases (h0 :: hs) n cells) as [(L & D & E) | (_ & E)];
    rewrite E in Hin; [|destruct Hin].
  destruct Hin as [<- | []]. split; [exact K|]. split.
  - rewrite values_combine; [apply Forall_map_strip_trimmed|].
    rewrite length_map. transitivity n; [exact L | symmetry; exact Hn].
  - exists (strip (nth 0 cells [])). split; [|exact D].
    destruct cells as [|c0 cs]; [simpl in L; subst n; discriminate|].
    simpl. now rewrite str_eqb_refl.
Qed.

Lemma flat_map_at_most_one {A B} (f : A -> list B) (xs : list A) :
  (forall x, length (f x) <= 1) -> length (flat_map f xs) <= length xs.
Proof.
  intros Hf. induction xs as [|x xs IH]; simpl; [lia|].
  rewrite length_app. specialize (Hf x). lia.
Qed.

Lemma numbered_records_at_most_one headers n cells :
  length (numbered_records headers n cells) <= 1.
Proof.
  destruct (numbered_records_cases headers n cells) as [(_ & _ & ->) | (_ & ->)];
    simpl; lia.
Qed.

Lemma numbered_of_shape (h0 : pystr) (hs : list pystr) n rows :
  length (h0 :: hs) = n ->
  Forall (fun r => keys r = h0 :: hs /\ Forall trimmed (values r) /\
                   exists v, dict_get r h0 = Some v /\ isdigit v = true)
         (numbered_of (h0 :: hs) n rows) /\
  length (numbered_of (h0 :: hs) n rows) <= length rows.
Proof.
  intros Hn. split.
  - apply Forall_forall. intros r Hin. unfold numbered_of in Hin.
    apply in_flat_map in Hin as (row & _ & Hr).
    eapply numbered_record_shape; eauto.
  - apply flat_map_at_most_one. intros row. apply numbered_records_at_most_one.
Qed.

(** X5.  Every record a returning attendance (library) scrape returns has
    exactly the report's field names as keys, in order, only trimmed
    values, and a serial number that passes [str.isdigit]; the scrape
    returns at most one record per row of the table it queried, which is
    the table of the page the portal showed after the 1500 ms wait of that
    run. *)
Theorem numbered_reports_shape (W : World) (u p : pystr) (st : state) :
  (forall data st', fetch_attendance W u p st = (Ok data, st') ->
     Forall (fun r => keys r = attendance_headers /\ Forall trimmed (values r) /\
                      exists v, dict_get r (lit "Sl.No.") = Some v /\ isdigit v = true)
            data /\
     exists new mid,
       trace st' = new ++ EvQuery (lit "table.cellBorder tr")
                       :: EvWaitTimeout 1500 :: mid ++ trace st /\
       length data
       <= length (attendance_rows (shows W (EvWaitTimeout 1500 :: mid ++ trace st)))) /\
  (forall data st', fetch_library_books W u p st = (Ok data, st') ->
     Forall (fun r => keys r = library_headers /\ Forall trimmed (values r) /\
                      exists v, dict_get r (lit "Sl.No") = Some v /\ isdigit v = true)
            data /\
     exists new mid,
       trace st' = new ++ EvQuery (lit "table#tblbooks tr")
                       :: EvWaitTimeout 1500 :: mid ++ trace st /\
       length data
       <= length (library_rows (shows W (EvWaitTimeout 1500 :: mid ++ trace st)))).
Proof.
  split; intros data st' H.
  - apply fetch_attendance_rows in H as (new & mid & T & ->).
    destruct (@numbered_of_shape (lit "Sl.No.") (tl attendance_headers) 5
                (attendance_rows (shows W (EvWaitTimeout 1500 :: mid ++ trace st)))
                eq_refl) as [F L].
    split; [exact F | now exists new, mid].
  - apply fetch_library_books_rows in H as (new & mid & T & ->).
    destruct (@numbered_of_shape (lit "Sl.No") (tl library_headers) 8
                (library_rows (shows W (EvWaitTimeout 1500 :: mid ++ trace st)))
                eq_refl) as [F L].
    split; [exact F | now exists new, mid].
Qed.

Lemma numbered_reports_shape_witness :
  Forall (fun r => keys r = attendance_headers /\ Forall trimmed (values r) /\
                   exists v, dict_get r (lit "Sl.No.") = Some v /\ isdigit v = true)
         [combine attendance_headers maths_row] /\
  exists new mid,
    trace (snd (fetch_attendance (still_world attendance_page) (lit "u") (lit "p") start))
    = new ++ EvQuery (lit "table.cellBorder tr")
          :: EvWaitTimeout 1500 :: mid ++ trace start /\
    length [combine attendance_headers maths_row]
    <= length (attendance_rows
                 (shows (still_world attendance_page)
                    (EvWaitTimeout 1500 :: mid ++ trace start))).
Proof.
  apply (proj1 (numbered_reports_shape (still_world attendance_page)
                  (lit "u") (lit "p") start)
               [combine attendance_headers maths_row]
               (snd (fetch_attendance (still_world attendance_page)
                       (lit "u") (lit "p") start))).
  vm_compute. reflexivity.
Defined.

(** ** Timetable and faculty lists of a page *)

Lemma Forall_map_clean (cells : list pystr) : Forall cleaned (map clean_cell cells).
Proof.
  induction cells; simpl; constructor; auto. apply clean_cell_trimmed.
Qed.

Lemma cleaned_empty : cleaned [].
Proof.
  split; [split|].
  - intros c r H. discriminate.
  - intros r c H. now destruct r.
  - intros [].
Qed.

Lemma timetable_record_shape cells r :
  In r (timetable_records cells) ->
  keys r = std_headers /\ Forall cleaned (values r).
Proof.
  destruct (timetable_records_cases cells) as [(L & ->) | (_ & ->)]; [|intros []].
  intros [<- | []].
  assert (L' : length (map clean_cell cells) = length std_headers)
    by (rewrite length_map; exact L).
  split.
  - now apply keys_combine.
  - rewrite values_combine by exact L'. apply Forall_map_clean.
Qed.

Lemma faculty_record_shape cells r :
  In r (faculty_records cells) ->
  keys r = faculty_keys /\ Forall cleaned (values r).
Proof.
  destruct (faculty_records_cases cells) as [(_ & ->) | (_ & ->)]; [|intros []].
  intros [<- | []]. split; [reflexivity|].
  unfold values. cbn [map snd].
  assert (C : forall t, cleaned (clean_cell t)) by (intros t; apply clean_cell_trimmed).
  constructor; [apply C|]. constructor; [apply C|]. constructor; [apply C|].
  constructor; [|constructor].
  destruct (nth_error cells 3); [apply C | apply cleaned_empty].
Qed.

Lemma timetable_of_shape lower table r :
  In r (timetable_of lower table) -> keys r = std_headers /\ Forall cleaned (values r).
Proof.
  unfold timetable_of. destruct (is_timetable lower _); [|intros []].
  intros H. apply in_flat_map in H as (row & _ & H). now apply timetable_record_shape in H.
Qed.

Lemma faculty_of_shape lower table r :
  In r (faculty_of lower table) -> keys r = faculty_keys /\ Forall cleaned (values r).
Proof.
  unfold faculty_of. destruct (is_faculty lower _); [|intros []].
  intros H. apply in_flat_map in H as (row & _ & H). now apply faculty_record_shape in H.
Qed.

(** X6.  A returning [extract_timetable_and_faculty] returns, in page
    order, the timetable records of all tables of the report container and
    their faculty records; every timetable record has the nine standard
    headers as its keys and every faculty record the four faculty keys,
    and every value is trimmed and free of non-breaking spaces. *)
Theorem timetable_and_faculty_of_a_page (W : World) (lower : pystr -> pystr)
    (st : state) (acc : list record * list record) (st' : state) :
  extract_timetable_and_faculty W lower st = (Ok acc, st') ->
  fst acc = flat_map (timetable_of lower) (report_tables (page st)) /\
  snd acc = flat_map (faculty_of lower) (report_tables (page st)) /\
  Forall (fun r => keys r = std_headers /\ Forall cleaned (values r)) (fst acc) /\
  Forall (fun r => keys r = faculty_keys /\ Forall cleaned (values r)) (snd acc).
Proof.
  intros H. apply extract_timetable_and_faculty_ok in H as (-> & _ & _).
  rewrite tables_of_flat. cbn [fst snd]. repeat apply conj; try reflexivity.
  - apply Forall_forall. intros r Hin. apply in_flat_map in Hin as (t & _ & Hin).
    eapply timetable_of_shape; eauto.
  - apply Forall_forall. intros r Hin. apply in_flat_map in Hin as (t & _ & Hin).
    eapply faculty_of_shape; eauto.
Qed.

Lemma timetable_and_faculty_of_a_page_witness :
  fst ([combine std_headers day_row], @nil record)
  = flat_map (timetable_of ascii_lower) (report_tables (page (mkState [] timetable_page))) /\
  snd ([combine std_headers day_row], @nil record)
  = flat_map (faculty_of ascii_lower) (report_tables (page (mkState [] timetable_page))) /\
  Forall (fun r => keys r = std_headers /\ Forall cleaned (values r))
         (fst ([combine std_headers day_row], @nil record)) /\
  Forall (fun r => keys r = faculty_keys /\ Forall cleaned (values r))
         (snd ([combine std_headers day_row], @nil record)).
Proof.
  apply (@timetable_and_faculty_of_a_page (still_world timetable_page) ascii_lower
           (mkState [] timetable_page) ([combine std_headers day_row], [])
           (snd (extract_timetable_and_faculty (still_world timetable_page) ascii_lower
                   (mkState [] timetable_page)))).
  vm_compute. reflexivity.
Defined.

(** ** Education and personal details *)

Lemma qualification_key_section qual key :
  qualification_key qual = Some key -> In key edu_sections.
Proof.
  unfold qualification_key. intros H.
  repeat match type of H with
         | context [if ?b then _ else _] => destruct b
         end; try discriminate; injection H as <-; unfold edu_sections; simpl; auto.
Qed.

Lemma values_dict_set_Forall {V} (P : V -> Prop) (d : dict V) k (v : V) :
  Forall P (values d) -> P v -> Forall P (values (dict_set d k v)).
Proof.
  intros Hd Hv. induction d as [|[k' v'] d IH]; simpl.
  - now repeat constructor.
  - inversion Hd as [|? ? Hx Hr]; subst.
    destruct (str_eqb k' k); constructor; auto.
Qed.

Lemma edu_update_shape lower (edu : dict record) cells :
  keys edu = edu_sections ->
  Forall (fun rec => keys rec = edu_fields) (values edu) ->
  keys (edu_update lower edu cells) = edu_sections /\
  Forall (fun rec => keys rec = edu_fields) (values (edu_update lower edu cells)).
Proof.
  intros K F.
  destruct (edu_update_cases lower edu cells) as [-> | (key & _ & Q & _ & ->)]; [auto|].
  split.
  - rewrite keys_dict_set_in; [exact K|].
    rewrite K. eapply qualification_key_section; eauto.
  - apply values_dict_set_Forall; [exact F|].
    apply keys_combine. reflexivity.
Qed.

Lemma edu_fold_shape lower rows (edu : dict record) :
  keys edu = edu_sections ->
  Forall (fun rec => keys rec = edu_fields) (values edu) ->
  keys (fold_left (edu_update lower) rows edu) = edu_sections /\
  Forall (fun rec => keys rec = edu_fields) (values (fold_left (edu_update lower) rows edu)).
Proof.
  revert edu. induction rows as [|cells rows IH]; intros edu K F; simpl; [auto|].
  destruct (edu_update_shape lower edu cells K F) as [K' F']. now apply IH.
Qed.

Lemma edu_csv_rows_count (edu : dict record) :
  Forall (fun rec => keys rec = edu_fields) (values edu) ->
  length (flat_map (fun sd => map (fun fv => [lit "Education"; fst sd; fst fv; snd fv])
                                  (snd sd)) edu)
  = 8 * length edu.
Proof.
  induction edu as [|[sec rec] edu IH]; intros F; [reflexivity|].
  inversion F as [|? ? Hr Hrest]; subst. cbn [flat_map snd].
  rewrite length_app, length_map, IH by exact Hrest.
  assert (L : length rec = 8).
  { change 8 with (length edu_fields). rewrite <- Hr. unfold keys. now rewrite length_map. }
  rewrite L. simpl. lia.
Qed.

(** X8.  Whatever the education rows of the profile page hold, the
    Education part of a returning bio-data scrape has exactly the sections
    School (SSC), Intermediate and Diploma, in this order, each with the
    eight fields Board ... GradePoints in order; so bio_data.csv always has
    one header row, one row per personal detail and 24 Education rows, all
    of four columns. *)
Theorem education_shape (W : World) (lower : pystr -> pystr) (u p : pystr)
    (st : state) (bio : dict pystr) (edu : dict record) (st' : state) :
  fetch_bio_data W lower u p st = (Ok (bio, edu), st') ->
  keys edu = edu_sections /\
  Forall (fun rec => keys rec = edu_fields) (values edu) /\
  length (bio_csv_rows bio edu) = 1 + length bio + 24 /\
  Forall (fun row => length row = 4) (bio_csv_rows bio edu).
Proof.
  intros H. apply fetch_bio_data_ok in H as (_ & _ & pg & _ & ->).
  destruct (edu_fold_shape lower (tl (bio_rows1 pg)) default_edu eq_refl) as [K F].
  { repeat constructor. }
  repeat apply conj; [exact K | exact F | |].
  - unfold bio_csv_rows. cbn [length]. rewrite length_app, length_map.
    rewrite edu_csv_rows_count by exact F.
    assert (L : length (fold_left (edu_update lower) (tl (bio_rows1 pg)) default_edu) = 3).
    { change 3 with (length edu_sections). rewrite <- K. unfold keys. now rewrite length_map. }
    rewrite L. reflexivity.
  - unfold bio_csv_rows. constructor; [reflexivity|].
    apply Forall_app. split.
    + apply Forall_forall. intros row Hin. apply in_map_iff in Hin as (fv & <- & _).
      reflexivity.
    + apply Forall_forall. intros row Hin. apply in_flat_map in Hin as (sd & _ & Hin).
      apply in_map_iff in Hin as (fv & <- & _). reflexivity.
Qed.

Lemma education_shape_witness :
  keys default_edu = edu_sections /\
  Forall (fun rec => keys rec = edu_fields) (values default_edu) /\
  length (bio_csv_rows [(lit "Name ", lit "Asha")] default_edu)
  = 1 + length [(lit "Name ", lit "Asha")] + 24 /\
  Forall (fun row => length row = 4) (bio_csv_rows [(lit "Name ", lit "Asha")] default_edu).
Proof.
  apply (@education_shape (still_world profile_page) ascii_lower (lit "u") (lit "p") start
           [(lit "Name ", lit "Asha")] default_edu
           (snd (fetch_bio_data (still_world profile_page) ascii_lower
                   (lit "u") (lit "p") start))).
  vm_compute. reflexivity.
Defined.

Lemma label_stored (t : pystr) : label t <> [] -> stored_label (label t).
Proof.
  intros Hne. split; [exact Hne|]. split.
  - intros r c H. unfold label, rstrip_colon in H.
    apply rstrip_by_last in H. intros ->. now rewrite N.eqb_refl in H.
  - intros c r H. unfold label, rstrip_colon in H.
    apply rstrip_by_head in H as [r' H].
    destruct (strip_trimmed t) as [Hh _]. eapply Hh; eauto.
Qed.

Lemma bio_pairs_form (cells : list pystr) (kv : pystr * pystr) :
  In kv (bio_pairs cells) -> exists t t', kv = (label t, strip t').
Proof.
  unfold bio_pairs. destruct (_ =? 2).
  - intros [<- | []]. eauto.
  - destruct (6 <=? _); [|intros []].
    intros [<- | [<- | []]]; eauto.
Qed.

Lemma add_pair_keeps (bio : dict pystr) (kv : pystr * pystr) :
  (exists t t', kv = (label t, strip t')) ->
  NoDup (keys bio) /\ Forall bio_entry_ok bio ->
  NoDup (keys (add_pair bio kv)) /\ Forall bio_entry_ok (add_pair bio kv).
Proof.
  intros (t & t' & ->) [ND F].
  destruct (add_pair_cases bio (label t) (strip t')) as [(Hk & Hv & ->) | (_ & ->)];
    [|auto].
  split.
  - now apply keys_dict_set_NoDup.
  - apply dict_set_Forall; [exact F|].
    split; [now apply label_stored|]. split; [exact Hv | apply strip_trimmed].
Qed.

Lemma add_pairs_keep (ps : list (pystr * pystr)) (bio : dict pystr) :
  (forall kv, In kv ps -> exists t t', kv = (label t, strip t')) ->
  NoDup (keys bio) /\ Forall bio_entry_ok bio ->
  NoDup (keys (fold_left add_pair ps bio)) /\ Forall bio_entry_ok (fold_left add_pair ps bio).
Proof.
  revert bio. induction ps as [|kv ps IH]; intros bio Hps Hb; simpl; [exact Hb|].
  apply IH.
  - intros kv' Hin. apply Hps. now right.
  - apply add_pair_keeps; [apply Hps; now left | exact Hb].
Qed.

Lemma bio_rows_keep (rows : list (list pystr)) (bio : dict pystr) :
  NoDup (keys bio) /\ Forall bio_entry_ok bio ->
  NoDup (keys (fold_left (fun b cells => fold_left add_pair (bio_pairs cells) b) rows bio)) /\
  Forall bio_entry_ok
         (fold_left (fun b cells => fold_left add_pair (bio_pairs cells) b) rows bio).
Proof.
  revert bio. induction rows as [|cells rows IH]; intros bio Hb; simpl; [exact Hb|].
  apply IH. apply add_pairs_keep; [apply bio_pairs_form | exact Hb].
Qed.

(** X9.  In the BioData part of a returning bio-data scrape no label
    occurs twice, and every entry has a label that is non-empty, does not
    end in a colon and does not start with whitespace, and a value that is
    non-empty and trimmed. *)
Theorem bio_entries_well_formed (W : World) (lower : pystr -> pystr) (u p : pystr)
    (st : state) (bio : dict pystr) (edu : dict record) (st' : state) :
  fetch_bio_data W lower u p st = (Ok (bio, edu), st') ->
  NoDup (keys bio) /\
  Forall (fun kv => stored_label (fst kv) /\ snd kv <> [] /\ trimmed (snd kv)) bio.
Proof.
  intros H. apply fetch_bio_data_ok in H as (_ & _ & pg & -> & _).
  apply bio_rows_keep. split; constructor.
Qed.

Lemma bio_entries_well_formed_witness :
  NoDup (keys [(lit "Name ", lit "Asha")]) /\
  Forall (fun kv => stored_label (fst kv) /\ snd kv <> [] /\ trimmed (snd kv))
         [(lit "Name ", lit "Asha")].
Proof.
  apply (@bio_entries_well_formed (still_world profile_page) ascii_lower
           (lit "u") (lit "p") start
           [(lit "Name ", lit "Asha")] default_edu
           (snd (fetch_bio_data (still_world profile_page) ascii_lower
                   (lit "u") (lit "p") start))).
  vm_compute. reflexivity.
Defined.

(** ** Sessions on every path *)

Lemma triple_bind {A B} P (m : M A) (f : A -> M B) Q R E :
  triple P m Q E -> (forall a, triple (Q a) (f a) R E) -> triple P (bind m f) R E.
Proof.
  intros Hm Hf st r st' H HP. unfold bind in H.
  destruct (m st) as [[a|] s1] eqn:E1.
  - specialize (Hm _ _ _ E1 HP). simpl in Hm. exact (Hf a _ _ _ H Hm).
  - injection H as <- <-. exact (Hm _ _ _ E1 HP).
Qed.

Lemma triple_conseq {A} (P P' : list event -> Prop) (m : M A) Q Q' (E E' : list event -> Prop) :
  triple P m Q E ->
  (forall tr, P' tr -> P tr) -> (forall a tr, Q a tr -> Q' a tr) ->
  (forall tr, E tr -> E' tr) ->
  triple P' m Q' E'.
Proof.
  intros Hm HP HQ HE st r st' H HP'. specialize (Hm _ _ _ H (HP _ HP')).
  destruct r; auto.
Qed.

Lemma logs_for_each {A B} P (body : B -> A -> M B) xs acc :
  (forall acc x, logs_only P (body acc x)) -> logs_only P (for_each body xs acc).
Proof.
  intros Hb. revert acc. induction xs as [|x xs IH]; intros acc; simpl.
  - apply logs_ret.
  - apply logs_bind; [apply Hb | intros a; apply IH].
Qed.

Lemma logs_map_m {A B} P (f : A -> M B) xs :
  (forall x, logs_only P (f x)) -> logs_only P (map_m f xs).
Proof.
  intros Hf. induction xs as [|x xs IH]; simpl.
  - apply logs_ret.
  - apply logs_bind; [apply Hf | intros y].
    apply logs_bind; [apply IH | intros ys; apply logs_ret].
Qed.

Lemma logs_current_page P : logs_only P current_page.
Proof. intros st r st' H. injection H as _ <-. apply logged_refl. Qed.

(** Every part of a scraper that only talks to the page. *)
Ltac logs_plain :=
  repeat first
    [ apply logs_ret
    | apply logs_call; exact I
    | apply logs_current_page
    | apply logs_try
    | apply logs_for_each; intros
    | apply logs_map_m; intros
    | (apply logs_bind; [| intros ?])
    | match goal with
      | |- logs_only _ (if ?b then _ else _) => destruct b
      | |- logs_only _ (match ?x with _ => _ end) => destruct x
      end
    | progress cbv zeta
    | progress unfold query_page, query, inner_texts, inner_text, stripped_text,
        interact, observe, timetable_row, faculty_row, report_table,
        calendar_row, numbered_row, attendance_row, library_row, bio_row, edu_row ].

Section Protocol.

Variable W : World.
Variable str_lower : pystr -> pystr.
Variable Ph : phase -> list event -> Prop.
Hypothesis Ph_plain : forall ph e tr, plain e -> Ph ph tr -> Ph ph (e :: tr).
Hypothesis Ph_launch : forall tr, Ph Idle tr -> Ph Busy (EvLaunch :: tr).
Hypothesis Ph_close : forall tr, Ph Busy tr -> Ph Done (EvClose :: tr).
Hypothesis Ph_write : forall name c tr, Ph Done tr -> Ph Done (EvWrite name c :: tr).
Hypothesis Ph_write_open : forall name c tr, Ph Busy tr -> Ph Busy (EvWrite name c :: tr).

Lemma Ph_plain_run ph new tr : Forall plain new -> Ph ph tr -> Ph ph (new ++ tr).
Proof. induction 1; simpl; auto. Qed.

Lemma steps_plain {A} (m : M A) p : logs_only plain m -> steps Ph p m p.
Proof.
  intros Hm st r st' H HP. destruct (Hm _ _ _ H) as [new [-> F]].
  pose proof (@Ph_plain_run p new (trace st) F HP). destruct r; eauto.
Qed.

Lemma steps_launch : steps Ph Idle (interact W EvLaunch) Busy.
Proof.
  intros st r st' H HP. apply call_inv in H as [-> _]. simpl.
  destruct r; eauto.
Qed.

Lemma steps_close : steps Ph Busy (observe W EvClose) Done.
Proof.
  intros st r st' H HP. apply call_inv in H as [-> _]. simpl.
  destruct r; eauto.
Qed.

Lemma steps_write name c : steps Ph Done (write_file W name c) Done.
Proof.
  intros st r st' H HP. apply call_inv in H as [-> _]. simpl.
  destruct r; eauto.
Qed.

Lemma steps_write_open name c : steps Ph Busy (write_file W name c) Busy.
Proof.
  intros st r st' H HP. apply call_inv in H as [-> _]. simpl.
  destruct r; eauto.
Qed.

Lemma steps_bind {A B} (m : M A) (f : A -> M B) p q r :
  steps Ph p m q -> (forall a, steps Ph q (f a) r) -> steps Ph p (bind m f) r.
Proof. intros Hm Hf. eapply triple_bind; [exact Hm | exact Hf]. Qed.

Lemma steps_with_playwright {A} (body : M A) p q :
  steps Ph p body q -> steps Ph p (with_playwright W body) q.
Proof.
  intros Hb st r st' H HP. unfold with_playwright in H.
  destruct (observe W EvStart st) as [[u|] s1] eqn:E0.
  - apply call_inv in E0 as [-> _].
    destruct (body _) as [r2 s2] eqn:E1. injection H as <- <-.
    assert (P1 : Ph p (trace (mkState (EvStart :: trace st) (page st))))
      by (simpl; apply Ph_plain; [exact I | exact HP]).
    specialize (Hb _ _ _ E1 P1). simpl.
    destruct r2.
    + apply Ph_plain; [exact I | exact Hb].
    + destruct Hb as [ph Hb]. exists ph. apply Ph_plain; [exact I | exact Hb].
  - injection H as <- <-. apply call_inv in E0 as [-> _]. simpl.
    exists p. apply Ph_plain; [exact I | exact HP].
Qed.

Ltac steps_tac :=
  first [ apply steps_launch
        | apply steps_close
        | apply steps_write
        | apply steps_write_open
        | (apply steps_plain; solve [logs_plain])
        | match goal with
          | |- steps _ _ (if ?b then _ else _) _ => destruct b; steps_tac
          | |- steps _ _ (match ?x with _ => _ end) _ => destruct x; steps_tac
          end
        | (eapply steps_bind; [ steps_tac | intros ?; steps_tac ]) ].

Lemma fetch_attendance_steps u p : steps Ph Idle (fetch_attendance W u p) Done.
Proof.
  unfold fetch_attendance, login_and_get_page. apply steps_with_playwright. steps_tac.
Qed.

Lemma fetch_library_books_steps u p : steps Ph Idle (fetch_library_books W u p) Done.
Proof.
  unfold fetch_library_books, login_and_get_page. apply steps_with_playwright. steps_tac.
Qed.

Lemma fetch_bio_data_steps u p : steps Ph Idle (fetch_bio_data W str_lower u p) Done.
Proof.
  unfold fetch_bio_data, login_and_get_page. apply steps_with_playwright. steps_tac.
Qed.

Lemma fetch_timetable_and_calendar_steps u p :
  steps Ph Idle (fetch_timetable_and_calendar W str_lower u p) Done.
Proof.
  unfold fetch_timetable_and_calendar, login_and_get_page,
    extract_timetable_and_faculty, extract_academic_calendar.
  apply steps_with_playwright. steps_tac.
Qed.

End Protocol.

Lemma plain_calm e : plain e -> calm e.
Proof. destruct e; simpl; auto. Qed.

Lemma counted_calm L C ph e tr : calm e -> counted L C ph tr -> counted L C ph (e :: tr).
Proof. unfold counted. destruct e; simpl; intros HC H; try contradiction; exact H. Qed.

Lemma counted_plain L C ph e tr : plain e -> counted L C ph tr -> counted L C ph (e :: tr).
Proof. intros H. apply counted_calm. now apply plain_calm. Qed.

Lemma counted_write L C ph name c tr :
  counted L C ph tr -> counted L C ph (EvWrite name c :: tr).
Proof. apply counted_calm. exact I. Qed.

Lemma counted_launch L C tr : counted L C Idle tr -> counted L C Busy (EvLaunch :: tr).
Proof. unfold counted. simpl. intros [HL HC]. split; lia. Qed.

Lemma counted_close L C tr : counted L C Busy tr -> counted L C Done (EvClose :: tr).
Proof. unfold counted. simpl. intros [HL HC]. split; lia. Qed.

Lemma counted_start (st : state) :
  counted (launches_of (trace st)) (closes_of (trace st)) Idle (trace st).
Proof. unfold counted. split; lia. Qed.

Lemma steps_outcome {A} (m : M A) (st : state) :
  steps (counted (launches_of (trace st)) (closes_of (trace st))) Idle m Done ->
  session_outcome st (m st).
Proof.
  intros Hm. unfold session_outcome. destruct (m st) as [r st'] eqn:E.
  specialize (Hm _ _ _ E (counted_start st)). simpl. destruct r; exact Hm.
Qed.

(** X1.  On every path, whatever call raises, each scraper launches at
    most one browser and closes at most one, never closes before it has
    launched, and when it returns it has launched exactly one browser and
    closed exactly one. *)
Theorem scraper_session_phases (W : World) (lower : pystr -> pystr) (u p : pystr)
    (st : state) :
  session_outcome st (fetch_attendance W u p st) /\
  session_outcome st (fetch_library_books W u p st) /\
  session_outcome st (fetch_bio_data W lower u p st) /\
  session_outcome st (fetch_timetable_and_calendar W lower u p st).
Proof.
  repeat apply conj; apply steps_outcome.
  - apply fetch_attendance_steps; auto using counted_plain, counted_launch, counted_close, counted_write.
  - apply fetch_library_books_steps; auto using counted_plain, counted_launch, counted_close, counted_write.
  - apply fetch_bio_data_steps; auto using counted_plain, counted_launch, counted_close, counted_write.
  - apply fetch_timetable_and_calendar_steps;
      auto using counted_plain, counted_launch, counted_close, counted_write.
Qed.

Lemma sessions_calm ph e tr : calm e -> sessions ph tr -> sessions ph (e :: tr).
Proof.
  unfold sessions. intros HC [N O].
  assert (E : open_sessions (e :: tr) = open_sessions tr)
    by (destruct e; simpl in *; try contradiction; reflexivity).
  split; [|now rewrite E].
  cbn [never_overlapping]. split; [|exact N]. rewrite E, O. destruct ph; lia.
Qed.

Lemma sessions_plain ph e tr : plain e -> sessions ph tr -> sessions ph (e :: tr).
Proof. intros H. apply sessions_calm. now apply plain_calm. Qed.

Lemma sessions_write ph name c tr :
  sessions ph tr -> sessions ph (EvWrite name c :: tr).
Proof. apply sessions_calm. exact I. Qed.

Lemma sessions_launch tr : sessions Idle tr -> sessions Busy (EvLaunch :: tr).
Proof.
  unfold sessions. intros [N O]. cbn [never_overlapping open_sessions].
  rewrite O. auto.
Qed.

Lemma sessions_close tr : sessions Busy tr -> sessions Done (EvClose :: tr).
Proof.
  unfold sessions. intros [N O]. cbn [never_overlapping open_sessions].
  rewrite O. simpl. auto.
Qed.

Lemma triple_get_credentials body (P : list event -> Prop) (E : list event -> Prop) :
  (forall tr, P tr -> E tr) ->
  triple P (get_credentials body) (fun _ => P) E.
Proof.
  intros HE st r st' H HP. unfold get_credentials in H.
  destruct body; injection H as <- <-; auto.
Qed.

Lemma triple_ret {A} (a : A) (P : list event -> Prop) Q E :
  (forall tr, P tr -> Q a tr) -> triple P (ret a) Q E.
Proof. intros HQ st r st' H HP. injection H as <- <-. auto. Qed.

Lemma sessions_any ph tr : sessions ph tr -> never_overlapping tr.
Proof. now intros [N _]. Qed.

Lemma idle_scrape {A} (m : M A) :
  steps sessions Idle m Done ->
  triple (sessions Idle) m (fun _ => sessions Idle) never_overlapping.
Proof.
  intros Hm. eapply triple_conseq; [exact Hm | auto | auto |].
  intros tr [ph H]. eapply sessions_any; eauto.
Qed.

(** X2.  [/get-all] runs its four scrapes one after the other: started
    with no browser open, at no moment of the request, on any path, are
    two browsers open at once. *)
Theorem get_all_never_overlaps (W : World) (lower : pystr -> pystr)
    (body : option (pystr * pystr)) (st : state) :
  never_overlapping (trace st) -> open_sessions (trace st) = 0 ->
  never_overlapping (trace (snd (http_get_all W lower body st))).
Proof.
  intros N O.
  assert (T : triple (sessions Idle)
                (creds <- get_credentials body ;;
                 tt_cal <- fetch_timetable_and_calendar W lower (fst creds) (snd creds) ;;
                 attendance <- fetch_attendance W (fst creds) (snd creds) ;;
                 library <- fetch_library_books W (fst creds) (snd creds) ;;
                 bio <- fetch_bio_data W lower (fst creds) (snd creds) ;;
                 ret (mkAll (fst (fst tt_cal)) (snd (fst tt_cal)) (snd tt_cal)
                            attendance library bio))
                (fun _ => sessions Idle) never_overlapping).
  { eapply triple_bind; [apply triple_get_credentials; apply sessions_any | intros creds].
    eapply triple_bind.
    { apply idle_scrape, fetch_timetable_and_calendar_steps;
        auto using sessions_plain, sessions_launch, sessions_close, sessions_write. }
    intros tt_cal. eapply triple_bind.
    { apply idle_scrape, fetch_attendance_steps;
        auto using sessions_plain, sessions_launch, sessions_close, sessions_write. }
    intros attendance. eapply triple_bind.
    { apply idle_scrape, fetch_library_books_steps;
        auto using sessions_plain, sessions_launch, sessions_close, sessions_write. }
    intros library. eapply triple_bind.
    { apply idle_scrape, fetch_bio_data_steps;
        auto using sessions_plain, sessions_launch, sessions_close, sessions_write. }
    intros bio. apply triple_ret. auto. }
  unfold http_get_all, respond.
  match goal with |- context [match ?m st with _ => _ end] =>
    destruct (m st) as [r st'] eqn:E end.
  specialize (T _ _ _ E (conj N O)).
  destruct r; simpl; [exact (sessions_any T) | exact T].
Qed.

Lemma get_all_never_overlaps_witness :
  never_overlapping
    (trace (snd (http_get_all (still_world attendance_page) ascii_lower
                   (Some (lit "u", lit "p")) start))).
Proof.
  apply (get_all_never_overlaps (still_world attendance_page) ascii_lower
           (Some (lit "u", lit "p")) start); [exact I | reflexivity].
Defined.

Lemma scrape_counts L C k {A} (m : M A) :
  k <= 3 ->
  steps (counted (L + k) (C + k)) Idle m Done ->
  triple (sessions_done L C k) m (fun _ => sessions_done L C (S k)) (sessions_partial L C).
Proof.
  intros Hk Hm. eapply triple_conseq; [exact Hm | | |].
  - unfold sessions_done, counted. intros tr [HL HC]. split; lia.
  - unfold sessions_done, counted. intros _ tr [HL HC]. split; lia.
  - unfold sessions_partial, counted. intros tr [ph [HL HC]].
    destruct ph; [exists k, k | exists (S k), k | exists (S k), (S k)];
      repeat split; lia.
Qed.

Lemma sessions_done_partial L C k tr :
  k <= 4 -> sessions_done L C k tr -> sessions_partial L C tr.
Proof. intros Hk [HL HC]. exists k, k. repeat split; auto; lia. Qed.

(** X3.  A data response of [/get-all] means that exactly four browsers
    were launched and four closed; an error response means that at most
    four were launched, every one but possibly the last was closed, and so
    at most one browser was left open.  A request body that does not parse
    is answered with the error response without any engine call or file
    write. *)
Theorem get_all_sessions_and_response (W : World) (lower : pystr -> pystr)
    (body : option (pystr * pystr)) (st : state) :
  match fst (http_get_all W lower body st) with
  | Data _ =>
      sessions_done (launches_of (trace st)) (closes_of (trace st)) 4
                    (trace (snd (http_get_all W lower body st)))
  | Error500 =>
      sessions_partial (launches_of (trace st)) (closes_of (trace st))
                       (trace (snd (http_get_all W lower body st)))
  end /\
  http_get_all W lower None st = (Error500, st).
Proof.
  split; [|reflexivity].
  set (L := launches_of (trace st)). set (C := closes_of (trace st)).
  assert (T : triple (sessions_done L C 0)
                (creds <- get_credentials body ;;
                 tt_cal <- fetch_timetable_and_calendar W lower (fst creds) (snd creds) ;;
                 attendance <- fetch_attendance W (fst creds) (snd creds) ;;
                 library <- fetch_library_books W (fst creds) (snd creds) ;;
                 bio <- fetch_bio_data W lower (fst creds) (snd creds) ;;
                 ret (mkAll (fst (fst tt_cal)) (snd (fst tt_cal)) (snd tt_cal)
                            attendance library bio))
                (fun _ => sessions_done L C 4) (sessions_partial L C)).
  { eapply triple_bind.
    { apply triple_get_credentials. intros tr. apply sessions_done_partial. lia. }
    intros creds. eapply triple_bind.
    { apply scrape_counts; [lia|]. apply fetch_timetable_and_calendar_steps;
        auto using counted_plain, counted_launch, counted_close, counted_write. }
    intros tt_cal. eapply triple_bind.
    { apply scrape_counts; [lia|]. apply fetch_attendance_steps;
        auto using counted_plain, counted_launch, counted_close, counted_write. }
    intros attendance. eapply triple_bind.
    { apply scrape_counts; [lia|]. apply fetch_library_books_steps;
        auto using counted_plain, counted_launch, counted_close, counted_write. }
    intros library. eapply triple_bind.
    { apply scrape_counts; [lia|]. apply fetch_bio_data_steps;
        auto using counted_plain, counted_launch, counted_close, counted_write. }
    intros bio. apply triple_ret. auto. }
  unfold http_get_all, respond.
  match goal with |- context [match ?m st with _ => _ end] =>
    destruct (m st) as [r st'] eqn:E end.
  assert (P0 : sessions_done L C 0 (trace st)) by (unfold sessions_done, L, C; lia).
  specialize (T _ _ _ E P0). destruct r; exact T.
Qed.

Lemma respond_outcome {A} (m : M A) (st : state) :
  session_outcome st (m st) -> endpoint_outcome st (respond m st).
Proof.
  unfold session_outcome, endpoint_outcome, respond.
  destruct (m st) as [[a|] st']; simpl; auto.
Qed.

Lemma with_credentials_outcome {A} body (f : pystr * pystr -> M A) (st : state) :
  (forall creds, session_outcome st (f creds st)) ->
  session_outcome st (bind (get_credentials body) f st).
Proof.
  intros Hf. unfold bind, get_credentials. destruct body as [creds|].
  - apply Hf.
  - unfold session_outcome. simpl. exists Idle. apply counted_start.
Qed.

(** X4.  Each single-report endpoint answers on every path: with data only
    after exactly one browser was launched and closed, and with the error
    response after at most one launch and never a close without a launch;
    a request body that does not parse causes no engine call at all. *)
Theorem single_endpoint_sessions (W : World) (lower : pystr -> pystr)
    (body : option (pystr * pystr)) (st : state) :
  endpoint_outcome st (http_get_attendance W body st) /\
  endpoint_outcome st (http_get_library_books W body st) /\
  endpoint_outcome st (http_get_bio_data W lower body st) /\
  endpoint_outcome st (http_get_timetable_and_calendar W lower body st) /\
  http_get_attendance W None st = (Error500, st) /\
  http_get_library_books W None st = (Error500, st) /\
  http_get_bio_data W lower None st = (Error500, st) /\
  http_get_timetable_and_calendar W lower None st = (Error500, st).
Proof.
  repeat apply conj; try reflexivity;
    apply respond_outcome, with_credentials_outcome; intros creds;
    apply (scraper_session_phases W lower (fst creds) (snd creds) st).
Qed.

(** ** Best-effort interactions *)

(** X11.  The best-effort interactions are not fatal.  Suppose no file
    write fails (every file can be opened and its content encoded).  When
    no engine call other than the "Till Now" check and the "Show" click
    raises, the attendance scrape still returns; when no engine call
    other than the BIO-DATA click and the wait for the bio-data panel
    raises, the bio-data scrape still returns. *)
Theorem optional_interactions_not_fatal (W : World) (lower : pystr -> pystr)
    (u p : pystr) (st : state) :
  (engine_raises_only_at W attendance_optional -> writes_succeed W ->
   exists data st', fetch_attendance W u p st = (Ok data, st')) /\
  (engine_raises_only_at W bio_optional -> writes_succeed W ->
   exists data st', fetch_bio_data W lower u p st = (Ok data, st')).
Proof.
  split; intros H Hw.
  - assert (R : returns (fetch_attendance W u p)).
    { unfold fetch_attendance. apply (returns_with_playwright H Hw); [reflexivity|].
      returns_tac H Hw. }
    apply R.
  - assert (R : returns (fetch_bio_data W lower u p)).
    { unfold fetch_bio_data. apply (returns_with_playwright H Hw); [reflexivity|].
      returns_tac H Hw. }
    apply R.
Qed.

Lemma optional_interactions_not_fatal_witness :
  exists data st',
    fetch_attendance (failing_at attendance_optional attendance_page)
      (lit "u") (lit "p") start = (Ok data, st').
Proof.
  apply (proj1 (optional_interactions_not_fatal
                  (failing_at attendance_optional attendance_page) ascii_lower
                  (lit "u") (lit "p") start)).
  - intros e tr _ H. exact H.
  - intros [|e tr] H; [discriminate|]. destruct e; try discriminate. reflexivity.
Defined.

(** ** Files are written after the browser is closed *)

Lemma wac_plain Wr C ph e tr :
  plain e -> write_after_close Wr C ph tr -> write_after_close Wr C ph (e :: tr).
Proof.
  unfold write_after_close. destruct ph, e; simpl; intros HP H;
    try contradiction; exact H.
Qed.

Lemma wac_launch Wr C tr :
  write_after_close Wr C Idle tr -> write_after_close Wr C Busy (EvLaunch :: tr).
Proof. unfold write_after_close. simpl. auto. Qed.

Lemma wac_close Wr C tr :
  write_after_close Wr C Busy tr -> write_after_close Wr C Done (EvClose :: tr).
Proof. unfold write_after_close. simpl. intros [_ ->]. reflexivity. Qed.

Lemma wac_write Wr C name c tr :
  write_after_close Wr C Done tr -> write_after_close Wr C Done (EvWrite name c :: tr).
Proof. unfold write_after_close. simpl. auto. Qed.

Lemma steps_wrote_only_closed {A} (m : M A) (st : state) :
  steps (write_after_close (writes_of (trace st)) (closes_of (trace st))) Idle m Done ->
  wrote_only_closed st (m st).
Proof.
  intros Hm. unfold wrote_only_closed. destruct (m st) as [r st'] eqn:E.
  assert (P0 : write_after_close (writes_of (trace st)) (closes_of (trace st)) Idle (trace st))
    by (simpl; auto).
  specialize (Hm _ _ _ E P0). simpl. destruct r.
  - right. exact Hm.
  - destruct Hm as [[| |] H]; simpl in H; [left | left | right]; tauto.
Qed.

(** X13.  The attendance, library and bio-data scrapers write no file
    before [browser.close]: on every path, a run that raised without
    closing the browser has written nothing, so it leaves the files of an
    earlier scrape as they were. *)
Theorem files_written_only_after_close (W : World) (lower : pystr -> pystr)
    (u p : pystr) (st : state) :
  wrote_only_closed st (fetch_attendance W u p st) /\
  wrote_only_closed st (fetch_library_books W u p st) /\
  wrote_only_closed st (fetch_bio_data W lower u p st).
Proof.
  repeat apply conj; apply steps_wrote_only_closed.
  - apply fetch_attendance_steps; auto using wac_plain, wac_launch, wac_close, wac_write.
  - apply fetch_library_books_steps; auto using wac_plain, wac_launch, wac_close, wac_write.
  - apply fetch_bio_data_steps; auto using wac_plain, wac_launch, wac_close, wac_write.
Qed.

(** ** Scraping a stable portal *)

Lemma runs_ret {A} (a : A) st (Q : A -> state -> Prop) : Q a st -> runs_to (ret a) st Q.
Proof. intros H. now exists a, st. Qed.

Lemma runs_bind {A B} (m : M A) (f : A -> M B) st (Q : B -> state -> Prop) :
  runs_to m st (fun a s1 => runs_to (f a) s1 Q) -> runs_to (bind m f) st Q.
Proof.
  intros (a & s1 & E & b & s2 & E2 & HQ). exists b, s2. unfold bind. rewrite E. auto.
Qed.

Lemma runs_try (m : M unit) st (Q : unit -> state -> Prop) :
  runs_to m st (fun _ s => Q tt s) -> runs_to (try_pass m) st Q.
Proof.
  intros (a & s1 & E & HQ). exists tt, s1. unfold try_pass. rewrite E. auto.
Qed.

Section Stable.

Variable W : World.
Variable pg : Page.
Hypothesis engine_never_raises : engine_quiet W.
Hypothesis writes_never_fail : writes_succeed W.
Hypothesis always_shows : forall tr, shows W tr = pg.

Lemma never_raises : quiet W.
Proof.
  intros tr. destruct (latest_is_write tr) eqn:Lw.
  - now apply writes_never_fail.
  - now apply engine_never_raises.
Qed.

Lemma runs_interact e st (Q : unit -> state -> Prop) :
  Q tt (mkState (e :: trace st) pg) -> runs_to (interact W e) st Q.
Proof.
  intros H. exists tt, (mkState (e :: trace st) pg). split; [|exact H].
  unfold interact, call. now rewrite never_raises, always_shows.
Qed.

Lemma runs_observe e st (Q : unit -> state -> Prop) :
  Q tt (mkState (e :: trace st) (page st)) -> runs_to (observe W e) st Q.
Proof.
  intros H. exists tt, (mkState (e :: trace st) (page st)). split; [|exact H].
  unfold observe, call. now rewrite never_raises.
Qed.

Lemma runs_query_page {A} sel (field : Page -> A) st (Q : A -> state -> Prop) :
  Q (field (page st)) (mkState (EvQuery (lit sel) :: trace st) (page st)) ->
  runs_to (query_page W sel field) st Q.
Proof.
  intros H. eexists _, _. split; [|exact H].
  apply query_page_ok. apply never_raises.
Qed.

Lemma runs_yields {A} (m : M A) v st (Q : A -> state -> Prop) :
  yields W m v -> (forall s', page s' = page st -> Q v s') -> runs_to m st Q.
Proof.
  intros Y HQ. destruct (Y st) as (r & s' & E & _ & P & [-> | [_ [tr R]]]).
  - exists v, s'. auto.
  - rewrite never_raises in R. discriminate.
Qed.

Lemma runs_with_playwright {A} (body : M A) st (Q : A -> state -> Prop) :
  runs_to body (mkState (EvStart :: trace st) (page st))
          (fun a s2 => Q a (mkState (EvStop :: trace s2) (page s2))) ->
  runs_to (with_playwright W body) st Q.
Proof.
  intros (a & s2 & E & HQ). eexists _, _. split; [|exact HQ].
  unfold with_playwright, observe, call. rewrite never_raises. now rewrite E.
Qed.

Lemma runs_login u p st (Q : unit -> state -> Prop) :
  (forall s, page s = pg -> Q tt s) -> runs_to (login_and_get_page W u p) st Q.
Proof.
  intros HQ. unfold login_and_get_page.
  repeat (apply runs_bind; apply runs_interact).
  apply runs_interact. now apply HQ.
Qed.

Lemma runs_write name c st (Q : unit -> state -> Prop) :
  Q tt (mkState (EvWrite (lit name) c :: trace st) (page st)) ->
  runs_to (write_file W name c) st Q.
Proof. apply runs_observe. Qed.

Lemma runs_write_if (b : bool) name c st (Q : unit -> state -> Prop) :
  (forall s, page s = page st -> Q tt s) ->
  runs_to (if b then write_file W name c else ret tt) st Q.
Proof.
  intros HQ. destruct b; [apply runs_write | apply runs_ret]; now apply HQ.
Qed.

Lemma stable_attendance u p st :
  runs_to (fetch_attendance W u p) st
          (fun data _ => data = numbered_of attendance_headers 5 (attendance_rows pg)).
Proof.
  unfold fetch_attendance. apply runs_with_playwright.
  apply runs_bind, runs_login. intros s Ps.
  apply runs_bind, runs_interact. apply runs_bind, runs_interact.
  apply runs_bind, runs_try.
  apply runs_bind, runs_interact. apply runs_interact.
  apply runs_bind, runs_interact.
  apply runs_bind, runs_query_page. cbn [page].
  apply runs_bind.
  eapply runs_yields.
  { apply yields_for_each. intros acc x. apply numbered_row_yields. reflexivity. }
  intros s1 P1. rewrite fold_append. cbn [app].
  apply runs_bind, runs_observe. apply runs_bind, runs_write. apply runs_bind, runs_write.
  apply runs_ret. reflexivity.
Qed.

Lemma stable_library u p st :
  runs_to (fetch_library_books W u p) st
          (fun data _ => data = numbered_of library_headers 8 (library_rows pg)).
Proof.
  unfold fetch_library_books. apply runs_with_playwright.
  apply runs_bind, runs_login. intros s Ps.
  apply runs_bind, runs_interact. apply runs_bind, runs_interact.
  apply runs_bind, runs_query_page. cbn [page].
  apply runs_bind.
  eapply runs_yields.
  { apply yields_for_each. intros acc x. apply numbered_row_yields. reflexivity. }
  intros s1 P1. rewrite fold_append. cbn [app].
  apply runs_bind, runs_observe. apply runs_bind, runs_write. apply runs_bind, runs_write.
  apply runs_ret. reflexivity.
Qed.

Lemma stable_bio lower u p st :
  runs_to (fetch_bio_data W lower u p) st
          (fun data _ => data = (bio_of pg, edu_of lower pg)).
Proof.
  unfold fetch_bio_data. apply runs_with_playwright.
  apply runs_bind, runs_login. intros s Ps.
  apply runs_bind, runs_interact. apply runs_bind, runs_interact.
  apply runs_bind, runs_try.
  apply runs_bind, runs_interact. apply runs_interact.
  apply runs_bind, runs_query_page. cbn [page].
  apply runs_bind.
  eapply runs_yields.
  { apply yields_for_each. intros acc x. apply bio_row_yields. }
  intros s1 P1. cbn [page] in P1.
  apply runs_bind, runs_query_page. cbn [page]. rewrite P1.
  apply runs_bind.
  eapply runs_yields.
  { apply yields_for_each. intros acc x. apply edu_row_yields. }
  intros s2 P2.
  apply runs_bind, runs_observe. apply runs_bind, runs_write. apply runs_bind, runs_write.
  apply runs_ret. reflexivity.
Qed.

Lemma stable_timetable lower u p st :
  runs_to (fetch_timetable_and_calendar W lower u p) st
          (fun data _ => data = (flat_map (timetable_of lower) (report_tables pg),
                                 flat_map (faculty_of lower) (report_tables pg),
                                 calendar_of pg)).
Proof.
  unfold fetch_timetable_and_calendar. apply runs_with_playwright.
  apply runs_bind, runs_login. intros s Ps.
  apply runs_bind, runs_interact. apply runs_bind, runs_interact.
  apply runs_bind. unfold extract_timetable_and_faculty.
  apply runs_bind, runs_query_page. cbn [page].
  apply runs_bind.
  eapply runs_yields.
  { apply yields_for_each. intros acc x. apply report_table_yields. }
  intros s1 P1. rewrite fold_pair_append. cbn [fst snd app].
  apply runs_bind, runs_write_if. intros s2 P2.
  apply runs_bind, runs_write_if. intros s3 P3.
  apply runs_ret.
  apply runs_bind, runs_interact. apply runs_bind, runs_interact.
  apply runs_bind. unfold extract_academic_calendar, calendar_of.
  apply runs_bind, runs_query_page. cbn [page].
  destruct (calendar_container pg) as [[|row0 rest]|].
  - apply runs_bind. eapply runs_yields; [apply yields_query|]. intros s4 P4.
    apply runs_ret. apply runs_bind, runs_observe. apply runs_ret. reflexivity.
  - apply runs_bind. eapply runs_yields; [apply yields_query|]. intros s4 P4.
    apply runs_bind. eapply runs_yields; [apply yields_query|]. intros s5 P5.
    apply runs_bind. eapply runs_yields; [apply yields_inner_texts|]. intros s6 P6.
    apply runs_bind.
    eapply runs_yields.
    { apply yields_for_each. intros acc x. apply calendar_row_yields. }
    intros s7 P7. rewrite fold_append. cbn [app].
    apply runs_bind, runs_write_if. intros s8 P8.
    apply runs_ret. apply runs_bind, runs_observe. apply runs_ret. reflexivity.
  - apply runs_ret. apply runs_bind, runs_observe. apply runs_ret. reflexivity.
Qed.

End Stable.

Lemma runs_to_fst {A} (m : M A) st (v : A) :
  runs_to m st (fun a _ => a = v) -> fst (m st) = Ok v.
Proof. intros (a & s' & E & ->). now rewrite E. Qed.

(** X12.  Against a portal that shows the same page whatever is done, when
    no engine call raises and no file write fails (every file can be
    opened and its content encoded), every scraper returns, and what it returns
    is determined by that page alone, not by the credentials or by what
    happened before: the attendance and library scrapes return the accepted
    rows of the page, the bio-data scrape its personal details and
    education records, the timetable scrape the timetable and faculty
    records of all report tables and the calendar.  Repeating a scrape
    therefore returns the same data. *)
Theorem stable_portal_scrapes (W : World) (lower : pystr -> pystr) (pg : Page)
    (u p : pystr) (st : state) :
  engine_quiet W -> writes_succeed W -> (forall tr, shows W tr = pg) ->
  fst (fetch_attendance W u p st)
  = Ok (numbered_of attendance_headers 5 (attendance_rows pg)) /\
  fst (fetch_library_books W u p st)
  = Ok (numbered_of library_headers 8 (library_rows pg)) /\
  fst (fetch_bio_data W lower u p st) = Ok (bio_of pg, edu_of lower pg) /\
  fst (fetch_timetable_and_calendar W lower u p st)
  = Ok (flat_map (timetable_of lower) (report_tables pg),
        flat_map (faculty_of lower) (report_tables pg),
        calendar_of pg).
Proof.
  intros Q Wr S. repeat apply conj; apply runs_to_fst.
  - now apply stable_attendance.
  - now apply stable_library.
  - now apply stable_bio.
  - now apply stable_timetable.
Qed.

Lemma stable_portal_scrapes_witness :
  fst (fetch_attendance (still_world attendance_page) (lit "u") (lit "p") start)
  = Ok (numbered_of attendance_headers 5 (attendance_rows attendance_page)) /\
  fst (fetch_library_books (still_world attendance_page) (lit "u") (lit "p") start)
  = Ok (numbered_of library_headers 8 (library_rows attendance_page)) /\
  fst (fetch_bio_data (still_world attendance_page) ascii_lower (lit "u") (lit "p") start)
  = Ok (bio_of attendance_page, edu_of ascii_lower attendance_page) /\
  fst (fetch_timetable_and_calendar (still_world attendance_page) ascii_lower
         (lit "u") (lit "p") start)
  = Ok (flat_map (timetable_of ascii_lower) (report_tables attendance_page),
        flat_map (faculty_of ascii_lower) (report_tables attendance_page),
        calendar_of attendance_page).
Proof.
  apply (@stable_portal_scrapes (still_world attendance_page) ascii_lower attendance_page
           (lit "u") (lit "p") start).
  - intros tr _. reflexivity.
  - intros tr _. reflexivity.
  - intros tr. reflexivity.
Defined.

Lemma runs_known {A} (m : M A) st (v : A) (Q : A -> state -> Prop) :
  runs_to m st (fun a _ => a = v) -> (forall s, Q v s) -> runs_to m st Q.
Proof. intros (a & s' & E & ->) HQ. exists v, s'. auto. Qed.

Lemma respond_data {A} (m : M A) st (v : A) :
  runs_to m st (fun a _ => a = v) -> fst (respond m st) = Data v.
Proof. intros (a & s' & E & ->). unfold respond. now rewrite E. Qed.

(** X14.  Against a portal that shows the same page whatever is done, when
    no engine call raises and no file write fails (every file can be
    opened and its content encoded), every endpoint called with
    credentials answers with data: the six parts of the [/get-all] result
    are the timetable, faculty allocation, calendar, attendance, library
    books and bio-data read off the shown page, each what the report's
    own endpoint answers. *)
Theorem get_all_on_stable_portal (W : World) (lower : pystr -> pystr) (pg : Page)
    (u p : pystr) (st : state) :
  engine_quiet W -> writes_succeed W -> (forall tr, shows W tr = pg) ->
  fst (http_get_all W lower (Some (u, p)) st)
  = Data (mkAll (flat_map (timetable_of lower) (report_tables pg))
                (flat_map (faculty_of lower) (report_tables pg))
                (calendar_of pg)
                (numbered_of attendance_headers 5 (attendance_rows pg))
                (numbered_of library_headers 8 (library_rows pg))
                (bio_of pg, edu_of lower pg)) /\
  fst (http_get_attendance W (Some (u, p)) st)
  = Data (numbered_of attendance_headers 5 (attendance_rows pg)) /\
  fst (http_get_library_books W (Some (u, p)) st)
  = Data (numbered_of library_headers 8 (library_rows pg)) /\
  fst (http_get_bio_data W lower (Some (u, p)) st) = Data (bio_of pg, edu_of lower pg) /\
  fst (http_get_timetable_and_calendar W lower (Some (u, p)) st)
  = Data (flat_map (timetable_of lower) (report_tables pg),
          flat_map (faculty_of lower) (report_tables pg),
          calendar_of pg).
Proof.
  intros Q Wr S. repeat apply conj; apply respond_data; apply runs_bind;
    (eexists _, _; split; [reflexivity|]); cbn [fst snd].
  - apply runs_bind.
    eapply runs_known; [now apply stable_timetable | intros s1].
    apply runs_bind.
    eapply runs_known; [now apply stable_attendance | intros s2].
    apply runs_bind.
    eapply runs_known; [now apply stable_library | intros s3].
    apply runs_bind.
    eapply runs_known; [now apply stable_bio | intros s4].
    apply runs_ret. reflexivity.
  - now apply stable_attendance.
  - now apply stable_library.
  - now apply stable_bio.
  - now apply stable_timetable.
Qed.

Lemma get_all_on_stable_portal_witness :
  fst (http_get_attendance (still_world attendance_page) (Some (lit "u", lit "p")) start)
  = Data (numbered_of attendance_headers 5 (attendance_rows attendance_page)).
Proof.
  apply (@get_all_on_stable_portal (still_world attendance_page) ascii_lower attendance_page
           (lit "u") (lit "p") start).
  - intros tr _. reflexivity.
  - intros tr _. reflexivity.
  - intros tr. reflexivity.
Defined.
